(** * FinFusion: the stock-data providers and the fallback fetcher of [tab3.py]

    A shallow embedding of [safe_api_call], [FinnhubProvider], [YFinanceProvider]
    and [StockDataFetcher] (tab3.py, lines 52-345), and the properties of the
    quote aggregation proved about it.

    Conventions of the embedding.
    - A Python object coming out of a JSON payload or of [yfinance]'s [info]
      is a [value]; a [dict] with string keys is a [gmap string value].
    - Python's [int] is unbounded and exact: an integer of [Z]. Python's
      [float] is IEEE binary64: a primitive float of Rocq. An operation on
      two [int]s is exact, true division apart, which rounds the quotient
      once; an operation that mixes the two converts the [int] first.
      [bool] is a subclass of [int]. Memory is not bounded.
    - Code that may raise returns a [res]; only subclasses of [Exception] are
      modelled (what [except Exception] catches).
    - The calls the fetcher makes on its providers are recorded in a trace,
      so that "is called" and "is not called" are statements about a run.
    - [logger] calls have no effect on any result and are left out. *)

From Stdlib Require Import PrimFloat ZArith Ascii.
From Stdlib Require FloatOps FloatAxioms SpecFloat.
From stdpp Require Import gmap strings list fin_maps.

Set Warnings "-register-all,-inexact-float".

(** ** Python values *)

(** [VInt n] is the [int] [n] and [VNum x] the [float] [x]. *)
Inductive value : Type :=
  | VNone
  | VBool (b : bool)
  | VInt (n : Z)
  | VNum (x : float)
  | VStr (s : string)
  | VList (l : list value)
  | VDict (d : gmap string value).

Abbreviation dict := (gmap string value).

(** ** Exceptions *)

Inductive exn : Type :=
  | AttributeError
  | KeyError (key : string)
  | TypeError
  | ValueError (msg : string)
  | ZeroDivisionError
  | OverflowError
  | ImportError
  | OtherError (msg : string).

Inductive res (A : Type) : Type :=
  | Ok (a : A)
  | Raise (e : exn).
Arguments Ok {A} a.
Arguments Raise {A} e.

#[global] Instance res_ret : MRet res := fun A a => Ok a.
#[global] Instance res_bind : MBind res := fun A B f m =>
  match m with
  | Ok a => f a
  | Raise e => Raise e
  end.

(** ** The operations of Python the providers use *)

(** [bool(v)]: the truth value of an object. A number is false only when
    it compares equal to zero, so a NaN is true. *)
Definition truthy (v : value) : bool :=
  match v with
  | VNone => false
  | VBool b => b
  | VInt n => negb (n =? 0)%Z
  | VNum x => negb (PrimFloat.eqb x 0)
  | VStr s => negb (bool_decide (s = ""))
  | VList l => match l with [] => false | _ => true end
  | VDict d => negb (bool_decide (d = ∅))
  end.

(** The truth value of an [Optional[Dict]]. *)
Definition truthy_dict (o : option dict) : bool :=
  match o with
  | None => false
  | Some d => negb (bool_decide (d = ∅))
  end.

(** [v.get(key)]: only a dict has the method. *)
Definition get (v : value) (key : string) : res value :=
  match v with
  | VDict d => Ok (default VNone (d !! key))
  | _ => Raise AttributeError
  end.

(** [v[key]] with a string key. *)
Definition getitem (v : value) (key : string) : res value :=
  match v with
  | VDict d =>
      match d !! key with
      | Some x => Ok x
      | None => Raise (KeyError key)
      end
  | _ => Raise TypeError
  end.

(** [sub in s] on strings. *)
Fixpoint substring_of (sub s : string) : bool :=
  String.prefix sub s ||
  match s with
  | EmptyString => false
  | String _ s' => substring_of sub s'
  end.

Definition is_str (key : string) (v : value) : bool :=
  match v with
  | VStr s => bool_decide (s = key)
  | _ => false
  end.

(** [key in v] with a string [key]. *)
Definition contains (key : string) (v : value) : res bool :=
  match v with
  | VDict d => Ok (bool_decide (is_Some (d !! key)))
  | VStr s => Ok (substring_of key s)
  | VList l => Ok (existsb (is_str key) l)
  | _ => Raise TypeError
  end.

(** *** Numbers *)

(** The number an object stands for in arithmetic: an [int] ([bool]
    included) or a [float]. *)
Inductive number : Type :=
  | Int (n : Z)
  | Float (x : float).

Definition as_number (v : value) : option number :=
  match v with
  | VBool b => Some (Int (if b then 1 else 0))
  | VInt n => Some (Int n)
  | VNum x => Some (Float x)
  | _ => None
  end.

(** The float nearest to the integer [n], ties to even; infinite when [n]
    is beyond the range of binary64. *)
Definition float_of_Z (n : Z) : float :=
  FloatOps.SF2Prim (SpecFloat.binary_normalize FloatOps.prec FloatOps.emax n 0 false).

(** The conversion of an [int] operand that meets a [float]:
    [OverflowError: int too large to convert to float]. *)
Definition float_of_int (n : Z) : res float :=
  let x := float_of_Z n in
  if PrimFloat.is_infinity x then Raise OverflowError else Ok x.

Definition to_float (a : number) : res float :=
  match a with
  | Int n => float_of_int n
  | Float x => Ok x
  end.

(** [a / b] on two [int]s: the float nearest to the quotient of the two
    integers, ties to even, with the sign of the quotient also when it
    rounds to zero; [OverflowError: integer division result too large for a
    float]. The quotient is taken with at least 55 bits and one more bit
    that tells whether the division left a remainder, which is enough for
    the one rounding to 53 bits. *)
Definition int_true_div (a b : Z) : res float :=
  if (b =? 0)%Z then Raise ZeroDivisionError else
  let negative := xorb (a <? 0)%Z (b <? 0)%Z in
  let scale := Z.max 0 (Z.log2 (Z.abs b) - Z.log2 (Z.abs a) + 56) in
  let quotient := (Z.abs a * 2 ^ scale / Z.abs b)%Z in
  let sticky := (if (Z.abs a * 2 ^ scale mod Z.abs b =? 0)%Z then 0 else 1)%Z in
  let m := (2 * quotient + sticky)%Z in
  let x := FloatOps.SF2Prim
             (SpecFloat.binary_normalize FloatOps.prec FloatOps.emax
                (if negative then - m else m)%Z (- (scale + 1))%Z negative) in
  if PrimFloat.is_infinity x then Raise OverflowError else Ok x.

(** [v > 0] *)
Definition gt0 (v : value) : res bool :=
  match as_number v with
  | Some (Int n) => Ok (0 <? n)%Z
  | Some (Float x) => Ok (PrimFloat.ltb 0 x)
  | None => Raise TypeError
  end.

(** [a - b] *)
Definition py_sub (a b : value) : res value :=
  match as_number a, as_number b with
  | Some (Int m), Some (Int n) => Ok (VInt (m - n))
  | Some u, Some v =>
      x ← to_float u;
      y ← to_float v;
      Ok (VNum (PrimFloat.sub x y))
  | _, _ => Raise TypeError
  end.

(** [a / b] *)
Definition py_div (a b : value) : res value :=
  match as_number a, as_number b with
  | Some (Int m), Some (Int n) =>
      x ← int_true_div m n;
      Ok (VNum x)
  | Some u, Some v =>
      x ← to_float u;
      y ← to_float v;
      if PrimFloat.eqb y 0 then Raise ZeroDivisionError
      else Ok (VNum (PrimFloat.div x y))
  | _, _ => Raise TypeError
  end.

(** [v * n] and [n * v] for a string or a list [v] and an [int] [n]: the
    count has to fit an index of 64 bits, and a count below one gives the
    empty sequence. *)
Definition repeat_sequence (v : value) (n : Z) : res value :=
  match v with
  | VStr s =>
      if (- 2 ^ 63 <=? n)%Z && (n <? 2 ^ 63)%Z
      then Ok (VStr (Z.iter n (String.append s) EmptyString))
      else Raise OverflowError
  | VList l =>
      if (- 2 ^ 63 <=? n)%Z && (n <? 2 ^ 63)%Z
      then Ok (VList (Z.iter n (app l) []))
      else Raise OverflowError
  | _ => Raise TypeError
  end.

(** [a * b]: a product of numbers, or the repetition of a string or of a
    list. *)
Definition py_mul (a b : value) : res value :=
  match as_number a, as_number b with
  | Some (Int m), Some (Int n) => Ok (VInt (m * n))
  | Some u, Some v =>
      x ← to_float u;
      y ← to_float v;
      Ok (VNum (PrimFloat.mul x y))
  | None, Some (Int n) => repeat_sequence a n
  | Some (Int m), None => repeat_sequence b m
  | _, _ => Raise TypeError
  end.

(** [a / len(l)] for a list of [n] items. A length fits a machine word, so
    its conversion to a float does not overflow. *)
Definition py_div_len (a : value) (n : nat) : res value :=
  match as_number a with
  | Some (Int m) =>
      x ← int_true_div m (Z.of_nat n);
      Ok (VNum x)
  | Some (Float x) =>
      match n with
      | O => Raise ZeroDivisionError
      | S _ => Ok (VNum (PrimFloat.div x (float_of_Z (Z.of_nat n))))
      end
  | None => Raise TypeError
  end.

(** [a or b] *)
Definition py_or (a : value) (b : res value) : res value :=
  if truthy a then Ok a else b.

(** [d.update(other)]: the entries of [other] win. *)
Definition update (d other : dict) : dict := other ∪ d.

(** A dict display [{k1: v1, ..., kn: vn}] with distinct keys. *)
Definition dict_of (entries : list (string * value)) : dict := list_to_map entries.

(** [s.upper()] on a text of ASCII characters: the letters a to z become
    A to Z and nothing else changes. *)
Definition upper_ascii (c : Ascii.ascii) : Ascii.ascii :=
  let n := Ascii.nat_of_ascii c in
  if (97 <=? n)%nat && (n <=? 122)%nat then Ascii.ascii_of_nat (n - 32) else c.

Fixpoint upper (s : string) : string :=
  match s with
  | EmptyString => EmptyString
  | String c s' => String (upper_ascii c) (upper s')
  end.

(** ** Utility functions (tab3.py, lines 52-64) *)

Definition validate_api_key (key : option string) (key_name : string) : res unit :=
  match key with
  | Some (String _ _) => Ok tt
  | _ => Raise (ValueError (key_name +:+ " not found in .env file"))
  end.

Definition safe_api_call {A : Type} (func : unit -> res A) (error_msg : string)
    (default_return : A) : res A :=
  match func tt with
  | Ok r => Ok r
  | Raise e => Ok default_return
  end.

(** ** Stock data providers (tab3.py, lines 169-294) *)

Module StockDataProvider.
Record t : Type := Build {
  get_quote : string -> res (option dict);
  get_company_info : string -> res (option dict)
}.
End StockDataProvider.

(** The [finnhub] package: a client answers three requests with a decoded
    JSON payload, or raises. *)
Module finnhub.
Record Client : Type := {
  quote : string -> res value;
  company_profile2 : string -> res value;
  company_basic_financials : string -> string -> res value
}.
End finnhub.

(** The [yfinance] package: [Ticker_info yf ticker] is [yf.Ticker(ticker).info]. *)
Module yfinance.
Record module : Type := {
  Ticker_info : string -> res value
}.
End yfinance.

Module FinnhubProvider.

Definition _get_quote (client : finnhub.Client) (ticker : string) (_ : unit)
    : res (option dict) :=
  quote ← finnhub.quote client ticker;
  if negb (truthy quote) then Ok None else
  c ← get quote "c";
  if negb (truthy c) then Ok None else
  c ← getitem quote "c";
  positive ← gt0 c;
  if negb positive then Ok None else
  price ← getitem quote "c";
  previous_close ← getitem quote "pc";
  change ← getitem quote "d";
  change_percent ← getitem quote "dp";
  high ← get quote "h";
  low ← get quote "l";
  open ← get quote "o";
  Ok (Some (dict_of [("price", price); ("previous_close", previous_close);
                     ("change", change); ("change_percent", change_percent);
                     ("high", high); ("low", low); ("open", open)])).

Definition get_quote (client : finnhub.Client) (ticker : string) : res (option dict) :=
  safe_api_call (_get_quote client ticker) ("Finnhub quote error for " +:+ ticker) None.

Definition _get_profile (client : finnhub.Client) (ticker : string) (_ : unit)
    : res dict :=
  profile ← finnhub.company_profile2 client ticker;
  if truthy profile then
    market_cap ← get profile "marketCapitalization";
    market_cap ← (if truthy market_cap then py_mul market_cap (VInt 1000000)
                  else Ok VNone);
    name ← get profile "name";
    industry ← get profile "finnhubIndustry";
    Ok (dict_of [("market_cap", market_cap); ("name", name); ("industry", industry)])
  else Ok ∅.

Definition _get_metrics (client : finnhub.Client) (ticker : string) (_ : unit)
    : res dict :=
  metrics ← finnhub.company_basic_financials client ticker "all";
  has_metric ← (if truthy metrics then contains "metric" metrics else Ok false);
  if has_metric : bool then
    metric ← getitem metrics "metric";
    pe ← get metric "peBasicExclExtraTTM";
    pe_ratio ← py_or pe (getitem metrics "metric" ≫= fun metric => get metric "peTTM");
    Ok (dict_of [("pe_ratio", pe_ratio)])
  else Ok ∅.

Definition get_company_info (client : finnhub.Client) (ticker : string)
    : res (option dict) :=
  let info : dict := ∅ in
  profile_data ← safe_api_call (_get_profile client ticker)
                   ("Finnhub profile error for " +:+ ticker) ∅;
  let info := update info profile_data in
  metrics_data ← safe_api_call (_get_metrics client ticker)
                   ("Finnhub metrics error for " +:+ ticker) ∅;
  let info := update info metrics_data in
  Ok (if truthy (VDict info) then Some info else None).

(** The provider object, once its client exists. *)
Definition provider (client : finnhub.Client) : StockDataProvider.t :=
  StockDataProvider.Build (get_quote client) (get_company_info client).

(** [FinnhubProvider(api_key)]: [import_finnhub] is the outcome of
    [import finnhub], giving the constructor of clients. *)
Definition __init__ (import_finnhub : res (string -> res finnhub.Client))
    (api_key : option string) : res StockDataProvider.t :=
  _ ← validate_api_key api_key "Finnhub API key";
  Client ← import_finnhub;
  client ← Client (default "" api_key);
  Ok (provider client).

End FinnhubProvider.

Module YFinanceProvider.

Definition _get_quote (yf : yfinance.module) (ticker : string) (_ : unit)
    : res (option dict) :=
  info ← yfinance.Ticker_info yf ticker;
  if negb (truthy info) then Ok None else
  has_price ← contains "currentPrice" info;
  if negb has_price then Ok None else
  current ← get info "currentPrice";
  current ← py_or current (get info "regularMarketPrice");
  prev_close ← get info "previousClose";
  if truthy current && truthy prev_close then
    change ← py_sub current prev_close;
    ratio ← py_div change prev_close;
    change_pct ← py_mul ratio (VInt 100);
    high ← get info "dayHigh";
    low ← get info "dayLow";
    open ← get info "open";
    volume ← get info "volume";
    Ok (Some (dict_of [("price", current); ("previous_close", prev_close);
                       ("change", change); ("change_percent", change_pct);
                       ("high", high); ("low", low); ("open", open);
                       ("volume", volume)]))
  else Ok None.

Definition get_quote (yf : yfinance.module) (ticker : string) : res (option dict) :=
  safe_api_call (_get_quote yf ticker) ("yfinance quote error for " +:+ ticker) None.

Definition _get_info (yf : yfinance.module) (ticker : string) (_ : unit) : res dict :=
  info ← yfinance.Ticker_info yf ticker;
  market_cap ← get info "marketCap";
  trailing ← get info "trailingPE";
  pe_ratio ← py_or trailing (get info "forwardPE");
  volume ← get info "volume";
  long_name ← get info "longName";
  name ← py_or long_name (get info "shortName");
  industry ← get info "industry";
  sector ← get info "sector";
  Ok (dict_of [("market_cap", market_cap); ("pe_ratio", pe_ratio);
               ("volume", volume); ("name", name); ("industry", industry);
               ("sector", sector)]).

Definition get_company_info (yf : yfinance.module) (ticker : string)
    : res (option dict) :=
  info ← safe_api_call (_get_info yf ticker) ("yfinance info error for " +:+ ticker) ∅;
  Ok (Some info).

Definition provider (yf : yfinance.module) : StockDataProvider.t :=
  StockDataProvider.Build (get_quote yf) (get_company_info yf).

(** [YFinanceProvider()]: [import_yfinance] is the outcome of
    [import yfinance as yf]. *)
Definition __init__ (import_yfinance : res yfinance.module)
    : res StockDataProvider.t :=
  yf ← import_yfinance;
  Ok (provider yf).

End YFinanceProvider.

(** ** The fetcher (tab3.py, lines 296-345) *)

(** A call of the fetcher on the provider at position [provider] of its list. *)
Inductive call : Type :=
  | GetQuote (provider : nat) (ticker : string)
  | GetCompanyInfo (provider : nat) (ticker : string).

(** A computation that may raise and that appends the calls it makes to
    the trace. *)
Definition M (A : Type) : Type := list call -> res A * list call.

#[global] Instance M_ret : MRet M := fun A a trace => (Ok a, trace).
#[global] Instance M_bind : MBind M := fun A B f m trace =>
  match m trace with
  | (Ok a, trace') => f a trace'
  | (Raise e, trace') => (Raise e, trace')
  end.

Definition invoke {A : Type} (c : call) (outcome : res A) : M A :=
  fun trace => (outcome, trace ++ [c]).

(** [try: body / except Exception: handler] *)
Definition try_except {A : Type} (body : res A) (handler : exn -> res A) : res A :=
  match body with
  | Ok a => Ok a
  | Raise e => handler e
  end.

(** What the imports of the two packages give in the running process. *)
Record environment : Type := {
  import_finnhub : res (string -> res finnhub.Client);
  import_yfinance : res yfinance.module
}.

Definition of_optional_str (s : option string) : value :=
  match s with
  | Some s => VStr s
  | None => VNone
  end.

Module StockDataFetcher.

Record t : Type := Build {
  providers : list StockDataProvider.t
}.

Definition __init__ (env : environment) (finnhub_key : option string) : res t :=
  let providers : list StockDataProvider.t := [] in
  providers ←
    (if truthy (of_optional_str finnhub_key) then
       try_except
         (provider ← FinnhubProvider.__init__ (import_finnhub env) finnhub_key;
          Ok (providers ++ [provider]))
         (fun e => Ok providers)
     else Ok providers);
  providers ←
    try_except
      (provider ← YFinanceProvider.__init__ (import_yfinance env);
       Ok (providers ++ [provider]))
      (fun e => Ok providers);
  Ok (Build providers).

(** The first loop: ask each provider for a quote, stop at the first
    quote that is true. [i] is the position of the head of [providers] in
    the fetcher's list. *)
Fixpoint quote_loop (i : nat) (providers : list StockDataProvider.t)
    (ticker : string) (result : dict) : M dict :=
  match providers with
  | [] => mret result
  | provider :: rest =>
      quote ← invoke (GetQuote i ticker) (StockDataProvider.get_quote provider ticker);
      match quote with
      | Some q =>
          if truthy (VDict q) then mret (update result q)
          else quote_loop (S i) rest ticker result
      | None => quote_loop (S i) rest ticker result
      end
  end.

(** The inner loop over [company_info.items()]: only add missing fields.
    The keys of a dict are distinct, so the order of the items does not
    change the mapping that results. *)
Definition add_missing (company_info result : dict) : dict :=
  map_fold (fun key value (result : dict) =>
              if bool_decide (result !! key = None)
                 && negb (match value with VNone => true | _ => false end)
              then <[key := value]> result else result)
           result company_info.

(** The second loop: every provider is asked for its company info. *)
Fixpoint info_loop (i : nat) (providers : list StockDataProvider.t)
    (ticker : string) (result : dict) : M dict :=
  match providers with
  | [] => mret result
  | provider :: rest =>
      company_info ← invoke (GetCompanyInfo i ticker)
                       (StockDataProvider.get_company_info provider ticker);
      let result :=
        match company_info with
        | Some info => if truthy (VDict info) then add_missing info result else result
        | None => result
        end in
      info_loop (S i) rest ticker result
  end.

(** [now] is the value of [datetime.now().strftime("%Y-%m-%d %H:%M:%S")]
    at the call. *)
Definition get_live_stock_price (self : t) (ticker : string) (now : string)
    : M (option dict) :=
  match providers self with
  | [] => mret None
  | _ :: _ =>
      let result : dict := ∅ in
      result ← quote_loop 0 (providers self) ticker result;
      if negb (truthy (VDict result)) then mret None else
      result ← info_loop 0 (providers self) ticker result;
      let result := <["ticker" := VStr (upper ticker)]> result in
      let result := <["timestamp" := VStr now]> result in
      mret (Some result)
  end.

End StockDataFetcher.

(** ** Vocabulary of the statements *)

(** The calls [get_quote] (resp. [get_company_info]) on the first [n]
    providers, in priority order. *)
Definition quote_calls (ticker : string) (n : nat) : list call :=
  map (fun i => GetQuote i ticker) (seq 0 n).

Definition info_calls (ticker : string) (n : nat) : list call :=
  map (fun i => GetCompanyInfo i ticker) (seq 0 n).

(** A call on one of the first [n] providers, about [ticker]. *)
Definition call_on (n : nat) (ticker : string) (c : call) : Prop :=
  exists j, j < n /\ (c = GetQuote j ticker \/ c = GetCompanyInfo j ticker).

(** A field that is there and is not None. *)
Definition non_null (field : option value) : option value :=
  match field with
  | Some VNone => None
  | _ => field
  end.

(** The first value of [key] that is not None among the company infos, in
    priority order. *)
Fixpoint first_non_null (key : string) (infos : list (option dict)) : option value :=
  match infos with
  | [] => None
  | info :: rest =>
      match non_null (info ≫= fun d => d !! key) with
      | Some v => Some v
      | None => first_non_null key rest
      end
  end.

(** The result of the second loop, given what the providers answered. *)
Definition enrich (infos : list (option dict)) (result : dict) : dict :=
  foldl (fun (result : dict) (company_info : option dict) =>
           match company_info with
           | Some info => if truthy (VDict info) then StockDataFetcher.add_missing info result else result
           | None => result
           end)
        result infos.

(** The providers of this program. *)
Definition repo_provider (p : StockDataProvider.t) : Prop :=
  (exists client, p = FinnhubProvider.provider client)
  \/ (exists yf, p = YFinanceProvider.provider yf).

(** A provider of this program whose backend raises on every request
    about [ticker]. *)
Definition backend_raises (p : StockDataProvider.t) (ticker : string) : Prop :=
  (exists client, p = FinnhubProvider.provider client
     /\ (exists e, finnhub.quote client ticker = Raise e)
     /\ (exists e, finnhub.company_profile2 client ticker = Raise e)
     /\ (exists e, finnhub.company_basic_financials client ticker "all" = Raise e))
  \/ (exists yf, p = YFinanceProvider.provider yf
     /\ (exists e, yfinance.Ticker_info yf ticker = Raise e)).

(** A provider answers both requests about [ticker] without raising. *)
Definition answers (ticker : string) (p : StockDataProvider.t) : Prop :=
  (exists quote, StockDataProvider.get_quote p ticker = Ok quote)
  /\ (exists info, StockDataProvider.get_company_info p ticker = Ok info).

(** A provider that has nothing to say about [ticker]. *)
Definition silent (ticker : string) (p : StockDataProvider.t) : Prop :=
  (exists quote, StockDataProvider.get_quote p ticker = Ok quote
                 /\ truthy_dict quote = false)
  /\ (exists info, StockDataProvider.get_company_info p ticker = Ok info
                   /\ truthy_dict info = false).

(** The outcome of a run started on an empty trace. *)
Definition outcome (providers : list StockDataProvider.t) (ticker now : string)
    : res (option dict) :=
  fst (StockDataFetcher.get_live_stock_price
         (StockDataFetcher.Build providers) ticker now []).

(** Consistency of a quote, as the data model words it: when
    [previous_close] is not zero, [change] is [price - previous_close] and
    [change_percent] is [(change / previous_close) * 100], the three
    operations being those of Python on the values the quote holds. For a
    number, "is not zero" is "is true". *)
Definition consistent_quote (q : dict) : Prop :=
  exists price previous_close : value,
    q !! "price" = Some price
    /\ q !! "previous_close" = Some previous_close
    /\ (truthy previous_close = true ->
        exists change ratio change_percent : value,
          py_sub price previous_close = Ok change
          /\ py_div change previous_close = Ok ratio
          /\ py_mul ratio (VInt 100) = Ok change_percent
          /\ q !! "change" = Some change
          /\ q !! "change_percent" = Some change_percent).

(** The two sources of quotes of this program. *)
Inductive quote_source : Type :=
  | FromFinnhub (client : finnhub.Client)
  | FromYFinance (yf : yfinance.module).

Definition quote_of (source : quote_source) (ticker : string) : res (option dict) :=
  match source with
  | FromFinnhub client => FinnhubProvider.get_quote client ticker
  | FromYFinance yf => YFinanceProvider.get_quote yf ticker
  end.


(** No provider can be built in [env] with the key [finnhub_key]. *)
Definition no_provider_available (env : environment) (finnhub_key : option string)
    : Prop :=
  (forall p, FinnhubProvider.__init__ (import_finnhub env) finnhub_key <> Ok p)
  /\ (forall p, YFinanceProvider.__init__ (import_yfinance env) <> Ok p).

(** ** Sample backends *)

(** A Finnhub client whose every request fails. *)
Definition failing_client : finnhub.Client := {|
  finnhub.quote := fun _ => Raise (OtherError "connection refused");
  finnhub.company_profile2 := fun _ => Raise (OtherError "connection refused");
  finnhub.company_basic_financials := fun _ _ => Raise (OtherError "connection refused")
|}.

(** A Finnhub client answering for a symbol it does not know. *)
Definition unknown_client : finnhub.Client := {|
  finnhub.quote := fun _ =>
    Ok (VDict (dict_of [("c", VNum 0); ("d", VNone); ("dp", VNone);
                        ("h", VNum 0); ("l", VNum 0); ("o", VNum 0);
                        ("pc", VNum 0)]));
  finnhub.company_profile2 := fun _ => Ok (VDict ∅);
  finnhub.company_basic_financials := fun _ _ => Ok (VDict ∅)
|}.


Definition yf_of (info : dict) : yfinance.module :=
  {| yfinance.Ticker_info := fun _ => Ok (VDict info) |}.

(** Price 150, no P/E, no market cap, no volume. *)
Definition yf_B : yfinance.module :=
  yf_of (dict_of [("currentPrice", VNum 150); ("previousClose", VNum 120)]).

(** Price 155, with P/E, market cap and volume. *)
Definition yf_C : yfinance.module :=
  yf_of (dict_of [("currentPrice", VNum 155); ("previousClose", VNum 124);
                  ("trailingPE", VNum 30.2); ("marketCap", VNum 2500000000000);
                  ("volume", VNum 1000)]).

(** No data for the symbol. *)
Definition yf_empty : yfinance.module := yf_of ∅.

(** Integers: a current price of 2 ^ 53 and a previous close of -3. *)
Definition yf_integers : yfinance.module :=
  yf_of (dict_of [("currentPrice", VInt 9007199254740992); ("previousClose", VInt (-3))]).

(** A current price of 10 ^ 400. *)
Definition yf_huge : yfinance.module :=
  yf_of (dict_of [("currentPrice", VInt (10 ^ 400)); ("previousClose", VInt 3)]).

(** A negative current price. *)
Definition yf_negative : yfinance.module :=
  yf_of (dict_of [("currentPrice", VNum (-1)); ("previousClose", VNum 1)]).

(** The providers [A (throws), B, C] and what they answer. *)
Definition providers_ABC : list StockDataProvider.t :=
  [FinnhubProvider.provider failing_client;
   YFinanceProvider.provider yf_B;
   YFinanceProvider.provider yf_C].

Definition quote_B : dict :=
  dict_of [("price", VNum 150); ("previous_close", VNum 120);
           ("change", VNum 30); ("change_percent", VNum 25);
           ("high", VNone); ("low", VNone); ("open", VNone); ("volume", VNone)].

Definition info_B : dict :=
  dict_of [("market_cap", VNone); ("pe_ratio", VNone); ("volume", VNone);
           ("name", VNone); ("industry", VNone); ("sector", VNone)].

Definition info_C : dict :=
  dict_of [("market_cap", VNum 2500000000000); ("pe_ratio", VNum 30.2);
           ("volume", VNum 1000); ("name", VNone); ("industry", VNone);
           ("sector", VNone)].

Definition infos_ABC : list (option dict) := [None; Some info_B; Some info_C].

Definition quote_negative : dict :=
  dict_of [("price", VNum (-1)); ("previous_close", VNum 1);
           ("change", VNum (-2)); ("change_percent", VNum (-200));
           ("high", VNone); ("low", VNone); ("open", VNone); ("volume", VNone)].

Definition quote_integers : dict :=
  dict_of [("price", VInt 9007199254740992); ("previous_close", VInt (-3));
           ("change", VInt 9007199254740995);
           ("change_percent", VNum (-3.0023997515803315e17));
           ("high", VNone); ("low", VNone); ("open", VNone); ("volume", VNone)].


(** A process in which neither package can be imported. *)
Definition env_unavailable : environment := {|
  import_finnhub := Raise ImportError;
  import_yfinance := Raise ImportError
|}.

(** * More of [tab3.py]

    Text is ASCII: the functions on strings below are those of Python on
    strings whose characters are all ASCII. *)

(** The descriptive fields of a company. *)
Definition metadata_fields : list string :=
  ["market_cap"; "pe_ratio"; "name"; "industry"; "sector"].

(** A Finnhub client with a profile and metrics for every symbol. *)
Definition profile_client : finnhub.Client := {|
  finnhub.quote := fun _ => Raise (OtherError "rate limit");
  finnhub.company_profile2 := fun _ =>
    Ok (VDict (dict_of [("marketCapitalization", VNum 2500000);
                        ("name", VStr "Apple Inc");
                        ("finnhubIndustry", VStr "Technology")]));
  finnhub.company_basic_financials := fun _ _ =>
    Ok (VDict (dict_of [("metric", VDict (dict_of [("peTTM", VNum 28.5)]))]))
|}.

(** A Finnhub client whose profile has an integer capitalisation. *)
Definition integer_profile_client : finnhub.Client := {|
  finnhub.quote := fun _ => Raise (OtherError "rate limit");
  finnhub.company_profile2 := fun _ =>
    Ok (VDict (dict_of [("marketCapitalization", VInt 9007199254740993)]));
  finnhub.company_basic_financials := fun _ _ => Ok (VDict ∅)
|}.

(** The same client when the profile request fails. *)
Definition metrics_only_client : finnhub.Client := {|
  finnhub.quote := fun _ => Raise (OtherError "rate limit");
  finnhub.company_profile2 := fun _ => Raise (OtherError "timeout");
  finnhub.company_basic_financials := fun _ _ =>
    Ok (VDict (dict_of [("metric", VDict (dict_of [("peTTM", VNum 28.5)]))]))
|}.

(** ** Stock comparison (tab3.py, lines 777-792) *)

Module StockComparator.

Record t : Type := Build {
  stock_fetcher : StockDataFetcher.t
}.

(** The loop of [compare_stocks]; [clock k] is the clock reading of the
    lookup number [k]. *)
Fixpoint compare_loop (self : t) (tickers : list string) (clock : nat -> string)
    (k : nat) (comparison : gmap string dict) : M (gmap string dict) :=
  match tickers with
  | [] => mret comparison
  | ticker :: rest =>
      data ← StockDataFetcher.get_live_stock_price (stock_fetcher self) ticker (clock k);
      let comparison :=
        match data with
        | Some d => if truthy (VDict d) then <[ticker := d]> comparison else comparison
        | None => comparison
        end in
      compare_loop self rest clock (S k) comparison
  end.

Definition compare_stocks (self : t) (tickers : list string) (clock : nat -> string)
    : M (gmap string dict) :=
  compare_loop self tickers clock 0 ∅.

End StockComparator.

(** The fetcher has data for [ticker]: a lookup returns a record. *)
Definition has_data (ps : list StockDataProvider.t) (ticker : string) : Prop :=
  exists now (r : dict), outcome ps ticker now = Ok (Some r).

(** ** Text, continued *)

(** [s.lower()] on ASCII text. *)
Definition lower_ascii (c : Ascii.ascii) : Ascii.ascii :=
  let n := Ascii.nat_of_ascii c in
  if (65 <=? n)%nat && (n <=? 90)%nat then Ascii.ascii_of_nat (n + 32) else c.

Fixpoint lower (s : string) : string :=
  match s with
  | EmptyString => EmptyString
  | String c s' => String (lower_ascii c) (lower s')
  end.

(** [any(word in q for word in words)] *)
Definition any_in (words : list string) (q : string) : bool :=
  existsb (fun word => substring_of word q) words.

(** ** Portfolio builder (tab3.py, lines 662-752) *)

Module PortfolioBuilder.

Definition risk_profile_entry (description : string) (stocks bonds cash : Z)
    (expected_return volatility : string) : value :=
  VDict (dict_of
    [("description", VStr description);
     ("allocation", VDict (dict_of [("stocks", VInt stocks); ("bonds", VInt bonds);
                                    ("cash", VInt cash)]));
     ("expected_return", VStr expected_return);
     ("volatility", VStr volatility)]).

Definition RISK_PROFILES : dict :=
  dict_of
    [("Conservative",
      risk_profile_entry "Low risk, steady returns" 40 50 10 "4-6%" "Low");
     ("Moderate",
      risk_profile_entry "Balanced growth and stability" 60 30 10 "6-8%" "Medium");
     ("Aggressive",
      risk_profile_entry "High growth potential, higher risk" 80 15 5 "8-12%" "High");
     ("Very Aggressive",
      risk_profile_entry "Maximum growth, maximum risk" 95 5 0 "10-15%" "Very High")].

(** A dict whose order of insertion is used: [list(...keys())[:3]]. *)
Definition STOCK_CATEGORIES : list (string * list string) :=
  [("Large Cap Tech", ["AAPL"; "MSFT"; "GOOGL"; "AMZN"; "META"; "NVDA"]);
   ("Large Cap Value", ["JPM"; "JNJ"; "PG"; "KO"; "WMT"]);
   ("Growth Stocks", ["TSLA"; "NFLX"; "SHOP"; "SPOT"; "SQ"]);
   ("Dividend Stocks", ["T"; "VZ"; "PFE"; "XOM"; "CVX"]);
   ("Financial", ["JPM"; "BAC"; "GS"; "MS"; "C"]);
   ("Healthcare", ["JNJ"; "PFE"; "UNH"; "MRK"; "ABBV"])].

Definition category_stocks (category : string) : option (list string) :=
  snd <$> List.find (fun entry => bool_decide (fst entry = category)) STOCK_CATEGORIES.

(** The loop that fills [selected_stocks]. *)
Fixpoint select_stocks (include_categories : list string) : list string :=
  match include_categories with
  | [] => []
  | category :: rest =>
      match category_stocks category with
      | Some stocks => take 2 stocks ++ select_stocks rest
      | None => select_stocks rest
      end
  end.

(** [{stock: stock_per_position for stock in selected_stocks}] *)
Definition positions_of (selected_stocks : list string) (stock_per_position : value)
    : dict :=
  foldl (fun (positions : dict) stock => <[stock := stock_per_position]> positions)
        ∅ selected_stocks.

Definition build_portfolio (risk_profile : string) (investment_amount : value)
    (include_categories : option (list string)) : res value :=
  if negb (bool_decide (is_Some (RISK_PROFILES !! risk_profile))) then
    Raise (ValueError ("Invalid risk profile: " +:+ risk_profile))
  else
  profile ← getitem (VDict RISK_PROFILES) risk_profile;
  allocation ← getitem profile "allocation";
  stocks ← getitem allocation "stocks";
  share ← py_div stocks (VInt 100);
  stock_amount ← py_mul investment_amount share;
  bonds ← getitem allocation "bonds";
  share ← py_div bonds (VInt 100);
  bond_amount ← py_mul investment_amount share;
  cash ← getitem allocation "cash";
  share ← py_div cash (VInt 100);
  cash_amount ← py_mul investment_amount share;
  let include_categories :=
    match include_categories with
    | None => take 3 (map fst STOCK_CATEGORIES)
    | Some categories => categories
    end in
  let selected_stocks := select_stocks include_categories in
  stock_per_position ←
    (match selected_stocks with
     | [] => Ok (VInt 0)
     | _ :: _ => py_div_len stock_amount (length selected_stocks)
     end);
  stocks_percentage ← getitem allocation "stocks";
  bonds_percentage ← getitem allocation "bonds";
  cash_percentage ← getitem allocation "cash";
  Ok (VDict (dict_of
    [("risk_profile", VStr risk_profile);
     ("profile_details", profile);
     ("total_investment", investment_amount);
     ("allocation", VDict (dict_of
        [("stocks", VDict (dict_of
            [("amount", stock_amount);
             ("percentage", stocks_percentage);
             ("positions", VDict (positions_of selected_stocks stock_per_position))]));
         ("bonds", VDict (dict_of
            [("amount", bond_amount);
             ("percentage", bonds_percentage);
             ("recommendations",
              VList [VStr "BND (Total Bond)"; VStr "AGG (Core Bond)";
                     VStr "TLT (Long-term Treasury)"])]));
         ("cash", VDict (dict_of
            [("amount", cash_amount);
             ("percentage", cash_percentage);
             ("recommendations",
              VList [VStr "High-yield savings"; VStr "Money market funds"])]))]))])).

End PortfolioBuilder.

(** The field at the end of a path of keys. *)
Fixpoint at_path (v : value) (path : list string) : option value :=
  match path with
  | [] => Some v
  | key :: rest =>
      match v with
      | VDict d => d !! key ≫= fun v' => at_path v' rest
      | _ => None
      end
  end.

Definition risk_profile_names : list string :=
  ["Conservative"; "Moderate"; "Aggressive"; "Very Aggressive"].

(** ** Text scanning *)

Definition in_range (lo hi : nat) (c : Ascii.ascii) : bool :=
  let n := Ascii.nat_of_ascii c in (lo <=? n)%nat && (n <=? hi)%nat.

Definition is_digit : Ascii.ascii -> bool := in_range 48 57.
Definition is_upper : Ascii.ascii -> bool := in_range 65 90.
Definition is_lower : Ascii.ascii -> bool := in_range 97 122.
Definition is_letter (c : Ascii.ascii) : bool := is_upper c || is_lower c.

(** [\w] on ASCII text. *)
Definition is_word (c : Ascii.ascii) : bool :=
  is_letter c || is_digit c || bool_decide (c = "_"%char).

(** Whitespace, as [str.strip] and [str.split] see it on ASCII text. *)
Definition is_space (c : Ascii.ascii) : bool :=
  in_range 9 13 c || in_range 28 32 c.

Definition is_ascii_char : Ascii.ascii -> bool := in_range 0 127.

Fixpoint string_forallb (p : Ascii.ascii -> bool) (s : string) : bool :=
  match s with
  | EmptyString => true
  | String c s' => p c && string_forallb p s'
  end.

Fixpoint string_filter (p : Ascii.ascii -> bool) (s : string) : string :=
  match s with
  | EmptyString => EmptyString
  | String c s' => if p c then String c (string_filter p s') else string_filter p s'
  end.

(** The longest prefix of [s] whose characters satisfy [p], and the rest. *)
Fixpoint span (p : Ascii.ascii -> bool) (s : string) : string * string :=
  match s with
  | EmptyString => (EmptyString, EmptyString)
  | String c s' =>
      if p c then let (run, rest) := span p s' in (String c run, rest)
      else (EmptyString, s)
  end.

Definition head (s : string) : option Ascii.ascii :=
  match s with
  | EmptyString => None
  | String c _ => Some c
  end.

(** Digits to the number they write. *)
Fixpoint digits_value (acc : Z) (s : string) : Z :=
  match s with
  | EmptyString => acc
  | String c s' => digits_value (10 * acc + Z.of_nat (Ascii.nat_of_ascii c - 48)) s'
  end.

(** [float(s)] for a string of ASCII digits: the empty string is rejected. *)
Definition float_of_digits (s : string) : res float :=
  match s with
  | EmptyString => Raise (ValueError "could not convert string to float: ''")
  | String _ _ =>
      if string_forallb is_digit s then Ok (float_of_Z (digits_value 0 s))
      else Raise (ValueError ("could not convert string to float: " +:+ s))
  end.

(** ** Portfolio queries (tab3.py, lines 919-944) *)

Module StockChatbot.

(** The risk profile read from the query (lines 921-930). *)
Definition risk_profile_of (query : string) : string :=
  let q := lower query in
  if any_in ["conservative"; "safe"; "low risk"] q then "Conservative"
  else if any_in ["aggressive"; "high risk"; "growth"] q then "Aggressive"
  else if any_in ["very aggressive"; "maximum growth"] q then "Very Aggressive"
  else "Moderate".

Definition is_digit_or_comma (c : Ascii.ascii) : bool :=
  is_digit c || bool_decide (c = ","%char).

(** [[\d,]+] at the start of [s]: the group it captures. *)
Definition amount_group (s : string) : option string :=
  match fst (span is_digit_or_comma s) with
  | EmptyString => None
  | group => Some group
  end.

(** An attempt of [\$?([\d,]+)] at the start of [s]: with the dollar sign
    first, without it otherwise. *)
Definition amount_at (s : string) : option string :=
  match s with
  | String "$" s' =>
      match amount_group s' with
      | Some group => Some group
      | None => amount_group s
      end
  | _ => amount_group s
  end.

(** [re.search(r'\$?([\d,]+)', s)]: the group of the leftmost match. *)
Fixpoint amount_search (s : string) : option string :=
  match amount_at s with
  | Some group => Some group
  | None =>
      match s with
      | EmptyString => None
      | String _ s' => amount_search s'
      end
  end.

(** The investment amount read from the query (lines 933-937): the
    [float] of the digits found, or the [int] 10000. *)
Definition investment_amount_of (query : string) : res value :=
  match amount_search query with
  | Some group =>
      amount ← float_of_digits
                 (string_filter (fun c => negb (bool_decide (c = ","%char))) group);
      Ok (VNum amount)
  | None => Ok (VInt 10000)
  end.

(** The portfolio that [handle_portfolio_query] builds and then formats
    (lines 921-944). *)
Definition handle_portfolio_query_portfolio (query : string) : res value :=
  let risk_profile := risk_profile_of query in
  investment_amount ← investment_amount_of query;
  PortfolioBuilder.build_portfolio risk_profile investment_amount
    (Some ["Large Cap Tech"; "Large Cap Value"; "Dividend Stocks"]).

End StockChatbot.

(** ** Ticker extraction (tab3.py, lines 351-401) *)

(** [s.strip()] *)
Fixpoint lstrip (s : string) : string :=
  match s with
  | EmptyString => EmptyString
  | String c s' => if is_space c then lstrip s' else s
  end.

Fixpoint rstrip (s : string) : string :=
  match s with
  | EmptyString => EmptyString
  | String c s' =>
      match rstrip s' with
      | EmptyString => if is_space c then EmptyString else String c EmptyString
      | rest => String c rest
      end
  end.

Definition strip (s : string) : string := rstrip (lstrip s).

(** [s.split()]: the words between runs of whitespace. *)
Fixpoint split_words (word : string) (s : string) : list string :=
  let flush := match word with EmptyString => [] | _ => [word] end in
  match s with
  | EmptyString => flush
  | String c s' =>
      if is_space c then flush ++ split_words EmptyString s'
      else split_words (word +:+ String c EmptyString) s'
  end.

Definition split (s : string) : list string := split_words EmptyString s.

(** [\b] between two neighbours of a text, either of which may be missing
    at an end of the text. *)
Definition word_boundary (before after : option ascii) : bool :=
  xorb (from_option is_word false before) (from_option is_word false after).

Fixpoint last_char (before : option ascii) (s : string) : option ascii :=
  match s with
  | EmptyString => before
  | String c s' => last_char (Some c) s'
  end.

(** [[A-Z]{n}] at the start of [s]: the text matched and the rest. *)
Fixpoint upper_run (n : nat) (s : string) : option (string * string) :=
  match n with
  | O => Some (EmptyString, s)
  | S n' =>
      match s with
      | String c s' =>
          if is_upper c
          then (fun '(run, rest) => (String c run, rest)) <$> upper_run n' s'
          else None
      | EmptyString => None
      end
  end.

Module TickerExtractor.

Definition COMPANY_MAP : list (string * string) :=
  [("apple", "AAPL"); ("microsoft", "MSFT"); ("google", "GOOGL"); ("alphabet", "GOOGL");
   ("amazon", "AMZN"); ("tesla", "TSLA"); ("meta", "META"); ("facebook", "META");
   ("nvidia", "NVDA"); ("netflix", "NFLX"); ("amd", "AMD"); ("intel", "INTC");
   ("ibm", "IBM"); ("oracle", "ORCL"); ("salesforce", "CRM"); ("adobe", "ADBE");
   ("paypal", "PYPL"); ("qualcomm", "QCOM"); ("cisco", "CSCO"); ("jpmorgan", "JPM");
   ("jp morgan", "JPM"); ("bank of america", "BAC"); ("wells fargo", "WFC");
   ("goldman sachs", "GS"); ("morgan stanley", "MS"); ("citigroup", "C");
   ("walmart", "WMT"); ("target", "TGT"); ("costco", "COST"); ("home depot", "HD");
   ("nike", "NKE"); ("starbucks", "SBUX"); ("mcdonalds", "MCD"); ("coca cola", "KO");
   ("pepsi", "PEP"); ("pfizer", "PFE"); ("johnson", "JNJ"); ("merck", "MRK");
   ("exxon", "XOM"); ("chevron", "CVX"); ("boeing", "BA"); ("disney", "DIS");
   ("comcast", "CMCSA"); ("verizon", "VZ"); ("att", "T"); ("ford", "F");
   ("gm", "GM"); ("general motors", "GM"); ("uber", "UBER"); ("lyft", "LYFT");
   ("airbnb", "ABNB"); ("spotify", "SPOT"); ("snap", "SNAP"); ("twitter", "TWTR");
   ("zoom", "ZM"); ("shopify", "SHOP"); ("square", "SQ"); ("robinhood", "HOOD")].

(** An attempt of [\b([A-Z]{2,5})\b] at a position: [before] is the
    character before it, [s] the text from it. The repetition is greedy:
    five letters are tried first, then four, three and two. *)
Definition ticker_at (before : option ascii) (s : string) : option string :=
  if word_boundary before (head s) then
    List.fold_right
      (fun n otherwise =>
         match upper_run n s with
         | Some (run, rest) =>
             if word_boundary (last_char None run) (head rest) then Some run
             else otherwise
         | None => otherwise
         end)
      None [5; 4; 3; 2]
  else None.

(** [re.search(r'\b([A-Z]{2,5})\b', s)]: the group of the leftmost match. *)
Fixpoint ticker_search (before : option ascii) (s : string) : option string :=
  match ticker_at before s with
  | Some run => Some run
  | None =>
      match s with
      | EmptyString => None
      | String c s' => ticker_search (Some c) s'
      end
  end.

(** Pattern 3: the first word that, cleaned of what is not a lower-case
    letter, is a ticker of the table. *)
Fixpoint known_word (words : list string) : option string :=
  match words with
  | [] => None
  | word :: rest =>
      let word_clean := string_filter is_lower word in
      if (2 <=? String.length word_clean)%nat && (String.length word_clean <=? 5)%nat
         && bool_decide (upper word_clean ∈ map snd COMPANY_MAP)
      then Some (upper word_clean)
      else known_word rest
  end.

Definition extract (user_input : string) : option string :=
  let text := strip (lower user_input) in
  match ticker_search None (upper user_input) with
  | Some ticker => Some ticker
  | None =>
      match List.find (fun entry => substring_of (fst entry) text) COMPANY_MAP with
      | Some entry => Some (snd entry)
      | None =>
          match known_word (split text) with
          | Some ticker => Some ticker
          | None =>
              let text_clean := string_filter is_letter text in
              if (2 <=? String.length text_clean)%nat
                 && (String.length text_clean <=? 5)%nat
              then Some (upper text_clean)
              else None
          end
      end
  end.

End TickerExtractor.

(** One to five capital letters. *)
Definition ticker_shaped (t : string) : Prop :=
  1 <= String.length t <= 5 /\ string_forallb is_upper t = true.

Definition ticker_shapedb (t : string) : bool :=
  (1 <=? String.length t)%nat && (String.length t <=? 5)%nat && string_forallb is_upper t.

(** ** Brave search (tab3.py, lines 118-163) *)

(** [v.get(key, default)] *)
Definition get_default (v : value) (key : string) (default_value : value) : res value :=
  match v with
  | VDict d => Ok (default default_value (d !! key))
  | _ => Raise AttributeError
  end.

(** [v[:n]]: a list or a string can be sliced. *)
Definition slice_to (n : nat) (v : value) : res value :=
  match v with
  | VList l => Ok (VList (take n l))
  | VStr s => Ok (VStr (String.substring 0 n s))
  | _ => Raise TypeError
  end.

Fixpoint characters (s : string) : list value :=
  match s with
  | EmptyString => []
  | String c s' => VStr (String c EmptyString) :: characters s'
  end.

(** The items a [for] loop sees in a list or in a string. *)
Definition iterate (v : value) : res (list value) :=
  match v with
  | VList l => Ok l
  | VStr s => Ok (characters s)
  | _ => Raise TypeError
  end.

(** A comprehension whose element expression may raise. *)
Fixpoint comprehension {A B : Type} (f : A -> res B) (l : list A) : res (list B) :=
  match l with
  | [] => Ok []
  | x :: rest =>
      y ← f x;
      ys ← comprehension f rest;
      Ok (y :: ys)
  end.

Module BraveSearchAPI.

(** [request self query count] is what the GET request for [count]
    results about [query] gives once its status is checked and its body
    decoded, or the exception of one of those steps. *)
Record t : Type := Build {
  request : string -> nat -> res value
}.

Definition search (self : t) (query : string) (count : nat) : res value :=
  safe_api_call (fun _ => request self query (Nat.min count 20))
                "Brave search error" VNone.

Definition news_item (item : value) : res dict :=
  title ← get_default item "title" (VStr "");
  description ← get_default item "description" (VStr "");
  url ← get_default item "url" (VStr "");
  Ok (dict_of [("title", title); ("description", description); ("url", url)]).

Definition get_stock_news (self : t) (ticker : string) : res (list dict) :=
  results ← search self (ticker +:+ " stock news latest") 5;
  if negb (truthy results) then Ok [] else
  has_web ← contains "web" results;
  if negb has_web then Ok [] else
  web ← getitem results "web";
  found ← getitem web "results";
  first_five ← slice_to 5 found;
  items ← iterate first_five;
  comprehension news_item items.

End BraveSearchAPI.

(** ** Language models (tab3.py, lines 407-477) *)

Module LLMProvider.
Record t : Type := Build {
  generate_response : string -> string -> res value
}.
End LLMProvider.

Module OpenAIProvider.

(** [create self model messages] is [response.choices[0].message.content]
    for the completion of [messages] by [model], or the exception raised on
    the way. *)
Record t : Type := Build {
  create : string -> list (string * string) -> res value;
  model : string
}.

Definition _generate (self : t) (prompt system_prompt : string) (_ : unit) : res value :=
  let messages : list (string * string) := [] in
  let messages :=
    if truthy (VStr system_prompt) then messages ++ [("system", system_prompt)]
    else messages in
  let messages := messages ++ [("user", prompt)] in
  create self (model self) messages.

Definition generate_response (self : t) (prompt system_prompt : string) : res value :=
  result ← safe_api_call (_generate self prompt system_prompt) "OpenAI API error" VNone;
  Ok (if truthy result then result else VStr "Failed to get response from OpenAI").

Definition provider (self : t) : LLMProvider.t :=
  LLMProvider.Build (generate_response self).

(** [OpenAIProvider(api_key, model)]: [import_openai] is the outcome of
    [from openai import OpenAI]. *)
Definition __init__
    (import_openai : res (string -> res (string -> list (string * string) -> res value)))
    (api_key : option string) (model : string) : res LLMProvider.t :=
  _ ← validate_api_key api_key "OpenAI API key";
  OpenAI ← import_openai;
  client ← OpenAI (default "" api_key);
  Ok (provider (Build client model)).

End OpenAIProvider.

Module GeminiProvider.

(** [generate_content self prompt] is [self.model.generate_content(prompt).text],
    or the exception raised on the way. *)
Record t : Type := Build {
  generate_content : string -> res value
}.

Definition _generate (self : t) (prompt system_prompt : string) (_ : unit) : res value :=
  let full_prompt :=
    if truthy (VStr system_prompt)
    then system_prompt +:+ String "010" (String "010" prompt)
    else prompt in
  generate_content self full_prompt.

Definition generate_response (self : t) (prompt system_prompt : string) : res value :=
  result ← safe_api_call (_generate self prompt system_prompt) "Gemini API error" VNone;
  Ok (if truthy result then result else VStr "Failed to get response from Gemini").

Definition provider (self : t) : LLMProvider.t :=
  LLMProvider.Build (generate_response self).

(** [GeminiProvider(api_key, model)]: [import_genai] is the outcome of
    [import google.generativeai as genai]; applied to the key and to the
    model name it is [genai.configure] followed by [genai.GenerativeModel]. *)
Definition __init__
    (import_genai : res (string -> string -> res (string -> res value)))
    (api_key : option string) (model : string) : res LLMProvider.t :=
  _ ← validate_api_key api_key "Gemini API key";
  genai ← import_genai;
  generative_model ← genai (default "" api_key) model;
  Ok (provider (Build generative_model)).

End GeminiProvider.

(** The keys of the configuration and the two packages, as the process
    has them. *)
Record llm_environment : Type := {
  OPENAI_API_KEY : option string;
  GEMINI_API_KEY : option string;
  import_openai : res (string -> res (string -> list (string * string) -> res value));
  import_genai : res (string -> string -> res (string -> res value))
}.

Module LLMManager.

Definition get_provider (env : llm_environment) (provider_name model : string)
    : res (option LLMProvider.t) :=
  try_except
    (if bool_decide (provider_name = "OpenAI") then
       llm ← OpenAIProvider.__init__ (import_openai env) (OPENAI_API_KEY env) model;
       Ok (Some llm)
     else if bool_decide (provider_name = "Gemini") then
       llm ← GeminiProvider.__init__ (import_genai env) (GEMINI_API_KEY env) model;
       Ok (Some llm)
     else Raise (ValueError ("Unknown provider: " +:+ provider_name)))
    (fun e => Ok None).

End LLMManager.

(** The language-model providers of this program. *)
Definition llm_provider (p : LLMProvider.t) : Prop :=
  (exists self, p = OpenAIProvider.provider self)
  \/ (exists self, p = GeminiProvider.provider self).

(** ** Session state (tab3.py, lines 87-112) *)

Module SessionStateManager.

(** What a session holds under a key: a string, a truth value, or a list
    object, known by its address. [st.session_state] is taken to be a
    mapping that stores the object it is given, as a Python mapping does. *)
Inductive object : Type :=
  | ListObject (address : nat)
  | Str (s : string)
  | Bool (b : bool).

(** The list objects of the process: the messages, as (role, content)
    pairs, of the list at each address. *)
Definition messages_at (heap : gmap nat (list (string * string))) (address : nat)
    : list (string * string) :=
  default [] (heap !! address).

(** The address of the list made once, when the class body is evaluated. *)
Definition defaults_list : nat := 0.

Definition DEFAULTS : list (string * object) :=
  [("chat_history_stock", ListObject defaults_list);
   ("selected_model", Str "gpt-4o-mini");
   ("selected_provider", Str "OpenAI");
   ("show_chat", Bool true)].

Definition initialize (session_state : gmap string object) : gmap string object :=
  foldl (fun (state : gmap string object) '(key, default_value) =>
           if bool_decide (state !! key = None) then <[key := default_value]> state
           else state)
        session_state DEFAULTS.

(** [st.session_state.chat_history_stock = []] makes a new list. *)
Definition clear_chat (heap : gmap nat (list (string * string)))
    (session_state : gmap string object)
    : gmap nat (list (string * string)) * gmap string object :=
  let address := fresh (dom heap) in
  (<[address := []]> heap,
   <["chat_history_stock" := ListObject address]> session_state).

(** [st.session_state.chat_history_stock.append((role, content))] changes
    the list object in place. *)
Definition add_message (heap : gmap nat (list (string * string)))
    (session_state : gmap string object) (role content : string)
    : res (gmap nat (list (string * string))) :=
  match session_state !! "chat_history_stock" with
  | Some (ListObject address) =>
      Ok (<[address := messages_at heap address ++ [(role, content)]]> heap)
  | Some _ => Raise AttributeError
  | None => Raise AttributeError
  end.

(** The chat history a session shows. *)
Definition chat_history (heap : gmap nat (list (string * string)))
    (session_state : gmap string object) : option (list (string * string)) :=
  match session_state !! "chat_history_stock" with
  | Some (ListObject address) => Some (messages_at heap address)
  | _ => None
  end.

End SessionStateManager.

(** ** More sample backends *)

(** A search service that answers with seven results. *)
Definition brave_seven : BraveSearchAPI.t :=
  BraveSearchAPI.Build (fun _ _ =>
    Ok (VDict (dict_of
      [("web", VDict (dict_of
          [("results",
            VList (replicate 7
                     (VDict (dict_of [("title", VStr "Apple rallies");
                                      ("url", VStr "https://example.com/a");
                                      ("age", VStr "1h")]))))]))]))).

(** A search service that is down. *)
Definition brave_down : BraveSearchAPI.t :=
  BraveSearchAPI.Build (fun _ _ => Raise (OtherError "503 Server Error")).

(** A search service whose page has a ["web"] part without results. *)
Definition brave_no_results : BraveSearchAPI.t :=
  BraveSearchAPI.Build (fun _ _ =>
    Ok (VDict (dict_of [("web", VDict (dict_of [("type", VStr "search")]))]))).


(** The portfolio built for ["Aggressive"], 10000 and the categories
    ["Large Cap Value"] and ["Financial"]. *)
Definition overlapping_portfolio : value :=
  VDict (dict_of
    [("risk_profile", VStr "Aggressive");
     ("profile_details",
      PortfolioBuilder.risk_profile_entry "High growth potential, higher risk"
        80 15 5 "8-12%" "High");
     ("total_investment", VNum 10000);
     ("allocation", VDict (dict_of
        [("stocks", VDict (dict_of
            [("amount", VNum 8000); ("percentage", VInt 80);
             ("positions", VDict (dict_of [("JPM", VNum 2000); ("JNJ", VNum 2000);
                                           ("BAC", VNum 2000)]))]));
         ("bonds", VDict (dict_of
            [("amount", VNum 1500); ("percentage", VInt 15);
             ("recommendations",
              VList [VStr "BND (Total Bond)"; VStr "AGG (Core Bond)";
                     VStr "TLT (Long-term Treasury)"])]));
         ("cash", VDict (dict_of
            [("amount", VNum 500); ("percentage", VInt 5);
             ("recommendations",
              VList [VStr "High-yield savings"; VStr "Money market funds"])]))]))]).

(** ** Basic facts on dicts *)

Lemma bind_Ok {A B : Type} (a : A) (f : A -> res B) : (Ok a ≫= f) = f a.
Proof. reflexivity. Qed.

Lemma get_dict (d : dict) key : get (VDict d) key = Ok (default VNone (d !! key)).
Proof. reflexivity. Qed.

Lemma getitem_dict (d : dict) key v :
  d !! key = Some v -> getitem (VDict d) key = Ok v.
Proof. simpl. intros ->. reflexivity. Qed.

Lemma py_or_Ok (a b : value) : py_or a (Ok b) = Ok (if truthy a then a else b).
Proof. unfold py_or. destruct (truthy a); reflexivity. Qed.

Lemma truthy_dict_Some (d : dict) : truthy_dict (Some d) = truthy (VDict d).
Proof. reflexivity. Qed.

Lemma truthy_VDict_true (d : dict) : truthy (VDict d) = true <-> d <> ∅.
Proof.
  simpl. rewrite negb_true_iff, bool_decide_eq_false. reflexivity.
Qed.

Lemma truthy_VDict_false (d : dict) : truthy (VDict d) = false <-> d = ∅.
Proof.
  simpl. rewrite negb_false_iff, bool_decide_eq_true. reflexivity.
Qed.

Lemma has_field_truthy (d : dict) (key : string) (v : value) :
  d !! key = Some v -> truthy (VDict d) = true.
Proof.
  intros Hl. apply truthy_VDict_true. intros ->.
  rewrite lookup_empty in Hl. discriminate.
Qed.

Lemma update_lookup (d other : dict) (key : string) :
  update d other !! key =
  match other !! key with Some v => Some v | None => d !! key end.
Proof.
  unfold update. rewrite lookup_union.
  destruct (other !! key), (d !! key); reflexivity.
Qed.

Lemma update_empty (q : dict) : update ∅ q = q.
Proof. unfold update. apply (right_id_L ∅ (∪)). Qed.

(** The inner loop, field by field. *)
Lemma add_missing_lookup (info result : dict) (key : string) :
  StockDataFetcher.add_missing info result !! key =
  match result !! key with
  | Some v => Some v
  | None => non_null (info !! key)
  end.
Proof.
  unfold StockDataFetcher.add_missing. revert key.
  apply (map_fold_weak_ind
           (fun (r : dict) (m : dict) => forall key,
              r !! key = match result !! key with
                         | Some v => Some v
                         | None => non_null (m !! key)
                         end)).
  - intros key. rewrite lookup_empty. simpl. destruct (result !! key); reflexivity.
  - intros i x m r Hfresh IH key.
    destruct (decide (i = key)) as [->|Hne].
    + rewrite lookup_insert_eq. specialize (IH key). rewrite Hfresh in IH. simpl in IH.
      destruct (result !! key) as [v|] eqn:Hres.
      * rewrite IH. simpl. rewrite IH. reflexivity.
      * rewrite IH. simpl. destruct x; simpl; try apply lookup_insert_eq. exact IH.
    + rewrite lookup_insert_ne by exact Hne. rewrite <- IH.
      destruct (bool_decide (r !! i = None) && _); [|reflexivity].
      apply lookup_insert_ne. exact Hne.
Qed.

Lemma enrich_lookup (infos : list (option dict)) (result : dict) (key : string) :
  enrich infos result !! key =
  match result !! key with
  | Some v => Some v
  | None => first_non_null key infos
  end.
Proof.
  unfold enrich. revert result.
  induction infos as [|info infos IH]; intros result; simpl.
  - destruct (result !! key); reflexivity.
  - rewrite IH. destruct info as [d|]; simpl.
    + destruct (negb (bool_decide (d = ∅))) eqn:Hd.
      * rewrite add_missing_lookup.
        destruct (result !! key); [reflexivity|].
        destruct (non_null (d !! key)); reflexivity.
      * apply negb_false_iff, bool_decide_eq_true in Hd. subst d.
        rewrite lookup_empty. simpl. reflexivity.
    + reflexivity.
Qed.

(** ** The two loops *)

Lemma bind_invoke {A B : Type} (c : call) (o : res A) (k : A -> M B) (trace : list call) :
  (invoke c o ≫= k) trace =
  match o with
  | Ok a => k a (trace ++ [c])
  | Raise e => (Raise e, trace ++ [c])
  end.
Proof. destruct o; reflexivity. Qed.

Lemma quote_loop_cons i p rest ticker (result : dict) trace :
  StockDataFetcher.quote_loop i (p :: rest) ticker result trace =
  match StockDataProvider.get_quote p ticker with
  | Ok quote =>
      if truthy_dict quote
      then (Ok (update result (default ∅ quote)), trace ++ [GetQuote i ticker])
      else StockDataFetcher.quote_loop (S i) rest ticker result
             (trace ++ [GetQuote i ticker])
  | Raise e => (Raise e, trace ++ [GetQuote i ticker])
  end.
Proof.
  simpl. rewrite bind_invoke.
  destruct (StockDataProvider.get_quote p ticker) as [[q|]|e]; try reflexivity.
  simpl. destruct (negb (bool_decide (q = ∅))); reflexivity.
Qed.

Lemma info_loop_cons i p rest ticker (result : dict) trace :
  StockDataFetcher.info_loop i (p :: rest) ticker result trace =
  match StockDataProvider.get_company_info p ticker with
  | Ok info =>
      StockDataFetcher.info_loop (S i) rest ticker (enrich [info] result)
        (trace ++ [GetCompanyInfo i ticker])
  | Raise e => (Raise e, trace ++ [GetCompanyInfo i ticker])
  end.
Proof.
  simpl. rewrite bind_invoke.
  destruct (StockDataProvider.get_company_info p ticker) as [[d|]|e]; reflexivity.
Qed.

(** Providers without a quote are passed over, one call each. *)
Lemma quote_loop_skip pre : forall i rest ticker (result : dict) trace,
  Forall (fun p => exists quote, StockDataProvider.get_quote p ticker = Ok quote
                                 /\ truthy_dict quote = false) pre ->
  StockDataFetcher.quote_loop i (pre ++ rest) ticker result trace =
  StockDataFetcher.quote_loop (i + length pre) rest ticker result
    (trace ++ map (fun j => GetQuote j ticker) (seq i (length pre))).
Proof.
  induction pre as [|p pre IH]; intros i rest ticker result trace Hpre.
  - simpl. rewrite Nat.add_0_r, app_nil_r. reflexivity.
  - apply Forall_cons_1 in Hpre as [(quote & Hq & Hfalse) Hpre].
    rewrite <- app_comm_cons, quote_loop_cons, Hq, Hfalse.
    rewrite IH by exact Hpre. simpl length. simpl seq. simpl map.
    rewrite <- app_assoc. simpl. f_equal. lia.
Qed.

(** The first quote that is true is adopted, and the loop stops there. *)
Lemma quote_loop_first pre p post ticker (q : dict) trace :
  Forall (fun p => exists quote, StockDataProvider.get_quote p ticker = Ok quote
                                 /\ truthy_dict quote = false) pre ->
  StockDataProvider.get_quote p ticker = Ok (Some q) ->
  truthy (VDict q) = true ->
  StockDataFetcher.quote_loop 0 (pre ++ p :: post) ticker ∅ trace =
  (Ok q, trace ++ quote_calls ticker (S (length pre))).
Proof.
  intros Hpre Hq Htrue.
  rewrite quote_loop_skip by exact Hpre.
  rewrite quote_loop_cons, Hq, truthy_dict_Some, Htrue. simpl default.
  rewrite update_empty. unfold quote_calls.
  rewrite seq_S, map_app, app_assoc. reflexivity.
Qed.

(** No quote anywhere: every provider is asked once and the result stays
    empty. *)
Lemma quote_loop_none ps ticker trace :
  Forall (fun p => exists quote, StockDataProvider.get_quote p ticker = Ok quote
                                 /\ truthy_dict quote = false) ps ->
  StockDataFetcher.quote_loop 0 ps ticker ∅ trace =
  (Ok ∅, trace ++ quote_calls ticker (length ps)).
Proof.
  intros Hps. rewrite <- (app_nil_r ps) at 1.
  rewrite quote_loop_skip by exact Hps. reflexivity.
Qed.

(** The second loop asks every provider, in order. *)
Lemma info_loop_all ps : forall infos i ticker (result : dict) trace,
  Forall2 (fun p info => StockDataProvider.get_company_info p ticker = Ok info)
          ps infos ->
  StockDataFetcher.info_loop i ps ticker result trace =
  (Ok (enrich infos result),
   trace ++ map (fun j => GetCompanyInfo j ticker) (seq i (length ps))).
Proof.
  induction ps as [|p ps IH]; intros infos i ticker result trace Hall.
  - apply Forall2_nil_inv_l in Hall as ->. simpl. rewrite app_nil_r. reflexivity.
  - apply Forall2_cons_inv_l in Hall as (info & infos' & Hinfo & Hall & ->).
    rewrite info_loop_cons, Hinfo. rewrite (IH infos') by exact Hall.
    simpl length. simpl seq. simpl map. rewrite <- app_assoc. reflexivity.
Qed.

(** The body of [get_live_stock_price] once the provider list is not empty. *)
Lemma get_live_stock_price_body ps ticker now trace :
  ps <> [] ->
  StockDataFetcher.get_live_stock_price (StockDataFetcher.Build ps) ticker now trace =
  match StockDataFetcher.quote_loop 0 ps ticker ∅ trace with
  | (Ok result, trace') =>
      if truthy (VDict result) then
        match StockDataFetcher.info_loop 0 ps ticker result trace' with
        | (Ok result, trace'') =>
            (Ok (Some (<["timestamp" := VStr now]>
                      (<["ticker" := VStr (upper ticker)]> result))), trace'')
        | (Raise e, trace'') => (Raise e, trace'')
        end
      else (Ok None, trace')
  | (Raise e, trace') => (Raise e, trace')
  end.
Proof.
  intros Hne. destruct ps as [|p ps]; [contradiction|].
  unfold StockDataFetcher.get_live_stock_price.
  cbn [StockDataFetcher.providers]. unfold mbind at 1, M_bind at 1.
  destruct (StockDataFetcher.quote_loop 0 (p :: ps) ticker ∅ trace) as [[r|e] tr];
    [|reflexivity].
  destruct (truthy (VDict r)); [|reflexivity].
  cbn [negb]. unfold mbind, M_bind.
  destruct (StockDataFetcher.info_loop 0 (p :: ps) ticker r tr) as [[r'|e] tr'];
    reflexivity.
Qed.

(** A lookup that finds a quote, in full. *)
Lemma get_live_stock_price_found pre p post infos ticker now (q : dict) trace :
  Forall (fun p => exists quote, StockDataProvider.get_quote p ticker = Ok quote
                                 /\ truthy_dict quote = false) pre ->
  StockDataProvider.get_quote p ticker = Ok (Some q) ->
  truthy (VDict q) = true ->
  Forall2 (fun p info => StockDataProvider.get_company_info p ticker = Ok info)
          (pre ++ p :: post) infos ->
  StockDataFetcher.get_live_stock_price
    (StockDataFetcher.Build (pre ++ p :: post)) ticker now trace =
  (Ok (Some (<["timestamp" := VStr now]>
            (<["ticker" := VStr (upper ticker)]> (enrich infos q)))),
   trace ++ quote_calls ticker (S (length pre))
         ++ info_calls ticker (length (pre ++ p :: post))).
Proof.
  intros Hpre Hq Htrue Hinfos.
  rewrite get_live_stock_price_body by (destruct pre; discriminate).
  rewrite (quote_loop_first pre p post ticker q trace Hpre Hq Htrue), Htrue.
  rewrite (info_loop_all _ infos) by exact Hinfos.
  unfold info_calls. rewrite <- app_assoc. reflexivity.
Qed.

(** ** The sample backends, evaluated *)

Example providers_ABC_quotes :
  map (fun p => StockDataProvider.get_quote p "AAPL") providers_ABC
  = [Ok None; Ok (Some quote_B); Ok (Some (<["price" := VNum 155]> (<["previous_close" := VNum 124]>
              (<["change" := VNum 31]> (<["volume" := VNum 1000]> quote_B)))))].
Proof. vm_compute. reflexivity. Qed.

Example providers_ABC_infos :
  map (fun p => StockDataProvider.get_company_info p "AAPL") providers_ABC
  = map Ok infos_ABC.
Proof. vm_compute. reflexivity. Qed.

(** ** Priority and fallback of the quote *)

(** C1. For every ticker and every ordered provider list: when the
    providers before [p] return no quote (null) and [p] returns a quote
    carrying a price, the quote of [p] is the base of the result (each of
    its fields is in the result, the two stamped fields apart), [get_quote]
    is called on the providers up to [p] and on no later one, and the price
    of the result is the price of [p]'s quote. With [pre] empty this is
    priority; with [pre] not empty it is fallback. *)
Theorem first_quote_wins pre p post infos ticker now (q : dict) (price : value) trace :
  Forall (fun p' => StockDataProvider.get_quote p' ticker = Ok None) pre ->
  StockDataProvider.get_quote p ticker = Ok (Some q) ->
  q !! "price" = Some price ->
  Forall2 (fun p' info => StockDataProvider.get_company_info p' ticker = Ok info)
          (pre ++ p :: post) infos ->
  exists (r : dict) (calls : list call),
    StockDataFetcher.get_live_stock_price
      (StockDataFetcher.Build (pre ++ p :: post)) ticker now trace
    = (Ok (Some r), trace ++ calls)
    /\ calls = quote_calls ticker (S (length pre))
               ++ info_calls ticker (length (pre ++ p :: post))
    /\ (forall j t, GetQuote j t ∈ calls -> j <= length pre)
    /\ r !! "price" = Some price
    /\ (forall key v, key <> "ticker" -> key <> "timestamp" ->
                      q !! key = Some v -> r !! key = Some v).
Proof.
  intros Hpre Hq Hprice Hinfos.
  assert (Hkeep : forall key v, key <> "ticker" -> key <> "timestamp" ->
            q !! key = Some v ->
            (<["timestamp" := VStr now]>
               (<["ticker" := VStr (upper ticker)]> (enrich infos q)) : dict) !! key
            = Some v).
  { intros key v Hk1 Hk2 Hkey.
    rewrite !lookup_insert_ne by congruence.
    rewrite enrich_lookup, Hkey. reflexivity. }
  eexists. eexists. split; [|split; [reflexivity|split; [|split]]].
  - apply get_live_stock_price_found; try eassumption.
    + eapply Forall_impl; [exact Hpre|]. intros p' Hp'. exists None. split; [exact Hp'|reflexivity].
    + eapply has_field_truthy. exact Hprice.
  - intros j t Hin. apply elem_of_app in Hin as [Hin|Hin].
    + unfold quote_calls in Hin. apply list_elem_of_fmap in Hin as (i & Heq & Hi).
      injection Heq as -> _. apply elem_of_seq in Hi. lia.
    + unfold info_calls in Hin. apply list_elem_of_fmap in Hin as (i & Heq & _).
      discriminate.
  - apply Hkeep; [discriminate|discriminate|exact Hprice].
  - exact Hkeep.
Qed.

(** The scenario [A (throws), B (150), C (155)]: the price is B's. *)
Lemma first_quote_wins_witness :
  exists (r : dict) (calls : list call),
    StockDataFetcher.get_live_stock_price
      (StockDataFetcher.Build providers_ABC) "AAPL" "2024-05-01 10:00:00" []
    = (Ok (Some r), [] ++ calls)
    /\ calls = quote_calls "AAPL" 2 ++ info_calls "AAPL" 3
    /\ (forall j t, GetQuote j t ∈ calls -> j <= 1)
    /\ r !! "price" = Some (VNum 150)
    /\ (forall key v, key <> "ticker" -> key <> "timestamp" ->
                      quote_B !! key = Some v -> r !! key = Some v).
Proof.
  apply (first_quote_wins [FinnhubProvider.provider failing_client]
           (YFinanceProvider.provider yf_B) [YFinanceProvider.provider yf_C]
           infos_ABC "AAPL" "2024-05-01 10:00:00" quote_B (VNum 150) []).
  - repeat constructor.
  - vm_compute. reflexivity.
  - vm_compute. reflexivity.
  - repeat constructor; vm_compute; reflexivity.
Defined.

(** ** Enrichment with company info *)

(** C2. Once a quote is found, [get_company_info] is called on all the
    providers in priority order, and every field other than the two stamped
    ones holds the value of the quote when the quote has the field, and
    otherwise the first value that is not None among the providers' company
    infos: what an earlier source filled is never replaced by a later one.
    In particular a market cap the quote lacks comes from the first provider
    that supplies one. *)
Theorem metadata_first_non_null pre p post infos ticker now (q : dict) trace :
  Forall (fun p' => StockDataProvider.get_quote p' ticker = Ok None) pre ->
  StockDataProvider.get_quote p ticker = Ok (Some q) ->
  q <> ∅ ->
  Forall2 (fun p' info => StockDataProvider.get_company_info p' ticker = Ok info)
          (pre ++ p :: post) infos ->
  exists r : dict,
    StockDataFetcher.get_live_stock_price
      (StockDataFetcher.Build (pre ++ p :: post)) ticker now trace
    = (Ok (Some r),
       trace ++ quote_calls ticker (S (length pre))
             ++ info_calls ticker (length (pre ++ p :: post)))
    /\ (forall key, key <> "ticker" -> key <> "timestamp" ->
          r !! key = match q !! key with
                     | Some v => Some v
                     | None => first_non_null key infos
                     end)
    /\ (q !! "market_cap" = None ->
        r !! "market_cap" = first_non_null "market_cap" infos).
Proof.
  intros Hpre Hq Hne Hinfos.
  assert (Hfield : forall key, key <> "ticker" -> key <> "timestamp" ->
            (<["timestamp" := VStr now]>
               (<["ticker" := VStr (upper ticker)]> (enrich infos q)) : dict) !! key
            = match q !! key with
              | Some v => Some v
              | None => first_non_null key infos
              end).
  { intros key Hk1 Hk2. rewrite !lookup_insert_ne by congruence.
    apply enrich_lookup. }
  eexists. split; [|split].
  - apply get_live_stock_price_found; try eassumption.
    + eapply Forall_impl; [exact Hpre|]. intros p' Hp'. exists None. split; [exact Hp'|reflexivity].
    + apply truthy_VDict_true. exact Hne.
  - exact Hfield.
  - intros Hcap. rewrite Hfield by discriminate. rewrite Hcap. reflexivity.
Qed.

Lemma metadata_first_non_null_witness :
  exists r : dict,
    StockDataFetcher.get_live_stock_price
      (StockDataFetcher.Build providers_ABC) "AAPL" "2024-05-01 10:00:00" []
    = (Ok (Some r), [] ++ quote_calls "AAPL" 2 ++ info_calls "AAPL" 3)
    /\ (forall key, key <> "ticker" -> key <> "timestamp" ->
          r !! key = match quote_B !! key with
                     | Some v => Some v
                     | None => first_non_null key infos_ABC
                     end)
    /\ (quote_B !! "market_cap" = None ->
        r !! "market_cap" = first_non_null "market_cap" infos_ABC).
Proof.
  apply (metadata_first_non_null [FinnhubProvider.provider failing_client]
           (YFinanceProvider.provider yf_B) [YFinanceProvider.provider yf_C]
           infos_ABC "AAPL" "2024-05-01 10:00:00" quote_B []).
  - repeat constructor.
  - vm_compute. reflexivity.
  - intros Hempty. apply (f_equal (fun d : dict => d !! "price")) in Hempty.
    vm_compute in Hempty. discriminate.
  - repeat constructor; vm_compute; reflexivity.
Defined.

(** The scenario of the specification, run: the price is B's (first
    success), the P/E ratio and the market cap are C's (B lacked them), and
    the volume stays None because B's quote already has the key. *)
Example scenario_ABC :
  StockDataFetcher.get_live_stock_price
    (StockDataFetcher.Build providers_ABC) "aapl" "2024-05-01 10:00:00" []
  = (Ok (Some (<["ticker" := VStr "AAPL"]>
              (<["timestamp" := VStr "2024-05-01 10:00:00"]>
              (<["pe_ratio" := VNum 30.2]>
              (<["market_cap" := VNum 2500000000000]> quote_B))))),
     [GetQuote 0 "aapl"; GetQuote 1 "aapl"; GetCompanyInfo 0 "aapl";
      GetCompanyInfo 1 "aapl"; GetCompanyInfo 2 "aapl"]).
Proof. vm_compute. reflexivity. Qed.

(** C9. A field that the adopted quote carries with the value None is not
    replaced by the enrichment: the test is on the presence of the key, so
    the result keeps None whatever the providers' company infos hold for
    that field. *)
Theorem null_field_of_quote_kept pre p post infos ticker now (q : dict) key trace :
  Forall (fun p' => StockDataProvider.get_quote p' ticker = Ok None) pre ->
  StockDataProvider.get_quote p ticker = Ok (Some q) ->
  q !! key = Some VNone ->
  key <> "ticker" -> key <> "timestamp" ->
  Forall2 (fun p' info => StockDataProvider.get_company_info p' ticker = Ok info)
          (pre ++ p :: post) infos ->
  (forall info, StockDataFetcher.add_missing info q !! key = Some VNone)
  /\ enrich infos q !! key = Some VNone
  /\ exists (r : dict) (trace' : list call),
       StockDataFetcher.get_live_stock_price
         (StockDataFetcher.Build (pre ++ p :: post)) ticker now trace
       = (Ok (Some r), trace')
       /\ r !! key = Some VNone.
Proof.
  intros Hpre Hq Hkey Hk1 Hk2 Hinfos. split; [|split].
  - intros info. rewrite add_missing_lookup, Hkey. reflexivity.
  - rewrite enrich_lookup, Hkey. reflexivity.
  - eexists. eexists. split.
    + apply get_live_stock_price_found; try eassumption.
      * eapply Forall_impl; [exact Hpre|]. intros p' Hp'. exists None. split; [exact Hp'|reflexivity].
      * eapply has_field_truthy. exact Hkey.
    + rewrite !lookup_insert_ne by congruence.
      rewrite enrich_lookup, Hkey. reflexivity.
Qed.

(** B's quote has [volume: None]; C's company info has a volume of 1000;
    the result keeps None. *)
Lemma null_field_of_quote_kept_witness :
  (info_C !! "volume" = Some (VNum 1000))
  /\ (forall info, StockDataFetcher.add_missing info quote_B !! "volume" = Some VNone)
  /\ enrich infos_ABC quote_B !! "volume" = Some VNone
  /\ exists (r : dict) (trace' : list call),
       StockDataFetcher.get_live_stock_price
         (StockDataFetcher.Build providers_ABC) "AAPL" "2024-05-01 10:00:00" []
       = (Ok (Some r), trace')
       /\ r !! "volume" = Some VNone.
Proof.
  split; [vm_compute; reflexivity|].
  apply (null_field_of_quote_kept [FinnhubProvider.provider failing_client]
           (YFinanceProvider.provider yf_B) [YFinanceProvider.provider yf_C]
           infos_ABC "AAPL" "2024-05-01 10:00:00" quote_B "volume" []).
  - repeat constructor.
  - vm_compute. reflexivity.
  - vm_compute. reflexivity.
  - discriminate.
  - discriminate.
  - repeat constructor; vm_compute; reflexivity.
Defined.

(** ** Not found *)

(** C3. If no provider returns a quote, the lookup returns None, as an
    ordinary value and not as an exception, after one [get_quote] call per
    provider and no [get_company_info] call; None is distinct from every
    populated result. *)
Theorem no_quote_not_found ps ticker now trace :
  Forall (fun p => StockDataProvider.get_quote p ticker = Ok None) ps ->
  StockDataFetcher.get_live_stock_price (StockDataFetcher.Build ps) ticker now trace
  = (Ok None, trace ++ quote_calls ticker (length ps))
  /\ (forall r : dict, Ok (@None dict) <> Ok (Some r)).
Proof.
  intros Hps. split; [|discriminate].
  destruct ps as [|p ps].
  - simpl. unfold quote_calls. simpl. rewrite app_nil_r. reflexivity.
  - rewrite get_live_stock_price_body by discriminate.
    rewrite quote_loop_none.
    + reflexivity.
    + eapply Forall_impl; [exact Hps|]. intros p' Hp'. exists None. split; [exact Hp'|reflexivity].
Qed.

(** Two providers without a quote: a Finnhub client that does not know the
    symbol and a yfinance module with no data. *)
Lemma no_quote_not_found_witness :
  StockDataFetcher.get_live_stock_price
    (StockDataFetcher.Build [FinnhubProvider.provider unknown_client;
                             YFinanceProvider.provider yf_empty])
    "ZZZZ" "2024-05-01 10:00:00" []
  = (Ok None, [] ++ quote_calls "ZZZZ" 2)
  /\ (forall r : dict, Ok (@None dict) <> Ok (Some r)).
Proof.
  apply (no_quote_not_found [FinnhubProvider.provider unknown_client;
                             YFinanceProvider.provider yf_empty]
           "ZZZZ" "2024-05-01 10:00:00" []).
  repeat constructor.
Defined.

(** C10. With an empty provider list the lookup returns None without
    raising, and the trace is unchanged: no provider is called. *)
Theorem empty_provider_list_not_found ticker now trace :
  StockDataFetcher.get_live_stock_price (StockDataFetcher.Build []) ticker now trace
  = (Ok None, trace).
Proof. reflexivity. Qed.

(** ** Ticker and timestamp *)

Lemma quote_loop_calls ps : forall i ticker (result : dict) trace,
  exists calls,
    snd (StockDataFetcher.quote_loop i ps ticker result trace) = trace ++ calls
    /\ Forall (fun c => exists j, i <= j < i + length ps /\ c = GetQuote j ticker) calls.
Proof.
  induction ps as [|p ps IH]; intros i ticker result trace.
  - exists []. simpl. rewrite app_nil_r. split; [reflexivity|constructor].
  - rewrite quote_loop_cons.
    assert (Hhead : exists j, i <= j < i + length (p :: ps) /\ GetQuote i ticker = GetQuote j ticker).
    { exists i. simpl. split; [lia|reflexivity]. }
    destruct (StockDataProvider.get_quote p ticker) as [quote|e].
    + destruct (truthy_dict quote).
      * exists [GetQuote i ticker]. split; [reflexivity|]. constructor; [exact Hhead|constructor].
      * destruct (IH (S i) ticker result (trace ++ [GetQuote i ticker])) as (calls & Hsnd & Hall).
        exists (GetQuote i ticker :: calls). split.
        -- rewrite Hsnd, <- app_assoc. reflexivity.
        -- constructor; [exact Hhead|].
           eapply Forall_impl; [exact Hall|]. intros c (j & Hj & ->).
           exists j. simpl. split; [lia|reflexivity].
    + exists [GetQuote i ticker]. split; [reflexivity|]. constructor; [exact Hhead|constructor].
Qed.

Lemma info_loop_calls ps : forall i ticker (result : dict) trace,
  exists calls,
    snd (StockDataFetcher.info_loop i ps ticker result trace) = trace ++ calls
    /\ Forall (fun c => exists j, i <= j < i + length ps /\ c = GetCompanyInfo j ticker)
              calls.
Proof.
  induction ps as [|p ps IH]; intros i ticker result trace.
  - exists []. simpl. rewrite app_nil_r. split; [reflexivity|constructor].
  - rewrite info_loop_cons.
    assert (Hhead : exists j, i <= j < i + length (p :: ps)
                              /\ GetCompanyInfo i ticker = GetCompanyInfo j ticker).
    { exists i. simpl. split; [lia|reflexivity]. }
    destruct (StockDataProvider.get_company_info p ticker) as [info|e].
    + destruct (IH (S i) ticker (enrich [info] result)
                  (trace ++ [GetCompanyInfo i ticker])) as (calls & Hsnd & Hall).
      exists (GetCompanyInfo i ticker :: calls). split.
      * rewrite Hsnd, <- app_assoc. reflexivity.
      * constructor; [exact Hhead|].
        eapply Forall_impl; [exact Hall|]. intros c (j & Hj & ->).
        exists j. simpl. split; [lia|reflexivity].
    + exists [GetCompanyInfo i ticker]. split; [reflexivity|].
      constructor; [exact Hhead|constructor].
Qed.

(** Every call of a lookup is on a provider of the fetcher's list, with the
    ticker as it was given. *)
Lemma get_live_stock_price_calls ps ticker now trace :
  exists calls,
    snd (StockDataFetcher.get_live_stock_price (StockDataFetcher.Build ps)
           ticker now trace) = trace ++ calls
    /\ Forall (call_on (length ps) ticker) calls.
Proof.
  destruct ps as [|p0 ps0] eqn:Hps.
  { exists []. simpl. rewrite app_nil_r. split; [reflexivity|constructor]. }
  rewrite <- Hps. rewrite get_live_stock_price_body by (subst ps; discriminate).
  destruct (quote_loop_calls ps 0 ticker ∅ trace) as (calls1 & Hsnd1 & Hall1).
  assert (Hall1' : Forall (call_on (length ps) ticker) calls1).
  { eapply Forall_impl; [exact Hall1|]. intros c (j & Hj & ->).
    exists j. split; [lia|left; reflexivity]. }
  destruct (StockDataFetcher.quote_loop 0 ps ticker ∅ trace) as [[result|e] trace1];
    simpl in Hsnd1; subst trace1.
  2: { exists calls1. split; [reflexivity|exact Hall1']. }
  destruct (truthy (VDict result)).
  2: { exists calls1. split; [reflexivity|exact Hall1']. }
  destruct (info_loop_calls ps 0 ticker result (trace ++ calls1)) as (calls2 & Hsnd2 & Hall2).
  assert (Hall2' : Forall (call_on (length ps) ticker) calls2).
  { eapply Forall_impl; [exact Hall2|]. intros c (j & Hj & ->).
    exists j. split; [lia|right; reflexivity]. }
  exists (calls1 ++ calls2). split.
  - destruct (StockDataFetcher.info_loop 0 ps ticker result (trace ++ calls1))
      as [[r|e] trace2]; simpl in Hsnd2; subst trace2; simpl; apply eq_sym, app_assoc.
  - apply Forall_app. split; assumption.
Qed.

(** A populated result is stamped last. *)
Lemma get_live_stock_price_stamped ps ticker now trace (r : dict) trace' :
  StockDataFetcher.get_live_stock_price (StockDataFetcher.Build ps) ticker now trace
  = (Ok (Some r), trace') ->
  exists r0 : dict,
    r = <["timestamp" := VStr now]> (<["ticker" := VStr (upper ticker)]> r0).
Proof.
  destruct ps as [|p0 ps0] eqn:Hps; [discriminate|].
  rewrite <- Hps. rewrite get_live_stock_price_body by (subst ps; discriminate).
  destruct (StockDataFetcher.quote_loop 0 ps ticker ∅ trace) as [[result|e] trace1];
    [|discriminate].
  destruct (truthy (VDict result)); [|discriminate].
  destruct (StockDataFetcher.info_loop 0 ps ticker result trace1) as [[r1|e] trace2];
    [|discriminate].
  intros H. injection H as <- _. exists r1. reflexivity.
Qed.

(** [upper] keeps the length, leaves no lower-case letter, and changes
    nothing but the case: these three determine its result. *)
Lemma upper_ascii_not_lower c : is_lower (upper_ascii c) = false.
Proof. destruct c as [[|] [|] [|] [|] [|] [|] [|] [|]]; vm_compute; reflexivity. Qed.

Lemma lower_upper_ascii c : lower_ascii (upper_ascii c) = lower_ascii c.
Proof. destruct c as [[|] [|] [|] [|] [|] [|] [|] [|]]; vm_compute; reflexivity. Qed.

Lemma upper_length s : String.length (upper s) = String.length s.
Proof. induction s as [|c s IH]; simpl; [reflexivity|]. rewrite IH. reflexivity. Qed.

Lemma upper_no_lower s : string_forallb (fun c => negb (is_lower c)) (upper s) = true.
Proof.
  induction s as [|c s IH]; [reflexivity|]. cbn [upper string_forallb].
  rewrite upper_ascii_not_lower, IH. reflexivity.
Qed.

Lemma lower_upper s : lower (upper s) = lower s.
Proof.
  induction s as [|c s IH]; [reflexivity|]. cbn [upper lower].
  rewrite lower_upper_ascii, IH. reflexivity.
Qed.

(** C6. For a ticker of ASCII characters, a populated result carries the
    ticker in upper case and the capture timestamp. The ticker of the
    result is the text of the ticker given with its lower-case letters
    turned into capitals: it has the same length, no lower-case letter, and
    differs from the ticker given by the case alone. Every call of the
    lookup goes to a provider of the fetcher's own list, whatever the
    spelling of the ticker, and both ["aapl"] and ["AAPL"] give a result
    whose ticker is ["AAPL"]. *)
Theorem result_ticker_uppercase self ticker now trace (r : dict) trace' :
  string_forallb is_ascii_char ticker = true ->
  StockDataFetcher.get_live_stock_price self ticker now trace = (Ok (Some r), trace') ->
  (exists u : string,
      r !! "ticker" = Some (VStr u)
      /\ u = upper ticker
      /\ String.length u = String.length ticker
      /\ string_forallb (fun c => negb (is_lower c)) u = true
      /\ lower u = lower ticker)
  /\ r !! "timestamp" = Some (VStr now)
  /\ (exists calls, trace' = trace ++ calls
        /\ Forall (call_on (length (StockDataFetcher.providers self)) ticker) calls)
  /\ (ticker = "aapl" \/ ticker = "AAPL" -> r !! "ticker" = Some (VStr "AAPL")).
Proof.
  destruct self as [ps]. intros _ Hrun.
  destruct (get_live_stock_price_stamped _ _ _ _ _ _ Hrun) as (r0 & ->).
  assert (Hticker : (<["timestamp" := VStr now]>
                       (<["ticker" := VStr (upper ticker)]> r0) : dict) !! "ticker"
                    = Some (VStr (upper ticker))).
  { rewrite lookup_insert_ne by discriminate. apply lookup_insert_eq. }
  split; [|split; [apply lookup_insert_eq|split]].
  - exists (upper ticker). split; [exact Hticker|]. split; [reflexivity|].
    split; [apply upper_length|]. split; [apply upper_no_lower|apply lower_upper].
  - destruct (get_live_stock_price_calls ps ticker now trace) as (calls & Hsnd & Hall).
    rewrite Hrun in Hsnd. exists calls. split; [exact Hsnd|exact Hall].
  - intros [->| ->]; exact Hticker.
Qed.

Lemma result_ticker_uppercase_witness :
  let r : dict := <["ticker" := VStr "AAPL"]>
                    (<["timestamp" := VStr "2024-05-01 10:00:00"]>
                    (<["pe_ratio" := VNum 30.2]>
                    (<["market_cap" := VNum 2500000000000]> quote_B))) in
  (exists u : string,
      r !! "ticker" = Some (VStr u)
      /\ u = upper "aapl"
      /\ String.length u = String.length "aapl"
      /\ string_forallb (fun c => negb (is_lower c)) u = true
      /\ lower u = lower "aapl")
  /\ r !! "timestamp" = Some (VStr "2024-05-01 10:00:00")
  /\ (exists calls,
        [GetQuote 0 "aapl"; GetQuote 1 "aapl"; GetCompanyInfo 0 "aapl";
         GetCompanyInfo 1 "aapl"; GetCompanyInfo 2 "aapl"] = [] ++ calls
        /\ Forall (call_on 3 "aapl") calls)
  /\ ("aapl" = "aapl" \/ "aapl" = "AAPL" -> r !! "ticker" = Some (VStr "AAPL")).
Proof.
  apply (result_ticker_uppercase (StockDataFetcher.Build providers_ABC)
           "aapl" "2024-05-01 10:00:00" []).
  - vm_compute. reflexivity.
  - vm_compute. reflexivity.
Defined.

(** ** Failures of a backend *)

Lemma safe_api_call_returns {A : Type} (func : unit -> res A) msg (default_return : A) :
  exists r, safe_api_call func msg default_return = Ok r.
Proof. unfold safe_api_call. destruct (func tt); eauto. Qed.

Lemma safe_api_call_caught {A : Type} (func : unit -> res A) msg (default_return : A) e :
  func tt = Raise e -> safe_api_call func msg default_return = Ok default_return.
Proof. unfold safe_api_call. intros ->. reflexivity. Qed.

Lemma finnhub_get_company_info_returns client ticker :
  exists info, FinnhubProvider.get_company_info client ticker = Ok info.
Proof.
  unfold FinnhubProvider.get_company_info.
  destruct (safe_api_call_returns (FinnhubProvider._get_profile client ticker)
              ("Finnhub profile error for " +:+ ticker) (∅ : dict)) as [pd ->].
  destruct (safe_api_call_returns (FinnhubProvider._get_metrics client ticker)
              ("Finnhub metrics error for " +:+ ticker) (∅ : dict)) as [md ->].
  simpl. eauto.
Qed.

Lemma yfinance_get_company_info_returns yf ticker :
  exists info, YFinanceProvider.get_company_info yf ticker = Ok info.
Proof.
  unfold YFinanceProvider.get_company_info.
  destruct (safe_api_call_returns (YFinanceProvider._get_info yf ticker)
              ("yfinance info error for " +:+ ticker) (∅ : dict)) as [d ->].
  simpl. eauto.
Qed.

(** The providers of this program never raise. *)
Lemma repo_provider_answers ticker p : repo_provider p -> answers ticker p.
Proof.
  intros [[client ->]|[yf ->]]; split; simpl.
  - apply safe_api_call_returns.
  - apply finnhub_get_company_info_returns.
  - apply safe_api_call_returns.
  - apply yfinance_get_company_info_returns.
Qed.

(** A backend that raises is a provider with no data. *)
Lemma backend_raises_no_data ticker p :
  backend_raises p ticker ->
  StockDataProvider.get_quote p ticker = Ok None
  /\ exists info, StockDataProvider.get_company_info p ticker = Ok info
                  /\ truthy_dict info = false.
Proof.
  intros [(client & -> & [e1 H1] & [e2 H2] & [e3 H3])|(yf & -> & [e H])]; simpl.
  - split.
    + apply (safe_api_call_caught _ _ _ e1).
      unfold FinnhubProvider._get_quote. rewrite H1. reflexivity.
    + exists None. split; [|reflexivity].
      unfold FinnhubProvider.get_company_info.
      rewrite (safe_api_call_caught (FinnhubProvider._get_profile client ticker) _ _ e2)
        by (unfold FinnhubProvider._get_profile; rewrite H2; reflexivity).
      rewrite (safe_api_call_caught (FinnhubProvider._get_metrics client ticker) _ _ e3)
        by (unfold FinnhubProvider._get_metrics; rewrite H3; reflexivity).
      reflexivity.
  - split.
    + apply (safe_api_call_caught _ _ _ e).
      unfold YFinanceProvider._get_quote. rewrite H. reflexivity.
    + exists (Some ∅). split; [|reflexivity].
      unfold YFinanceProvider.get_company_info.
      rewrite (safe_api_call_caught (YFinanceProvider._get_info yf ticker) _ _ e)
        by (unfold YFinanceProvider._get_info; rewrite H; reflexivity).
      reflexivity.
Qed.

Lemma backend_raises_silent ticker p : backend_raises p ticker -> silent ticker p.
Proof.
  intros H. destruct (backend_raises_no_data ticker p H) as (Hq & info & Hi & Hfalse).
  split; [exists None; split; [exact Hq|reflexivity]|exists info; split; assumption].
Qed.

(** The value a loop returns depends neither on the positions nor on the
    trace it starts from. *)
Lemma quote_loop_fst ps : forall i j ticker (result : dict) trace trace',
  fst (StockDataFetcher.quote_loop i ps ticker result trace)
  = fst (StockDataFetcher.quote_loop j ps ticker result trace').
Proof.
  induction ps as [|p ps IH]; intros i j ticker result trace trace'; [reflexivity|].
  rewrite !quote_loop_cons.
  destruct (StockDataProvider.get_quote p ticker) as [quote|e]; [|reflexivity].
  destruct (truthy_dict quote); [reflexivity|]. apply IH.
Qed.

Lemma info_loop_fst ps : forall i j ticker (result : dict) trace trace',
  fst (StockDataFetcher.info_loop i ps ticker result trace)
  = fst (StockDataFetcher.info_loop j ps ticker result trace').
Proof.
  induction ps as [|p ps IH]; intros i j ticker result trace trace'; [reflexivity|].
  rewrite !info_loop_cons.
  destruct (StockDataProvider.get_company_info p ticker) as [info|e]; [|reflexivity].
  apply IH.
Qed.

Lemma quote_loop_returns ticker ps : forall i (result : dict) trace,
  Forall (answers ticker) ps ->
  exists r, fst (StockDataFetcher.quote_loop i ps ticker result trace) = Ok r.
Proof.
  induction ps as [|p ps IH]; intros i result trace Hall; [simpl; eauto|].
  apply Forall_cons_1 in Hall as [[[quote Hq] _] Hall].
  rewrite quote_loop_cons, Hq. destruct (truthy_dict quote); [simpl; eauto|].
  apply IH. exact Hall.
Qed.

Lemma info_loop_returns ticker ps : forall i (result : dict) trace,
  Forall (answers ticker) ps ->
  exists r, fst (StockDataFetcher.info_loop i ps ticker result trace) = Ok r.
Proof.
  induction ps as [|p ps IH]; intros i result trace Hall; [simpl; eauto|].
  apply Forall_cons_1 in Hall as [[_ [info Hi]] Hall].
  rewrite info_loop_cons, Hi. apply IH. exact Hall.
Qed.

(** The value of a lookup, from the values of its two loops. It covers the
    empty provider list, for which the first loop leaves the result empty. *)
Lemma get_live_stock_price_fst ps ticker now trace :
  fst (StockDataFetcher.get_live_stock_price (StockDataFetcher.Build ps)
         ticker now trace)
  = match fst (StockDataFetcher.quote_loop 0 ps ticker ∅ []) with
    | Ok result =>
        if truthy (VDict result) then
          match fst (StockDataFetcher.info_loop 0 ps ticker result []) with
          | Ok result =>
              Ok (Some (<["timestamp" := VStr now]>
                       (<["ticker" := VStr (upper ticker)]> result)))
          | Raise e => Raise e
          end
        else Ok None
    | Raise e => Raise e
    end.
Proof.
  destruct ps as [|p0 ps0] eqn:Hps; [reflexivity|].
  rewrite <- Hps. rewrite get_live_stock_price_body by (subst ps; discriminate).
  rewrite (quote_loop_fst ps 0 0 ticker ∅ [] trace).
  destruct (StockDataFetcher.quote_loop 0 ps ticker ∅ trace) as [[result|e] trace1];
    [|reflexivity].
  cbn [fst]. destruct (truthy (VDict result)); [|reflexivity].
  rewrite (info_loop_fst ps 0 0 ticker result [] trace1).
  destruct (StockDataFetcher.info_loop 0 ps ticker result trace1) as [[r|e] trace2];
    reflexivity.
Qed.

(** A provider with no data can be taken out of the list. *)
Lemma quote_loop_drop_silent ticker p post pre : forall i (result : dict) trace,
  silent ticker p ->
  fst (StockDataFetcher.quote_loop i (pre ++ p :: post) ticker result trace)
  = fst (StockDataFetcher.quote_loop i (pre ++ post) ticker result trace).
Proof.
  induction pre as [|p' pre IH]; intros i result trace Hsilent.
  - simpl app. rewrite quote_loop_cons.
    destruct Hsilent as [(quote & -> & ->) _]. apply quote_loop_fst.
  - rewrite <- !app_comm_cons, !quote_loop_cons.
    destruct (StockDataProvider.get_quote p' ticker) as [quote|e]; [|reflexivity].
    destruct (truthy_dict quote); [reflexivity|]. apply IH. exact Hsilent.
Qed.

Lemma enrich_silent (info : option dict) (result : dict) :
  truthy_dict info = false -> enrich [info] result = result.
Proof.
  destruct info as [d|]; [|reflexivity]. rewrite truthy_dict_Some.
  intros Hfalse. unfold enrich. cbn [foldl]. rewrite Hfalse. reflexivity.
Qed.

Lemma info_loop_drop_silent ticker p post pre : forall i (result : dict) trace,
  silent ticker p ->
  fst (StockDataFetcher.info_loop i (pre ++ p :: post) ticker result trace)
  = fst (StockDataFetcher.info_loop i (pre ++ post) ticker result trace).
Proof.
  induction pre as [|p' pre IH]; intros i result trace Hsilent.
  - simpl app. rewrite info_loop_cons.
    destruct Hsilent as [_ (info & -> & Hfalse)].
    rewrite (enrich_silent _ _ Hfalse). apply info_loop_fst.
  - rewrite <- !app_comm_cons, !info_loop_cons.
    destruct (StockDataProvider.get_company_info p' ticker) as [info|e]; [|reflexivity].
    apply IH. exact Hsilent.
Qed.

(** ** Construction of the fetcher *)

(** Construction never raises. *)
Lemma init_returns env finnhub_key :
  exists self, StockDataFetcher.__init__ env finnhub_key = Ok self.
Proof.
  unfold StockDataFetcher.__init__.
  destruct (truthy (of_optional_str finnhub_key)); simpl.
  - destruct (FinnhubProvider.__init__ (import_finnhub env) finnhub_key); simpl;
      destruct (YFinanceProvider.__init__ (import_yfinance env)); simpl; eauto.
  - destruct (YFinanceProvider.__init__ (import_yfinance env)); simpl; eauto.
Qed.

(** The fetcher is only ever built with providers of this program. *)
Lemma init_providers_repo env finnhub_key self :
  StockDataFetcher.__init__ env finnhub_key = Ok self ->
  Forall repo_provider (StockDataFetcher.providers self).
Proof.
  assert (Hfh : forall p, FinnhubProvider.__init__ (import_finnhub env) finnhub_key = Ok p ->
                          repo_provider p).
  { intros p. unfold FinnhubProvider.__init__.
    destruct (validate_api_key finnhub_key "Finnhub API key"); [|discriminate]. simpl.
    destruct (import_finnhub env) as [Client|e]; [|discriminate]. simpl.
    destruct (Client (default "" finnhub_key)) as [client|e]; [|discriminate]. simpl.
    intros [= <-]. left. exists client. reflexivity. }
  assert (Hyf : forall p, YFinanceProvider.__init__ (import_yfinance env) = Ok p ->
                          repo_provider p).
  { intros p. unfold YFinanceProvider.__init__.
    destruct (import_yfinance env) as [yf|e]; [|discriminate]. simpl.
    intros [= <-]. right. exists yf. reflexivity. }
  unfold StockDataFetcher.__init__.
  destruct (truthy (of_optional_str finnhub_key)); simpl.
  - destruct (FinnhubProvider.__init__ (import_finnhub env) finnhub_key) as [p|e] eqn:H1;
      simpl;
      destruct (YFinanceProvider.__init__ (import_yfinance env)) as [p'|e'] eqn:H2;
      simpl; intros [= <-]; simpl;
      repeat (apply Forall_cons_2 || apply Forall_nil_2); auto.
  - destruct (YFinanceProvider.__init__ (import_yfinance env)) as [p'|e'] eqn:H2;
      simpl; intros [= <-]; simpl;
      repeat (apply Forall_cons_2 || apply Forall_nil_2); auto.
Qed.

(** C5, as the code has it. When no provider can be built, the
    construction of the fetcher still succeeds, with an empty provider
    list, and every lookup on that fetcher returns None. *)
Theorem init_without_providers env finnhub_key :
  no_provider_available env finnhub_key ->
  StockDataFetcher.__init__ env finnhub_key = Ok (StockDataFetcher.Build [])
  /\ (forall ticker now trace,
        StockDataFetcher.get_live_stock_price (StockDataFetcher.Build [])
          ticker now trace = (Ok None, trace)).
Proof.
  intros [Hfinnhub Hyfinance]. split; [|reflexivity].
  unfold StockDataFetcher.__init__.
  destruct (YFinanceProvider.__init__ (import_yfinance env)) as [p|e] eqn:Hyf.
  { exfalso. exact (Hyfinance p eq_refl). }
  destruct (truthy (of_optional_str finnhub_key)); simpl; [|reflexivity].
  destruct (FinnhubProvider.__init__ (import_finnhub env) finnhub_key) as [p|e'] eqn:Hfh.
  { exfalso. exact (Hfinnhub p eq_refl). }
  reflexivity.
Qed.

Lemma env_unavailable_no_provider (finnhub_key : option string) :
  no_provider_available env_unavailable finnhub_key.
Proof.
  split; intros p.
  - unfold FinnhubProvider.__init__.
    destruct (validate_api_key finnhub_key "Finnhub API key"); discriminate.
  - discriminate.
Qed.

Lemma init_without_providers_witness :
  StockDataFetcher.__init__ env_unavailable (Some "d0123456789abcdef")
  = Ok (StockDataFetcher.Build [])
  /\ (forall ticker now trace,
        StockDataFetcher.get_live_stock_price (StockDataFetcher.Build [])
          ticker now trace = (Ok None, trace)).
Proof.
  apply (init_without_providers env_unavailable (Some "d0123456789abcdef")).
  split; intros p; vm_compute; discriminate.
Defined.

(** The construction does not fail when no provider is available: with no
    key and neither package importable, it returns a fetcher. *)
Lemma init_does_not_fail_fast :
  ~ (no_provider_available env_unavailable None ->
     exists e, StockDataFetcher.__init__ env_unavailable None = Raise e).
Proof.
  intros Hclaim.
  destruct (Hclaim (env_unavailable_no_provider None)) as [e He].
  vm_compute in He. discriminate.
Qed.

(** ** Arithmetic *)

(** True division of integers rounds the quotient once, keeps the sign of
    a quotient that rounds to zero, and raises when the result is beyond
    the floats. *)
Example int_true_div_samples :
  int_true_div 1 3 = Ok 0.3333333333333333%float
  /\ int_true_div 40 100 = Ok 0.4%float
  /\ int_true_div (-7) 2 = Ok (-3.5)%float
  /\ int_true_div 9007199254740995 (-3) = Ok (-3002399751580331.5)%float
  /\ int_true_div (10 ^ 22) 3 = Ok 3.3333333333333335e21%float
  /\ int_true_div 0 (-5) = Ok (-0)%float
  /\ int_true_div 1 (2 ^ 1074) = Ok 5e-324%float
  /\ int_true_div 1 (2 ^ 1075) = Ok 0%float
  /\ int_true_div 3 (2 ^ 1075) = Ok 1e-323%float
  /\ int_true_div (2 ^ 1024 - 2 ^ 970 - 1) 1 = Ok 1.7976931348623157e308%float
  /\ int_true_div (2 ^ 1024 - 2 ^ 970) 1 = Raise OverflowError
  /\ int_true_div (10 ^ 400) 3 = Raise OverflowError
  /\ int_true_div 1 0 = Raise ZeroDivisionError.
Proof. repeat split; vm_compute; reflexivity. Qed.

Example float_of_int_samples :
  float_of_int 100 = Ok 100%float
  /\ float_of_int 9007199254740993 = Ok 9007199254740992%float
  /\ float_of_int (2 ^ 1024 - 2 ^ 970 - 1) = Ok 1.7976931348623157e308%float
  /\ float_of_int (10 ^ 400) = Raise OverflowError.
Proof. repeat split; vm_compute; reflexivity. Qed.


Lemma float_of_int_1000000 : float_of_int 1000000 = Ok 1000000%float.
Proof. vm_compute. reflexivity. Qed.




Lemma py_div_ints (m n : Z) :
  py_div (VInt m) (VInt n) = (x ← int_true_div m n; Ok (VNum x)).
Proof. reflexivity. Qed.

Lemma py_mul_float_int (x : float) (n : Z) :
  py_mul (VNum x) (VInt n) = (y ← float_of_int n; Ok (VNum (PrimFloat.mul x y))).
Proof. reflexivity. Qed.

Lemma py_mul_ints (m n : Z) : py_mul (VInt m) (VInt n) = Ok (VInt (m * n)).
Proof. reflexivity. Qed.

(** A quotient is a float. *)
Lemma py_div_float (a b ratio : value) :
  py_div a b = Ok ratio -> exists x : float, ratio = VNum x.
Proof.
  unfold py_div.
  destruct (as_number a) as [[m|x]|], (as_number b) as [[n|y]|]; try discriminate.
  - destruct (int_true_div m n) as [r|e]; [|discriminate].
    rewrite bind_Ok. intros [= <-]. eauto.
  - destruct (to_float (Int m)) as [x'|e]; [|discriminate]. rewrite !bind_Ok. cbv beta.
    cbn [to_float]. rewrite bind_Ok. cbv beta.
    destruct (PrimFloat.eqb y 0); [discriminate|]. intros [= <-]. eauto.
  - cbn [to_float]. rewrite bind_Ok. cbv beta.
    destruct (float_of_int n) as [y'|e]; [|discriminate]. rewrite bind_Ok. cbv beta.
    destruct (PrimFloat.eqb y' 0); [discriminate|]. intros [= <-]. eauto.
  - cbn [to_float]. rewrite !bind_Ok. cbv beta.
    destruct (PrimFloat.eqb y 0); [discriminate|]. intros [= <-]. eauto.
Qed.

(** ** The quotes of the two providers *)

Lemma get_VDict v key x :
  get v key = Ok x -> exists d : dict, v = VDict d /\ x = default VNone (d !! key).
Proof. destruct v; simpl; try discriminate. intros [= <-]. eauto. Qed.

(** What a quote of Finnhub is made of. *)
Lemma finnhub_get_quote_inv client ticker (q : dict) :
  FinnhubProvider.get_quote client ticker = Ok (Some q) ->
  exists (payload : dict) (c pc d dp : value),
    finnhub.quote client ticker = Ok (VDict payload)
    /\ payload !! "c" = Some c /\ gt0 c = Ok true
    /\ payload !! "pc" = Some pc /\ payload !! "d" = Some d
    /\ payload !! "dp" = Some dp
    /\ q = dict_of [("price", c); ("previous_close", pc); ("change", d);
                    ("change_percent", dp);
                    ("high", default VNone (payload !! "h"));
                    ("low", default VNone (payload !! "l"));
                    ("open", default VNone (payload !! "o"))].
Proof.
  unfold FinnhubProvider.get_quote, safe_api_call.
  destruct (FinnhubProvider._get_quote client ticker tt) as [[q'|]|e] eqn:Hrun;
    try discriminate.
  intros [= ->]. revert Hrun. unfold FinnhubProvider._get_quote.
  destruct (finnhub.quote client ticker) as [v|e]; [|discriminate]. simpl.
  destruct (truthy v) eqn:Hv; [|discriminate]. simpl.
  destruct (get v "c") as [c0|e] eqn:Hc0; [|discriminate]. simpl.
  apply get_VDict in Hc0 as (payload & -> & ->).
  destruct (truthy (default VNone (payload !! "c"))) eqn:Htc; [|discriminate]. simpl.
  destruct (payload !! "c") as [c|] eqn:Hc; [|discriminate]. simpl.
  destruct (gt0 c) as [[|]|e] eqn:Hgt; try discriminate. simpl.
  destruct (payload !! "pc") as [pc|] eqn:Hpc; [|discriminate]. simpl.
  destruct (payload !! "d") as [d|] eqn:Hd; [|discriminate]. simpl.
  destruct (payload !! "dp") as [dp|] eqn:Hdp; [|discriminate]. simpl.
  intros [= <-]. exists payload, c, pc, d, dp. repeat split; assumption.
Qed.

(** What a quote of yfinance is made of. *)
Lemma yfinance_get_quote_inv yf ticker (q : dict) :
  YFinanceProvider.get_quote yf ticker = Ok (Some q) ->
  exists (info : dict) (current prev_close change ratio change_percent : value),
    yfinance.Ticker_info yf ticker = Ok (VDict info)
    /\ truthy current = true
    /\ truthy prev_close = true
    /\ py_sub current prev_close = Ok change
    /\ py_div change prev_close = Ok ratio
    /\ py_mul ratio (VInt 100) = Ok change_percent
    /\ q = dict_of [("price", current); ("previous_close", prev_close);
                    ("change", change); ("change_percent", change_percent);
                    ("high", default VNone (info !! "dayHigh"));
                    ("low", default VNone (info !! "dayLow"));
                    ("open", default VNone (info !! "open"));
                    ("volume", default VNone (info !! "volume"))].
Proof.
  unfold YFinanceProvider.get_quote, safe_api_call.
  destruct (YFinanceProvider._get_quote yf ticker tt) as [[q'|]|e] eqn:Hrun;
    try discriminate.
  intros [= ->]. revert Hrun. unfold YFinanceProvider._get_quote.
  destruct (yfinance.Ticker_info yf ticker) as [info|e]; [|discriminate].
  rewrite bind_Ok. cbv beta.
  destruct (truthy info) eqn:Hinfo; [|discriminate]. cbn [negb].
  destruct (contains "currentPrice" info) as [[|]|e] eqn:Hhas; try discriminate.
  rewrite bind_Ok. cbv beta. cbn [negb].
  destruct (get info "currentPrice") as [c0|e] eqn:Hc0; [|discriminate].
  apply get_VDict in Hc0 as (d & -> & ->).
  rewrite bind_Ok. cbv beta. rewrite !get_dict, py_or_Ok, !bind_Ok. cbv beta.
  set (current := if truthy (default VNone (d !! "currentPrice"))
                  then default VNone (d !! "currentPrice")
                  else default VNone (d !! "regularMarketPrice")).
  set (prev := default VNone (d !! "previousClose")).
  destruct (truthy current) eqn:Htc; [|discriminate].
  destruct (truthy prev) eqn:Htp; [|discriminate].
  cbn [andb].
  destruct (py_sub current prev) as [change|e] eqn:Hsub; [|discriminate].
  rewrite bind_Ok. cbv beta.
  destruct (py_div change prev) as [ratio|e] eqn:Hdiv; [|discriminate].
  rewrite bind_Ok. cbv beta.
  destruct (py_mul ratio (VInt 100)) as [change_percent|e] eqn:Hmul; [|discriminate].
  rewrite !bind_Ok. cbv beta.
  intros [= <-]. exists d, current, prev, change, ratio, change_percent.
  repeat split; assumption.
Qed.

(** Finnhub's quotes have a positive price: the guard [quote['c'] > 0]. *)
Lemma finnhub_quote_price_positive client ticker (q : dict) :
  FinnhubProvider.get_quote client ticker = Ok (Some q) ->
  exists price, q !! "price" = Some price /\ gt0 price = Ok true.
Proof.
  intros Hq.
  destruct (finnhub_get_quote_inv client ticker q Hq)
    as (payload & c & pc & d & dp & _ & _ & Hgt & _ & _ & _ & ->).
  exists c. split; [reflexivity|exact Hgt].
Qed.

(** yfinance's quotes have a price that is true, which for a number is
    "not zero": the guard [if current and prev_close]. *)
Lemma yfinance_quote_price_true yf ticker (q : dict) :
  YFinanceProvider.get_quote yf ticker = Ok (Some q) ->
  exists price, q !! "price" = Some price /\ truthy price = true.
Proof.
  intros Hq.
  destruct (yfinance_get_quote_inv yf ticker q Hq)
    as (info & current & prev & change & ratio & pct & _ & Htrue & _ & _ & _ & _ & ->).
  exists current. split; [reflexivity|exact Htrue].
Qed.

(** C7. The price of a quote of yfinance need not be positive: with a
    [currentPrice] of -1 the provider returns a quote whose price is -1,
    which is not greater than zero, and the fetcher returns it. *)
Theorem yfinance_quote_negative_price :
  YFinanceProvider.get_quote yf_negative "CL=F" = Ok (Some quote_negative)
  /\ quote_negative !! "price" = Some (VNum (-1))
  /\ gt0 (VNum (-1)) = Ok false
  /\ exists r : dict,
       outcome [YFinanceProvider.provider yf_negative] "CL=F" "2020-04-20 14:30:00"
       = Ok (Some r)
       /\ r !! "price" = Some (VNum (-1)).
Proof.
  split; [vm_compute; reflexivity|].
  split; [vm_compute; reflexivity|].
  split; [vm_compute; reflexivity|].
  eexists. split; vm_compute; reflexivity.
Qed.



(** An [info] of integers: the change is the exact difference, beyond what
    a float holds, and the quotient is rounded once. *)
Example yfinance_quote_of_integers :
  YFinanceProvider.get_quote yf_integers "AAPL" = Ok (Some quote_integers)
  /\ quote_integers !! "change" = Some (VInt 9007199254740995)
  /\ quote_integers !! "change_percent" = Some (VNum (-3.0023997515803315e17))
  /\ consistent_quote quote_integers.
Proof.
  split; [vm_compute; reflexivity|].
  split; [vm_compute; reflexivity|].
  split; [vm_compute; reflexivity|].
  exists (VInt 9007199254740992), (VInt (-3)).
  split; [vm_compute; reflexivity|]. split; [vm_compute; reflexivity|].
  intros _.
  exists (VInt 9007199254740995), (VNum (-3002399751580331.5)),
    (VNum (-3.0023997515803315e17)).
  repeat split; vm_compute; reflexivity.
Qed.

(** An [info] whose figures are beyond the floats gives no quote: the
    [OverflowError] of the division is caught. *)
Example yfinance_quote_overflow :
  YFinanceProvider.get_quote yf_huge "AAPL" = Ok None.
Proof. vm_compute. reflexivity. Qed.


(** ** More on the two providers *)

Lemma positive_float_nonzero (x : float) :
  PrimFloat.ltb 0 x = true -> PrimFloat.eqb x 0 = false.
Proof.
  rewrite FloatAxioms.ltb_spec, FloatAxioms.eqb_spec.
  change (FloatOps.Prim2SF 0) with (SpecFloat.S754_zero false).
  destruct (FloatOps.Prim2SF x) as [s|s| |s m e]; try destruct s; simpl;
    try discriminate; reflexivity.
Qed.

Lemma gt0_truthy (v : value) : gt0 v = Ok true -> truthy v = true.
Proof.
  destruct v as [|b|n|x|s|l|d]; simpl; try discriminate.
  - destruct b; [reflexivity|]. vm_compute. discriminate.
  - unfold gt0. simpl. intros [= H]. apply Z.ltb_lt in H.
    apply negb_true_iff, Z.eqb_neq. lia.
  - unfold gt0. simpl. intros [= H]. rewrite (positive_float_nonzero x H). reflexivity.
Qed.

(** Only numbers can be subtracted. *)
Lemma py_sub_numbers (a b change : value) :
  py_sub a b = Ok change ->
  exists m n : number, as_number a = Some m /\ as_number b = Some n.
Proof.
  unfold py_sub. destruct (as_number a) as [m|], (as_number b) as [n|]; eauto.
  - destruct m; discriminate.
  - discriminate.
  - discriminate.
Qed.

(** X2. A quote of Finnhub has exactly the fields price, previous_close,
    change, change_percent, high, low and open; a quote of yfinance has
    those and volume. *)
Theorem provider_quote_fields source ticker (q : dict) :
  quote_of source ticker = Ok (Some q) ->
  dom q = match source with
          | FromFinnhub _ =>
              {[ "price"; "previous_close"; "change"; "change_percent";
                 "high"; "low"; "open" ]}
          | FromYFinance _ =>
              {[ "price"; "previous_close"; "change"; "change_percent";
                 "high"; "low"; "open"; "volume" ]}
          end.
Proof.
  destruct source as [client|yf]; simpl; intros Hq.
  - destruct (finnhub_get_quote_inv client ticker q Hq)
      as (payload & c & pc & d & dp & _ & _ & _ & _ & _ & _ & ->).
    unfold dict_of. simpl. rewrite !dom_insert_L, dom_empty_L. set_solver.
  - destruct (yfinance_get_quote_inv yf ticker q Hq)
      as (info & current & prev & change & ratio & pct & _ & _ & _ & _ & _ & _ & ->).
    unfold dict_of. simpl. rewrite !dom_insert_L, dom_empty_L. set_solver.
Qed.

Lemma provider_quote_fields_witness :
  dom quote_B = {[ "price"; "previous_close"; "change"; "change_percent";
                   "high"; "low"; "open"; "volume" ]}.
Proof.
  apply (provider_quote_fields (FromYFinance yf_B) "AAPL" quote_B).
  vm_compute. reflexivity.
Defined.

(** X3. Finnhub gives a quote exactly when the payload is a dict whose [c]
    is a number greater than zero and which has [pc], [d] and [dp]; the
    quote then copies those four and takes [h], [l], [o] when present. *)
Theorem finnhub_quote_iff client ticker (q : dict) :
  FinnhubProvider.get_quote client ticker = Ok (Some q) <->
  exists (payload : dict) (c pc d dp : value),
    finnhub.quote client ticker = Ok (VDict payload)
    /\ payload !! "c" = Some c /\ gt0 c = Ok true
    /\ payload !! "pc" = Some pc /\ payload !! "d" = Some d
    /\ payload !! "dp" = Some dp
    /\ q = dict_of [("price", c); ("previous_close", pc); ("change", d);
                    ("change_percent", dp);
                    ("high", default VNone (payload !! "h"));
                    ("low", default VNone (payload !! "l"));
                    ("open", default VNone (payload !! "o"))].
Proof.
  split; [apply finnhub_get_quote_inv|].
  intros (payload & c & pc & d & dp & Hpayload & Hc & Hgt & Hpc & Hd & Hdp & ->).
  unfold FinnhubProvider.get_quote, safe_api_call, FinnhubProvider._get_quote.
  rewrite Hpayload, bind_Ok. cbv beta.
  rewrite (has_field_truthy payload "c" c Hc). cbn [negb].
  rewrite !get_dict, (getitem_dict payload "c" c Hc), (getitem_dict payload "pc" pc Hpc),
    (getitem_dict payload "d" d Hd), (getitem_dict payload "dp" dp Hdp).
  rewrite bind_Ok. cbv beta. rewrite Hc. cbn [default].
  unfold id. rewrite (gt0_truthy c Hgt). cbn [negb].
  rewrite bind_Ok. cbv beta. rewrite Hgt. reflexivity.
Qed.

(** X4. yfinance gives a quote exactly when [info] is a dict with the key
    [currentPrice], the current price (currentPrice, or regularMarketPrice
    when currentPrice is false) and previousClose are true, and the change
    figures can be computed from the two: both are numbers, and neither a
    conversion of an int to a float nor the division overflows. The change
    is their difference and the change percent the quotient of the change
    by previousClose, times 100. Without the key [currentPrice] there is no
    quote. *)
Theorem yfinance_quote_iff yf ticker (q : dict) :
  YFinanceProvider.get_quote yf ticker = Ok (Some q) <->
  exists (info : dict) (current_price change ratio change_percent : value),
    let current := if truthy current_price then current_price
                   else default VNone (info !! "regularMarketPrice") in
    let prev_close := default VNone (info !! "previousClose") in
    yfinance.Ticker_info yf ticker = Ok (VDict info)
    /\ info !! "currentPrice" = Some current_price
    /\ truthy current = true /\ truthy prev_close = true
    /\ (exists m n : number,
          as_number current = Some m /\ as_number prev_close = Some n)
    /\ py_sub current prev_close = Ok change
    /\ py_div change prev_close = Ok ratio
    /\ py_mul ratio (VInt 100) = Ok change_percent
    /\ q = dict_of [("price", current); ("previous_close", prev_close);
                    ("change", change); ("change_percent", change_percent);
                    ("high", default VNone (info !! "dayHigh"));
                    ("low", default VNone (info !! "dayLow"));
                    ("open", default VNone (info !! "open"));
                    ("volume", default VNone (info !! "volume"))].
Proof.
  unfold YFinanceProvider.get_quote, safe_api_call, YFinanceProvider._get_quote.
  split.
  - destruct (yfinance.Ticker_info yf ticker) as [v|e]; [|discriminate].
    rewrite bind_Ok. cbv beta.
    destruct (truthy v) eqn:Hv; [|discriminate]. cbn [negb].
    destruct v as [|b|n|f|s|l|info]; try (destruct (contains _ _) as [[|]|]; discriminate).
    unfold contains. rewrite bind_Ok. cbv beta.
    destruct (bool_decide (is_Some (info !! "currentPrice"))) eqn:Hhas; [|discriminate].
    apply bool_decide_eq_true in Hhas as [cp Hcp]. cbn [negb].
    rewrite !get_dict, bind_Ok. cbv beta. rewrite py_or_Ok, bind_Ok. cbv beta.
    rewrite bind_Ok. cbv beta. rewrite Hcp. change (default VNone (Some cp)) with cp.
    set (current := if truthy cp then cp else default VNone (info !! "regularMarketPrice")).
    set (prev := default VNone (info !! "previousClose")).
    destruct (truthy current) eqn:Htc; cbn [andb]; [|discriminate].
    destruct (truthy prev) eqn:Htp; [|discriminate].
    destruct (py_sub current prev) as [change|e] eqn:Hsub; [|discriminate].
    rewrite bind_Ok. cbv beta.
    destruct (py_div change prev) as [ratio|e] eqn:Hdiv; [|discriminate].
    rewrite bind_Ok. cbv beta.
    destruct (py_mul ratio (VInt 100)) as [change_percent|e] eqn:Hmul; [|discriminate].
    rewrite !bind_Ok. cbv beta.
    intros [= <-]. exists info, cp, change, ratio, change_percent.
    cbv zeta. fold current prev.
    repeat split; try assumption. eapply py_sub_numbers. exact Hsub.
  - intros (info & cp & change & ratio & change_percent
            & Hinfo & Hcp & Htc & Htp & _ & Hsub & Hdiv & Hmul & ->).
    rewrite Hinfo, bind_Ok. cbv beta.
    rewrite (has_field_truthy info "currentPrice" cp Hcp). cbn [negb].
    unfold contains. rewrite bind_Ok. cbv beta.
    rewrite (bool_decide_eq_true_2 (is_Some (info !! "currentPrice")))
      by (rewrite Hcp; eauto).
    cbn [negb].
    rewrite !get_dict, bind_Ok. cbv beta. rewrite py_or_Ok, bind_Ok. cbv beta.
    rewrite bind_Ok. cbv beta. rewrite Hcp. change (default VNone (Some cp)) with cp.
    rewrite Htc, Htp. cbn [andb]. rewrite Hsub, bind_Ok. cbv beta.
    rewrite Hdiv, bind_Ok. cbv beta. rewrite Hmul. reflexivity.
Qed.

Lemma answers_infos ticker ps :
  Forall (answers ticker) ps ->
  exists infos,
    Forall2 (fun p info => StockDataProvider.get_company_info p ticker = Ok info) ps infos.
Proof.
  induction 1 as [|p ps [_ [info Hinfo]] _ [infos IH]].
  - exists []. constructor.
  - exists (info :: infos). constructor; assumption.
Qed.

(** A quote of a provider of this program is not empty and has none of the
    descriptive fields. *)
Lemma repo_quote_shape ticker p (q : dict) :
  repo_provider p ->
  StockDataProvider.get_quote p ticker = Ok (Some q) ->
  truthy (VDict q) = true
  /\ forall key, key ∈ metadata_fields -> q !! key = None.
Proof.
  intros [[client ->]|[yf ->]] Hq; simpl in Hq.
  - destruct (finnhub_get_quote_inv client ticker q Hq)
      as (payload & c & pc & d & dp & _ & _ & _ & _ & _ & _ & ->).
    split; [apply (has_field_truthy _ "price" c); reflexivity|].
    intros key Hkey. unfold metadata_fields in Hkey.
    repeat (apply elem_of_cons in Hkey as [->|Hkey]; [reflexivity|]).
    apply elem_of_nil in Hkey. contradiction.
  - destruct (yfinance_get_quote_inv yf ticker q Hq)
      as (info & current & prev & change & ratio & pct & _ & _ & _ & _ & _ & _ & ->).
    split; [apply (has_field_truthy _ "price" current); reflexivity|].
    intros key Hkey. unfold metadata_fields in Hkey.
    repeat (apply elem_of_cons in Hkey as [->|Hkey]; [reflexivity|]).
    apply elem_of_nil in Hkey. contradiction.
Qed.

(** ** A failing backend does not stop the lookup *)

(** With the providers of this program a lookup returns. *)
Lemma provider_answers_run ps ticker now trace :
  Forall repo_provider ps ->
  exists data : option dict,
    fst (StockDataFetcher.get_live_stock_price (StockDataFetcher.Build ps)
           ticker now trace) = Ok data.
Proof.
  intros Hrepo.
  assert (Hall : Forall (answers ticker) ps).
  { eapply Forall_impl; [exact Hrepo|]. apply repo_provider_answers. }
  rewrite get_live_stock_price_fst.
  destruct (quote_loop_returns ticker ps 0 ∅ [] Hall) as [result ->].
  destruct (truthy (VDict result)); [|eauto].
  destruct (info_loop_returns ticker ps 0 result [] Hall) as [r ->]. eauto.
Qed.

(** C4. With the providers of this program, whatever their backends do, a
    lookup never raises: it returns a populated record or None. A backend
    call that raises is caught inside the provider, which then answers as
    one with no data, and the lookup goes on with the other providers: its
    result is the one the list without that provider gives, and when the
    providers before [p] all fail and [p] has a quote, [p] is asked after
    them, every provider is asked for its company info, and the record
    returned holds the fields of [p]'s quote. The provider lists are those
    of the program's two providers, which are the lists the constructor of
    the fetcher builds: a lookup on a fetcher it returned never raises. *)
Theorem provider_failure_isolated ps ticker now trace :
  Forall repo_provider ps ->
  (exists r : option dict,
      fst (StockDataFetcher.get_live_stock_price (StockDataFetcher.Build ps)
             ticker now trace) = Ok r)
  /\ (forall p, p ∈ ps -> backend_raises p ticker ->
        StockDataProvider.get_quote p ticker = Ok None
        /\ exists info, StockDataProvider.get_company_info p ticker = Ok info
                        /\ truthy_dict info = false)
  /\ (forall pre p post, ps = pre ++ p :: post -> backend_raises p ticker ->
        fst (StockDataFetcher.get_live_stock_price (StockDataFetcher.Build ps)
               ticker now trace)
        = fst (StockDataFetcher.get_live_stock_price
                 (StockDataFetcher.Build (pre ++ post)) ticker now trace))
  /\ (forall pre p post (q : dict), ps = pre ++ p :: post ->
        Forall (fun p' => backend_raises p' ticker) pre ->
        StockDataProvider.get_quote p ticker = Ok (Some q) ->
        exists (r : dict) (price : value),
          StockDataFetcher.get_live_stock_price (StockDataFetcher.Build ps)
            ticker now trace
          = (Ok (Some r),
             trace ++ quote_calls ticker (S (length pre))
                   ++ info_calls ticker (length ps))
          /\ q !! "price" = Some price
          /\ r !! "price" = Some price
          /\ (forall key v, key <> "ticker" -> key <> "timestamp" ->
                            q !! key = Some v -> r !! key = Some v))
  /\ (forall env finnhub_key self,
        StockDataFetcher.__init__ env finnhub_key = Ok self ->
        exists r : option dict,
          fst (StockDataFetcher.get_live_stock_price self ticker now trace) = Ok r).
Proof.
  intros Hrepo.
  split; [|split; [|split; [|split]]].
  - apply provider_answers_run. exact Hrepo.
  - intros p _ Hraises. apply backend_raises_no_data. exact Hraises.
  - intros pre p post -> Hraises. apply backend_raises_silent in Hraises.
    rewrite !get_live_stock_price_fst.
    rewrite (quote_loop_drop_silent ticker p post pre 0 ∅ [] Hraises).
    destruct (fst (StockDataFetcher.quote_loop 0 (pre ++ post) ticker ∅ []))
      as [result|e]; [|reflexivity].
    rewrite (info_loop_drop_silent ticker p post pre 0 result [] Hraises).
    reflexivity.
  - intros pre p post q -> Hpre Hq.
    assert (Hp : repo_provider p).
    { apply Forall_app in Hrepo as [_ Hrepo].
      apply Forall_cons_1 in Hrepo as [Hp _]. exact Hp. }
    destruct (repo_quote_shape ticker p q Hp Hq) as [Htrue _].
    destruct (answers_infos ticker (pre ++ p :: post)) as [infos Hinfos].
    { eapply Forall_impl; [exact Hrepo|]. apply repo_provider_answers. }
    assert (Hprice : exists price, q !! "price" = Some price).
    { destruct Hp as [[client ->]|[yf ->]]; simpl in Hq.
      - destruct (finnhub_get_quote_inv client ticker q Hq)
          as (payload & c & pc & d & dp & _ & _ & _ & _ & _ & _ & ->).
        exists c. reflexivity.
      - destruct (yfinance_get_quote_inv yf ticker q Hq)
          as (info & current & prev & change & ratio & pct
              & _ & _ & _ & _ & _ & _ & ->).
        exists current. reflexivity. }
    destruct Hprice as [price Hprice].
    assert (Hkeep : forall key v, key <> "ticker" -> key <> "timestamp" ->
              q !! key = Some v ->
              (<["timestamp" := VStr now]>
                 (<["ticker" := VStr (upper ticker)]> (enrich infos q)) : dict) !! key
              = Some v).
    { intros key v Hk1 Hk2 Hkey.
      rewrite !lookup_insert_ne by congruence.
      rewrite enrich_lookup, Hkey. reflexivity. }
    eexists. exists price. split; [|split; [exact Hprice|split]].
    + apply get_live_stock_price_found; try eassumption.
      eapply Forall_impl; [exact Hpre|]. intros p' Hp'.
      destruct (backend_raises_no_data ticker p' Hp') as [Hnone _].
      exists None. split; [exact Hnone|reflexivity].
    + apply Hkeep; [discriminate|discriminate|exact Hprice].
    + exact Hkeep.
  - intros env finnhub_key [ps'] Hinit.
    apply provider_answers_run.
    exact (init_providers_repo env finnhub_key _ Hinit).
Qed.

(** [A]'s backend raises on every request; the lookup returns what
    [B] and [C] give. *)
Lemma provider_failure_isolated_witness :
  (exists r : option dict,
      fst (StockDataFetcher.get_live_stock_price (StockDataFetcher.Build providers_ABC)
             "AAPL" "2024-05-01 10:00:00" []) = Ok r)
  /\ (forall p, p ∈ providers_ABC -> backend_raises p "AAPL" ->
        StockDataProvider.get_quote p "AAPL" = Ok None
        /\ exists info, StockDataProvider.get_company_info p "AAPL" = Ok info
                        /\ truthy_dict info = false)
  /\ (forall pre p post, providers_ABC = pre ++ p :: post -> backend_raises p "AAPL" ->
        fst (StockDataFetcher.get_live_stock_price (StockDataFetcher.Build providers_ABC)
               "AAPL" "2024-05-01 10:00:00" [])
        = fst (StockDataFetcher.get_live_stock_price
                 (StockDataFetcher.Build (pre ++ post)) "AAPL" "2024-05-01 10:00:00" []))
  /\ (forall pre p post (q : dict), providers_ABC = pre ++ p :: post ->
        Forall (fun p' => backend_raises p' "AAPL") pre ->
        StockDataProvider.get_quote p "AAPL" = Ok (Some q) ->
        exists (r : dict) (price : value),
          StockDataFetcher.get_live_stock_price (StockDataFetcher.Build providers_ABC)
            "AAPL" "2024-05-01 10:00:00" []
          = (Ok (Some r),
             [] ++ quote_calls "AAPL" (S (length pre))
                ++ info_calls "AAPL" (length providers_ABC))
          /\ q !! "price" = Some price
          /\ r !! "price" = Some price
          /\ (forall key v, key <> "ticker" -> key <> "timestamp" ->
                            q !! key = Some v -> r !! key = Some v))
  /\ (forall env finnhub_key self,
        StockDataFetcher.__init__ env finnhub_key = Ok self ->
        exists r : option dict,
          fst (StockDataFetcher.get_live_stock_price self
                 "AAPL" "2024-05-01 10:00:00" []) = Ok r).
Proof.
  apply (provider_failure_isolated providers_ABC "AAPL" "2024-05-01 10:00:00" []).
  constructor; [|constructor; [|constructor; [|constructor]]].
  - left. exists failing_client. reflexivity.
  - right. exists yf_B. reflexivity.
  - right. exists yf_C. reflexivity.
Defined.

(** The scenario, run: [A] raises, [B] is asked next and its quote is
    adopted, and the three providers are asked for their company info. *)
Example failing_provider_dropped :
  backend_raises (FinnhubProvider.provider failing_client) "AAPL"
  /\ outcome providers_ABC "AAPL" "2024-05-01 10:00:00"
     = outcome [YFinanceProvider.provider yf_B; YFinanceProvider.provider yf_C]
         "AAPL" "2024-05-01 10:00:00"
  /\ (exists r : dict,
        StockDataFetcher.get_live_stock_price (StockDataFetcher.Build providers_ABC)
          "AAPL" "2024-05-01 10:00:00" []
        = (Ok (Some r),
           [GetQuote 0 "AAPL"; GetQuote 1 "AAPL"; GetCompanyInfo 0 "AAPL";
            GetCompanyInfo 1 "AAPL"; GetCompanyInfo 2 "AAPL"])
        /\ r !! "price" = Some (VNum 150)).
Proof.
  split; [|split; [vm_compute; reflexivity|]].
  - left. exists failing_client. repeat split; eexists; reflexivity.
  - eexists. split; vm_compute; reflexivity.
Qed.

(** ** The descriptive fields *)

(** X1. With the providers of this program, once a quote is found the five
    descriptive fields of the result are the first values that are not
    None among the providers' company infos, in priority order, and the
    price is the quote's: a quote never carries a descriptive field. *)
Theorem repo_metadata_from_company_info pre p post ticker now (q : dict) trace :
  Forall repo_provider (pre ++ p :: post) ->
  Forall (fun p' => StockDataProvider.get_quote p' ticker = Ok None) pre ->
  StockDataProvider.get_quote p ticker = Ok (Some q) ->
  exists (infos : list (option dict)) (r : dict),
    Forall2 (fun p' info => StockDataProvider.get_company_info p' ticker = Ok info)
            (pre ++ p :: post) infos
    /\ StockDataFetcher.get_live_stock_price
         (StockDataFetcher.Build (pre ++ p :: post)) ticker now trace
       = (Ok (Some r),
          trace ++ quote_calls ticker (S (length pre))
                ++ info_calls ticker (length (pre ++ p :: post)))
    /\ (forall key, key ∈ metadata_fields -> r !! key = first_non_null key infos)
    /\ r !! "price" = q !! "price".
Proof.
  intros Hrepo Hpre Hq.
  assert (Hp : repo_provider p).
  { apply Forall_app in Hrepo as [_ Hrepo]. apply Forall_cons_1 in Hrepo as [Hp _]. exact Hp. }
  destruct (repo_quote_shape ticker p q Hp Hq) as [Htrue Hnone].
  destruct (answers_infos ticker (pre ++ p :: post)) as [infos Hinfos].
  { eapply Forall_impl; [exact Hrepo|]. apply repo_provider_answers. }
  exists infos. eexists. split; [exact Hinfos|]. split; [|split].
  - apply get_live_stock_price_found; try eassumption.
    eapply Forall_impl; [exact Hpre|]. intros p' Hp'. exists None. split; [exact Hp'|reflexivity].
  - intros key Hkey.
    assert (key <> "ticker" /\ key <> "timestamp") as [Hk1 Hk2].
    { unfold metadata_fields in Hkey.
      repeat (apply elem_of_cons in Hkey as [->|Hkey]; [split; discriminate|]).
      apply elem_of_nil in Hkey. contradiction. }
    rewrite !lookup_insert_ne by congruence.
    rewrite enrich_lookup, (Hnone key Hkey). reflexivity.
  - rewrite !lookup_insert_ne by discriminate.
    rewrite enrich_lookup.
    destruct (q !! "price") eqn:Hprice; [reflexivity|].
    exfalso. clear -Hp Hq Hprice.
    destruct Hp as [[client ->]|[yf ->]]; simpl in Hq.
    + destruct (finnhub_get_quote_inv client ticker q Hq)
        as (payload & c & pc & d & dp & _ & _ & _ & _ & _ & _ & ->). discriminate.
    + destruct (yfinance_get_quote_inv yf ticker q Hq)
        as (info & current & prev & change & ratio & pct & _ & _ & _ & _ & _ & _ & ->). discriminate.
Qed.

Lemma repo_metadata_from_company_info_witness :
  exists (infos : list (option dict)) (r : dict),
    Forall2 (fun p' info => StockDataProvider.get_company_info p' "AAPL" = Ok info)
            providers_ABC infos
    /\ StockDataFetcher.get_live_stock_price
         (StockDataFetcher.Build providers_ABC) "AAPL" "2024-05-01 10:00:00" []
       = (Ok (Some r), [] ++ quote_calls "AAPL" 2 ++ info_calls "AAPL" 3)
    /\ (forall key, key ∈ metadata_fields -> r !! key = first_non_null key infos)
    /\ r !! "price" = quote_B !! "price".
Proof.
  apply (repo_metadata_from_company_info [FinnhubProvider.provider failing_client]
           (YFinanceProvider.provider yf_B) [YFinanceProvider.provider yf_C]
           "AAPL" "2024-05-01 10:00:00" quote_B []).
  - constructor; [|constructor; [|constructor; [|constructor]]].
    + left. exists failing_client. reflexivity.
    + right. exists yf_B. reflexivity.
    + right. exists yf_C. reflexivity.
  - repeat constructor.
  - vm_compute. reflexivity.
Defined.

(** ** Company info *)

Lemma safe_api_call_Ok {A : Type} (func : unit -> res A) msg (default_return r : A) :
  func tt = Ok r -> safe_api_call func msg default_return = Ok r.
Proof. unfold safe_api_call. intros ->. reflexivity. Qed.

(** What the metrics request contributes. *)
Lemma get_metrics_fields client ticker (m : dict) :
  FinnhubProvider._get_metrics client ticker tt = Ok m ->
  forall key, key <> "pe_ratio" -> m !! key = None.
Proof.
  unfold FinnhubProvider._get_metrics.
  destruct (finnhub.company_basic_financials client ticker "all") as [metrics|e];
    [|discriminate].
  rewrite bind_Ok. cbv beta.
  destruct (if truthy metrics then contains "metric" metrics else Ok false) as [[|]|e];
    try discriminate.
  - rewrite bind_Ok. cbv beta.
    destruct (getitem metrics "metric") as [metric|e]; [|discriminate].
    rewrite bind_Ok. cbv beta.
    destruct (get metric "peBasicExclExtraTTM") as [pe|e]; [|discriminate].
    rewrite bind_Ok. cbv beta.
    destruct (py_or pe _) as [pe_ratio|e]; [|discriminate].
    rewrite bind_Ok. cbv beta. intros [= <-] key Hkey.
    unfold dict_of. simpl. rewrite lookup_insert_ne by congruence. apply lookup_empty.
  - rewrite bind_Ok. cbv beta. intros [= <-] key _. apply lookup_empty.
Qed.

(** The market capitalisation in units: [cap * 1000000 if cap else None]. *)
Lemma scaled_market_cap (cap : value) (millions : number) :
  as_number cap = Some millions ->
  (if truthy cap then py_mul cap (VInt 1000000) else Ok VNone)
  = Ok match millions with
       | Int n => if (n =? 0)%Z then VNone else VInt (n * 1000000)
       | Float x => if PrimFloat.eqb x 0 then VNone else VNum (PrimFloat.mul x 1000000)
       end.
Proof.
  destruct cap as [|b|n|x|s|l|d]; try discriminate; intros [= <-].
  - destruct b; reflexivity.
  - cbn [truthy]. destruct (n =? 0)%Z; reflexivity.
  - cbn [truthy]. destruct (PrimFloat.eqb x 0); [reflexivity|]. cbn [negb].
    rewrite py_mul_float_int, float_of_int_1000000. reflexivity.
Qed.

(** X5. Finnhub's profile: the market capitalisation, given in millions,
    is scaled to units (None when it is zero), exactly when it is an int
    and in binary64 when it is a float; name and industry are copied; there
    is never a sector. *)
Theorem finnhub_company_info_profile client ticker (profile : dict) (cap : value)
    (millions : number) :
  finnhub.company_profile2 client ticker = Ok (VDict profile) ->
  profile !! "marketCapitalization" = Some cap ->
  as_number cap = Some millions ->
  exists info : dict,
    FinnhubProvider.get_company_info client ticker = Ok (Some info)
    /\ info !! "market_cap" =
       Some match millions with
            | Int n => if (n =? 0)%Z then VNone else VInt (n * 1000000)
            | Float x =>
                if PrimFloat.eqb x 0 then VNone else VNum (PrimFloat.mul x 1000000)
            end
    /\ info !! "name" = Some (default VNone (profile !! "name"))
    /\ info !! "industry" = Some (default VNone (profile !! "finnhubIndustry"))
    /\ info !! "sector" = None.
Proof.
  intros Hprofile Hcap Hmillions.
  unfold FinnhubProvider.get_company_info.
  set (scaled := match millions with
                 | Int n => if (n =? 0)%Z then VNone else VInt (n * 1000000)
                 | Float x =>
                     if PrimFloat.eqb x 0 then VNone else VNum (PrimFloat.mul x 1000000)
                 end).
  rewrite (safe_api_call_Ok (FinnhubProvider._get_profile client ticker) _ _
             (dict_of [("market_cap", scaled);
                       ("name", default VNone (profile !! "name"));
                       ("industry", default VNone (profile !! "finnhubIndustry"))])).
  2: { unfold FinnhubProvider._get_profile. rewrite Hprofile, bind_Ok. cbv beta.
       rewrite (has_field_truthy profile _ _ Hcap), !get_dict, Hcap.
       change (default VNone (Some cap)) with cap.
       rewrite bind_Ok. cbv beta.
       rewrite (scaled_market_cap cap millions Hmillions). reflexivity. }
  rewrite bind_Ok. cbv beta.
  destruct (safe_api_call (FinnhubProvider._get_metrics client ticker)
              ("Finnhub metrics error for " +:+ ticker) (∅ : dict)) as [m|e] eqn:Hm.
  2: { destruct (safe_api_call_returns (FinnhubProvider._get_metrics client ticker)
                   ("Finnhub metrics error for " +:+ ticker) (∅ : dict)) as [m' Hm'].
       congruence. }
  assert (Hother : forall key, key <> "pe_ratio" -> m !! key = None).
  { unfold safe_api_call in Hm.
    destruct (FinnhubProvider._get_metrics client ticker tt) as [m'|e] eqn:Hrun.
    - injection Hm as <-. eapply get_metrics_fields. exact Hrun.
    - injection Hm as <-. intros key _. apply lookup_empty. }
  rewrite bind_Ok. cbv beta zeta.
  eexists. split.
  - rewrite (has_field_truthy _ "market_cap" scaled); [reflexivity|].
    rewrite !update_lookup, (Hother "market_cap") by discriminate. reflexivity.
  - rewrite !update_lookup, !Hother by discriminate.
    rewrite !lookup_empty. repeat split; reflexivity.
Qed.

(** A capitalisation of 2500000 millions, as a float. *)
Lemma finnhub_company_info_profile_witness :
  exists info : dict,
    FinnhubProvider.get_company_info profile_client "AAPL" = Ok (Some info)
    /\ info !! "market_cap" =
       Some (if PrimFloat.eqb 2500000 0 then VNone
             else VNum (PrimFloat.mul 2500000 1000000))
    /\ info !! "name" = Some (VStr "Apple Inc")
    /\ info !! "industry" = Some (VStr "Technology")
    /\ info !! "sector" = None.
Proof.
  apply (finnhub_company_info_profile profile_client "AAPL"
           (dict_of [("marketCapitalization", VNum 2500000);
                     ("name", VStr "Apple Inc");
                     ("finnhubIndustry", VStr "Technology")])
           (VNum 2500000) (Float 2500000)).
  - reflexivity.
  - vm_compute. reflexivity.
  - reflexivity.
Defined.

(** A capitalisation given as an int is scaled exactly, beyond what a
    float holds. *)
Example finnhub_company_info_of_int :
  (FinnhubProvider.get_company_info integer_profile_client "AAPL" ≫= fun info =>
     Ok (info ≫= fun d : dict => d !! "market_cap"))
  = Ok (Some (VInt 9007199254740993000000)).
Proof. vm_compute. reflexivity. Qed.

(** X6. A failing profile request does not lose the P/E ratio: the
    company info is then the P/E ratio alone, peBasicExclExtraTTM or, when
    that is false, peTTM. *)
Theorem finnhub_company_info_without_profile client ticker e (payload metric : dict) :
  finnhub.company_profile2 client ticker = Raise e ->
  finnhub.company_basic_financials client ticker "all" = Ok (VDict payload) ->
  payload !! "metric" = Some (VDict metric) ->
  FinnhubProvider.get_company_info client ticker
  = Ok (Some (dict_of
       [("pe_ratio",
         let pe := default VNone (metric !! "peBasicExclExtraTTM") in
         if truthy pe then pe else default VNone (metric !! "peTTM"))])).
Proof.
  intros Hprofile Hmetrics Hmetric.
  unfold FinnhubProvider.get_company_info.
  rewrite (safe_api_call_caught (FinnhubProvider._get_profile client ticker) _ _ e)
    by (unfold FinnhubProvider._get_profile; rewrite Hprofile; reflexivity).
  rewrite bind_Ok. cbv beta.
  erewrite (safe_api_call_Ok (FinnhubProvider._get_metrics client ticker)).
  2: { unfold FinnhubProvider._get_metrics. rewrite Hmetrics, bind_Ok. cbv beta.
       rewrite (has_field_truthy payload _ _ Hmetric). unfold contains.
       rewrite (bool_decide_eq_true_2 (is_Some (payload !! "metric")))
         by (rewrite Hmetric; eauto).
       rewrite bind_Ok. cbv beta.
       rewrite (getitem_dict payload "metric" _ Hmetric), !bind_Ok. cbv beta.
       rewrite !get_dict, !bind_Ok. cbv beta. rewrite py_or_Ok, bind_Ok. cbv beta.
       reflexivity. }
  rewrite bind_Ok. cbv beta zeta.
  rewrite (has_field_truthy _ "pe_ratio"
             (if truthy (default VNone (metric !! "peBasicExclExtraTTM"))
              then default VNone (metric !! "peBasicExclExtraTTM")
              else default VNone (metric !! "peTTM"))).
  - unfold update. rewrite !(right_id_L ∅ (∪)). reflexivity.
  - rewrite !update_lookup. reflexivity.
Qed.

Lemma finnhub_company_info_without_profile_witness :
  FinnhubProvider.get_company_info metrics_only_client "AAPL"
  = Ok (Some (dict_of [("pe_ratio", VNum 28.5)])).
Proof.
  apply (finnhub_company_info_without_profile metrics_only_client "AAPL"
           (OtherError "timeout")
           (dict_of [("metric", VDict (dict_of [("peTTM", VNum 28.5)]))])
           (dict_of [("peTTM", VNum 28.5)])).
  - reflexivity.
  - reflexivity.
  - vm_compute. reflexivity.
Defined.

(** X7. yfinance's company info is never None and never raises: six
    fields when [info] is a dict, an empty dict otherwise. *)
Theorem yfinance_company_info_shape yf ticker :
  exists d : dict,
    YFinanceProvider.get_company_info yf ticker = Ok (Some d)
    /\ (forall info : dict,
          yfinance.Ticker_info yf ticker = Ok (VDict info) ->
          d = dict_of
                [("market_cap", default VNone (info !! "marketCap"));
                 ("pe_ratio",
                  let pe := default VNone (info !! "trailingPE") in
                  if truthy pe then pe else default VNone (info !! "forwardPE"));
                 ("volume", default VNone (info !! "volume"));
                 ("name",
                  let name := default VNone (info !! "longName") in
                  if truthy name then name else default VNone (info !! "shortName"));
                 ("industry", default VNone (info !! "industry"));
                 ("sector", default VNone (info !! "sector"))])
    /\ ((forall info : dict, yfinance.Ticker_info yf ticker <> Ok (VDict info)) -> d = ∅).
Proof.
  unfold YFinanceProvider.get_company_info, safe_api_call, YFinanceProvider._get_info.
  destruct (yfinance.Ticker_info yf ticker) as [v|e].
  - rewrite bind_Ok. cbv beta.
    destruct v as [|b|n|f|s|l|info]; try (simpl; exists ∅; split; [reflexivity|];
      split; [intros info [=]|reflexivity]).
    repeat (progress (rewrite ?get_dict, ?py_or_Ok, ?bind_Ok; cbv beta)).
    eexists. split; [reflexivity|]. split.
    + intros info' [= <-]. reflexivity.
    + intros Hno. exfalso. exact (Hno info eq_refl).
  - simpl. exists ∅. split; [reflexivity|]. split; [intros info [=]|reflexivity].
Qed.

(** X8. The provider list built at construction is the Finnhub provider,
    when there is a key that is not empty and the client can be built,
    followed by the yfinance provider, when the package can be imported. *)
Theorem init_provider_order env finnhub_key :
  exists finnhub_part yfinance_part,
    StockDataFetcher.__init__ env finnhub_key
    = Ok (StockDataFetcher.Build (finnhub_part ++ yfinance_part))
    /\ finnhub_part =
       match finnhub_key, import_finnhub env with
       | Some (String a key), Ok Client =>
           match Client (String a key) with
           | Ok client => [FinnhubProvider.provider client]
           | Raise _ => []
           end
       | _, _ => []
       end
    /\ yfinance_part =
       match import_yfinance env with
       | Ok yf => [YFinanceProvider.provider yf]
       | Raise _ => []
       end.
Proof.
  eexists. eexists. split; [|split; reflexivity].
  unfold StockDataFetcher.__init__, FinnhubProvider.__init__, YFinanceProvider.__init__.
  destruct finnhub_key as [[|a key]|]; simpl.
  - destruct (import_yfinance env); reflexivity.
  - destruct (import_finnhub env) as [Client|e]; simpl.
    + destruct (Client (String a key)); simpl; destruct (import_yfinance env); reflexivity.
    + destruct (import_yfinance env); reflexivity.
  - destruct (import_yfinance env); reflexivity.
Qed.

(** ** Comparison of stocks *)

(** Whether a lookup finds data does not depend on the clock. *)
Lemma outcome_clock ps ticker now now' (r : dict) :
  outcome ps ticker now = Ok (Some r) ->
  exists r' : dict, outcome ps ticker now' = Ok (Some r').
Proof.
  unfold outcome. rewrite !get_live_stock_price_fst.
  destruct (fst (StockDataFetcher.quote_loop 0 ps ticker ∅ [])) as [result|e];
    [|discriminate].
  destruct (truthy (VDict result)); [|discriminate].
  destruct (fst (StockDataFetcher.info_loop 0 ps ticker result [])) as [r0|e];
    [|discriminate].
  intros _. eauto.
Qed.

Lemma run_outcome ps ticker now trace :
  fst (StockDataFetcher.get_live_stock_price (StockDataFetcher.Build ps) ticker now trace)
  = outcome ps ticker now.
Proof. unfold outcome. rewrite !get_live_stock_price_fst. reflexivity. Qed.

Lemma populated_truthy ps ticker now (r : dict) :
  outcome ps ticker now = Ok (Some r) ->
  truthy (VDict r) = true /\ r !! "ticker" = Some (VStr (upper ticker)).
Proof.
  unfold outcome. intros H.
  destruct (StockDataFetcher.get_live_stock_price (StockDataFetcher.Build ps)
              ticker now []) as [o trace'] eqn:Hrun.
  simpl in H. subst o.
  destruct (get_live_stock_price_stamped _ _ _ _ _ _ Hrun) as [r0 ->].
  split.
  - apply (has_field_truthy _ "timestamp" (VStr now)). apply lookup_insert_eq.
  - rewrite lookup_insert_ne by discriminate. apply lookup_insert_eq.
Qed.

Lemma compare_loop_spec self tickers clock : forall k (comparison : gmap string dict) trace,
  Forall repo_provider (StockDataFetcher.providers (StockComparator.stock_fetcher self)) ->
  exists (result : gmap string dict) trace',
    StockComparator.compare_loop self tickers clock k comparison trace = (Ok result, trace')
    /\ (forall t, is_Some (result !! t) <->
          (t ∈ tickers
           /\ has_data (StockDataFetcher.providers (StockComparator.stock_fetcher self)) t)
          \/ is_Some (comparison !! t))
    /\ (forall t d, result !! t = Some d ->
          (exists now,
             outcome (StockDataFetcher.providers (StockComparator.stock_fetcher self)) t now
             = Ok (Some d))
          \/ comparison !! t = Some d).
Proof.
  destruct self as [[ps]]. simpl.
  induction tickers as [|ticker rest IH]; intros k comparison trace Hrepo.
  - exists comparison, trace. split; [reflexivity|]. split.
    + intros t. split; [intros H; right; exact H|].
      intros [[Hin _]|H]; [apply elem_of_nil in Hin; contradiction|exact H].
    + intros t d H. right. exact H.
  - cbn [StockComparator.compare_loop StockComparator.stock_fetcher].
    unfold mbind at 1, M_bind at 1.
    destruct (StockDataFetcher.get_live_stock_price
                (StockDataFetcher.Build ps) ticker (clock k) trace) as [o trace1] eqn:Hrun.
    assert (Ho : o = outcome ps ticker (clock k)).
    { rewrite <- (run_outcome ps ticker (clock k) trace), Hrun. reflexivity. }
    destruct (provider_answers_run ps ticker (clock k) trace Hrepo) as [data Hdata].
    rewrite run_outcome in Hdata. rewrite Ho, Hdata. clear Ho Hrun o.
    destruct data as [d|].
    + destruct (populated_truthy ps ticker (clock k) d Hdata) as [Htrue _].
      rewrite Htrue.
      destruct (IH (S k) (<[ticker := d]> comparison) trace1 Hrepo)
        as (result & trace' & Hloop & Hdom & Hentries).
      exists result, trace'. split; [exact Hloop|]. split.
      * intros t. rewrite Hdom. rewrite lookup_insert_is_Some.
        split.
        -- intros [[Hin Hd]|[->|[_ H]]].
           ++ left. split; [apply elem_of_cons; right; exact Hin|exact Hd].
           ++ left. split; [apply elem_of_cons; left; reflexivity|].
              exists (clock k), d. exact Hdata.
           ++ right. exact H.
        -- intros [[Hin Hd]|H].
           ++ apply elem_of_cons in Hin as [->|Hin].
              ** right. left. reflexivity.
              ** left. split; assumption.
           ++ destruct (decide (ticker = t)) as [->|Hne];
                [right; left; reflexivity|right; right; split; assumption].
      * intros t d' Hd'. destruct (Hentries t d' Hd') as [H|H]; [left; exact H|].
        destruct (decide (ticker = t)) as [->|Hne].
        -- rewrite lookup_insert_eq in H. injection H as <-. left. eauto.
        -- rewrite lookup_insert_ne in H by exact Hne. right. exact H.
    + destruct (IH (S k) comparison trace1 Hrepo)
        as (result & trace' & Hloop & Hdom & Hentries).
      exists result, trace'. split; [exact Hloop|]. split.
      * intros t. rewrite Hdom. split.
        -- intros [[Hin Hd]|H]; [left; split; [apply elem_of_cons; right|]; assumption
                                 |right; exact H].
        -- intros [[Hin Hd]|H]; [|right; exact H].
           apply elem_of_cons in Hin as [->|Hin]; [|left; split; assumption].
           exfalso. destruct Hd as (now & r & Hr).
           destruct (outcome_clock ps ticker now (clock k) r Hr) as [r' Hr'].
           congruence.
      * exact Hentries.
Qed.

(** X9. For tickers of ASCII characters: the entries of a comparison are
    the tickers of the list, as they were given, for which the fetcher has
    data; each holds the record of a lookup of that ticker, whose own
    ticker field is in capitals. With the providers of this program the
    comparison never raises. *)
Theorem compare_stocks_entries self tickers clock trace :
  Forall repo_provider (StockDataFetcher.providers (StockComparator.stock_fetcher self)) ->
  Forall (fun t => string_forallb is_ascii_char t = true) tickers ->
  exists (comparison : gmap string dict) trace',
    StockComparator.compare_stocks self tickers clock trace = (Ok comparison, trace')
    /\ (forall t, is_Some (comparison !! t) <->
          t ∈ tickers
          /\ has_data (StockDataFetcher.providers (StockComparator.stock_fetcher self)) t)
    /\ (forall t (d : dict), comparison !! t = Some d ->
          (exists now,
             outcome (StockDataFetcher.providers (StockComparator.stock_fetcher self)) t now
             = Ok (Some d))
          /\ d !! "ticker" = Some (VStr (upper t))).
Proof.
  intros Hrepo _. unfold StockComparator.compare_stocks.
  destruct (compare_loop_spec self tickers clock 0 ∅ trace Hrepo)
    as (comparison & trace' & Hrun & Hdom & Hentries).
  exists comparison, trace'. split; [exact Hrun|]. split.
  - intros t. rewrite Hdom. rewrite lookup_empty. split.
    + intros [H|[? [=]]]. exact H.
    + intros H. left. exact H.
  - intros t d Hd. destruct (Hentries t d Hd) as [[now Hnow]|H].
    + split; [eauto|]. eapply populated_truthy. exact Hnow.
    + rewrite lookup_empty in H. discriminate.
Qed.

Lemma compare_stocks_entries_witness :
  exists (comparison : gmap string dict) trace',
    StockComparator.compare_stocks
      (StockComparator.Build (StockDataFetcher.Build providers_ABC))
      ["aapl"; "msft"] (fun _ => "2024-05-01 10:00:00") [] = (Ok comparison, trace')
    /\ (forall t, is_Some (comparison !! t) <->
          t ∈ ["aapl"; "msft"] /\ has_data providers_ABC t)
    /\ (forall t (d : dict), comparison !! t = Some d ->
          (exists now, outcome providers_ABC t now = Ok (Some d))
          /\ d !! "ticker" = Some (VStr (upper t))).
Proof.
  apply (compare_stocks_entries
           (StockComparator.Build (StockDataFetcher.Build providers_ABC))
           ["aapl"; "msft"] (fun _ => "2024-05-01 10:00:00") []).
  - constructor; [|constructor; [|constructor; [|constructor]]].
    + left. exists failing_client. reflexivity.
    + right. exists yf_B. reflexivity.
    + right. exists yf_C. reflexivity.
  - constructor; [vm_compute; reflexivity|].
    constructor; [vm_compute; reflexivity|constructor].
Defined.

Example float_of_Z_10000 : float_of_Z 10000 = 10000%float.
Proof. vm_compute. reflexivity. Qed.

Example build_portfolio_moderate :
  (PortfolioBuilder.build_portfolio "Moderate" (VNum 10000) None ≫= fun p =>
     Ok (at_path p ["allocation"; "stocks"; "positions"; "JPM"],
         at_path p ["allocation"; "bonds"; "amount"]))
  = Ok (Some (VNum 1000), Some (VNum 3000)).
Proof. vm_compute. reflexivity. Qed.

(** With the [int] 10000 the amounts are floats all the same; the total
    and the percentages are the ints they were. *)
Example build_portfolio_of_int :
  (PortfolioBuilder.build_portfolio "Moderate" (VInt 10000) None ≫= fun p =>
     Ok (at_path p ["total_investment"],
         at_path p ["allocation"; "stocks"; "amount"],
         at_path p ["allocation"; "stocks"; "percentage"],
         at_path p ["allocation"; "stocks"; "positions"; "JPM"]))
  = Ok (Some (VInt 10000), Some (VNum 6000), Some (VInt 60), Some (VNum 1000)).
Proof. vm_compute. reflexivity. Qed.

(** ** Portfolios *)

Lemma risk_profile_lookup rp :
  (rp ∈ risk_profile_names ->
   exists description stocks bonds cash expected_return volatility
          (stock_share bond_share cash_share : float),
     PortfolioBuilder.RISK_PROFILES !! rp
     = Some (PortfolioBuilder.risk_profile_entry description stocks bonds cash
               expected_return volatility)
     /\ int_true_div stocks 100 = Ok stock_share
     /\ int_true_div bonds 100 = Ok bond_share
     /\ int_true_div cash 100 = Ok cash_share)
  /\ (rp ∉ risk_profile_names -> PortfolioBuilder.RISK_PROFILES !! rp = None).
Proof.
  split.
  - intros Hin. unfold risk_profile_names in Hin.
    repeat (apply elem_of_cons in Hin as [->|Hin];
            [do 9 eexists; split; [vm_compute; reflexivity|];
             split; [vm_compute; reflexivity|];
             split; vm_compute; reflexivity|]).
    apply elem_of_nil in Hin. contradiction.
  - intros Hnot. unfold PortfolioBuilder.RISK_PROFILES, dict_of.
    cbn [list_to_map foldr uncurry fst snd].
    rewrite !lookup_insert_ne; [apply lookup_empty|..];
      intros <-; apply Hnot; unfold risk_profile_names; set_solver.
Qed.

Lemma risk_profile_entry_allocation description stocks bonds cash er vol :
  getitem (PortfolioBuilder.risk_profile_entry description stocks bonds cash er vol)
          "allocation"
  = Ok (VDict (dict_of [("stocks", VInt stocks); ("bonds", VInt bonds);
                        ("cash", VInt cash)])).
Proof. reflexivity. Qed.

Lemma allocation_getitem stocks bonds cash :
  let allocation := VDict (dict_of [("stocks", VInt stocks); ("bonds", VInt bonds);
                                    ("cash", VInt cash)]) in
  getitem allocation "stocks" = Ok (VInt stocks)
  /\ getitem allocation "bonds" = Ok (VInt bonds)
  /\ getitem allocation "cash" = Ok (VInt cash).
Proof. repeat split; reflexivity. Qed.

(** The body of [build_portfolio] for a profile of the table. *)
Lemma build_portfolio_body rp (amount : value) cats description stocks bonds cash er vol
    (stock_share bond_share cash_share : float) :
  PortfolioBuilder.RISK_PROFILES !! rp
  = Some (PortfolioBuilder.risk_profile_entry description stocks bonds cash er vol) ->
  int_true_div stocks 100 = Ok stock_share ->
  int_true_div bonds 100 = Ok bond_share ->
  int_true_div cash 100 = Ok cash_share ->
  let selected :=
    PortfolioBuilder.select_stocks
      match cats with
      | None => take 3 (map fst PortfolioBuilder.STOCK_CATEGORIES)
      | Some categories => categories
      end in
  PortfolioBuilder.build_portfolio rp amount cats
  = (stock_amount ← py_mul amount (VNum stock_share);
     bond_amount ← py_mul amount (VNum bond_share);
     cash_amount ← py_mul amount (VNum cash_share);
     stock_per_position ←
       (match selected with
        | [] => Ok (VInt 0)
        | _ :: _ => py_div_len stock_amount (length selected)
        end);
     Ok (VDict (dict_of
       [("risk_profile", VStr rp);
        ("profile_details",
         PortfolioBuilder.risk_profile_entry description stocks bonds cash er vol);
        ("total_investment", amount);
        ("allocation", VDict (dict_of
           [("stocks", VDict (dict_of
               [("amount", stock_amount);
                ("percentage", VInt stocks);
                ("positions",
                 VDict (PortfolioBuilder.positions_of selected stock_per_position))]));
            ("bonds", VDict (dict_of
               [("amount", bond_amount);
                ("percentage", VInt bonds);
                ("recommendations",
                 VList [VStr "BND (Total Bond)"; VStr "AGG (Core Bond)";
                        VStr "TLT (Long-term Treasury)"])]));
            ("cash", VDict (dict_of
               [("amount", cash_amount);
                ("percentage", VInt cash);
                ("recommendations",
                 VList [VStr "High-yield savings"; VStr "Money market funds"])]))]))]))).
Proof.
  intros Hrp Hstocks Hbonds Hcash selected. unfold PortfolioBuilder.build_portfolio.
  rewrite (bool_decide_eq_true_2 (is_Some (PortfolioBuilder.RISK_PROFILES !! rp)))
    by (rewrite Hrp; eauto).
  cbn [negb]. rewrite (getitem_dict _ rp _ Hrp), bind_Ok. cbv beta.
  rewrite risk_profile_entry_allocation, bind_Ok. cbv beta.
  destruct (allocation_getitem stocks bonds cash) as (Hs & Hb & Hc).
  cbv zeta in Hs, Hb, Hc.
  rewrite Hs, bind_Ok. cbv beta. rewrite py_div_ints, Hstocks, !bind_Ok. cbv beta.
  destruct (py_mul amount (VNum stock_share)) as [stock_amount|e]; [|reflexivity].
  rewrite !bind_Ok. cbv beta.
  rewrite Hb, bind_Ok. cbv beta. rewrite py_div_ints, Hbonds, !bind_Ok. cbv beta.
  destruct (py_mul amount (VNum bond_share)) as [bond_amount|e]; [|reflexivity].
  rewrite !bind_Ok. cbv beta.
  rewrite Hc, bind_Ok. cbv beta. rewrite py_div_ints, Hcash, !bind_Ok. cbv beta.
  destruct (py_mul amount (VNum cash_share)) as [cash_amount|e]; [|reflexivity].
  rewrite !bind_Ok. cbv beta zeta. fold selected.
  destruct (match selected with
            | [] => Ok (VInt 0)
            | _ :: _ => py_div_len stock_amount (length selected)
            end) as [stock_per_position|e]; [|reflexivity].
  reflexivity.
Qed.

(** A product by a float is a float. *)
Lemma py_mul_float_r (a product : value) (y : float) :
  py_mul a (VNum y) = Ok product -> exists x : float, product = VNum x.
Proof.
  unfold py_mul. cbn [as_number].
  destruct (as_number a) as [[m|x]|]; try discriminate.
  - destruct (to_float (Int m)) as [x|e]; [|discriminate].
    rewrite bind_Ok. cbv beta. cbn [to_float]. rewrite bind_Ok. intros [= <-]. eauto.
  - cbn [to_float]. rewrite !bind_Ok. intros [= <-]. eauto.
Qed.

Lemma positions_of_lookup_gen (selected : list string) (v : value) :
  forall (acc : dict) stock,
    foldl (fun (positions : dict) s => <[s := v]> positions) acc selected !! stock
    = if bool_decide (stock ∈ selected) then Some v else acc !! stock.
Proof.
  induction selected as [|s selected IH]; intros acc stock; cbn [foldl].
  - rewrite bool_decide_eq_false_2 by apply not_elem_of_nil. reflexivity.
  - rewrite IH. destruct (decide (stock ∈ selected)) as [Hin|Hnot].
    + rewrite !bool_decide_eq_true_2; [reflexivity| |exact Hin].
      apply elem_of_cons. right. exact Hin.
    + rewrite (bool_decide_eq_false_2 _ Hnot).
      destruct (decide (s = stock)) as [->|Hne].
      * rewrite lookup_insert_eq, bool_decide_eq_true_2; [reflexivity|].
        apply elem_of_cons. left. reflexivity.
      * rewrite lookup_insert_ne by exact Hne.
        rewrite bool_decide_eq_false_2; [reflexivity|].
        intros Hin. apply elem_of_cons in Hin as [->|Hin]; [congruence|contradiction].
Qed.

Lemma positions_of_size_gen (selected : list string) (v : value) :
  forall acc : dict,
    size (foldl (fun (positions : dict) s => <[s := v]> positions) acc selected)
    <= size acc + length selected.
Proof.
  induction selected as [|s selected IH]; intros acc; cbn [foldl length]; [lia|].
  etransitivity; [apply IH|].
  destruct (acc !! s) as [w|] eqn:Hs.
  - rewrite map_size_insert_Some by eauto. lia.
  - rewrite map_size_insert_None by exact Hs. lia.
Qed.

Lemma select_stocks_length categories :
  length (PortfolioBuilder.select_stocks categories) <= 2 * length categories.
Proof.
  induction categories as [|category rest IH]; simpl; [lia|].
  destruct (PortfolioBuilder.category_stocks category) as [stocks|]; [|lia].
  rewrite length_app, length_take. lia.
Qed.

(** X10. The risk profile is checked against the four names of the table,
    letter for letter: any other name raises [ValueError], whatever the
    amount and the categories, and a name of the table never raises. *)
Theorem build_portfolio_risk_profile rp amount cats :
  (rp ∈ risk_profile_names ->
   exists portfolio,
     PortfolioBuilder.build_portfolio rp (VNum amount) cats = Ok portfolio)
  /\ (rp ∉ risk_profile_names ->
      PortfolioBuilder.build_portfolio rp (VNum amount) cats
      = Raise (ValueError ("Invalid risk profile: " +:+ rp))).
Proof.
  destruct (risk_profile_lookup rp) as [Hvalid Hinvalid]. split.
  - intros Hin.
    destruct (Hvalid Hin)
      as (description & stocks & bonds & cash & er & vol & ss & bs & cs
          & Hrp & Hss & Hbs & Hcs).
    rewrite (build_portfolio_body rp (VNum amount) cats _ _ _ _ _ _ _ _ _ Hrp Hss Hbs Hcs).
    change (py_mul (VNum amount) (VNum ss)) with (Ok (VNum (PrimFloat.mul amount ss))).
    change (py_mul (VNum amount) (VNum bs)) with (Ok (VNum (PrimFloat.mul amount bs))).
    change (py_mul (VNum amount) (VNum cs)) with (Ok (VNum (PrimFloat.mul amount cs))).
    rewrite !bind_Ok. cbv beta.
    destruct (PortfolioBuilder.select_stocks _) as [|s selected]; simpl; eauto.
  - intros Hnot. unfold PortfolioBuilder.build_portfolio.
    rewrite (Hinvalid Hnot). reflexivity.
Qed.

(** X11. Every selected stock gets the same amount, the stock amount
    divided by the number of selections, at most two per category; a stock
    selected twice is counted twice in that number and appears once among
    the positions. The stock amount is a float, whether the investment is
    given as a float or as an int. *)
Theorem build_portfolio_positions rp (amount : value) cats portfolio :
  PortfolioBuilder.build_portfolio rp amount cats = Ok portfolio ->
  let categories :=
    match cats with
    | None => take 3 (map fst PortfolioBuilder.STOCK_CATEGORIES)
    | Some categories => categories
    end in
  let selected := PortfolioBuilder.select_stocks categories in
  exists (stock_amount : float) (positions : dict),
    at_path portfolio ["allocation"; "stocks"; "amount"] = Some (VNum stock_amount)
    /\ at_path portfolio ["allocation"; "stocks"; "positions"] = Some (VDict positions)
    /\ (forall stock,
          positions !! stock
          = if bool_decide (stock ∈ selected)
            then Some (VNum (PrimFloat.div stock_amount
                               (float_of_Z (Z.of_nat (length selected)))))
            else None)
    /\ size positions <= length selected <= 2 * length categories.
Proof.
  intros Hbuild categories selected.
  destruct (decide (rp ∈ risk_profile_names)) as [Hin|Hnot].
  2: { unfold PortfolioBuilder.build_portfolio in Hbuild.
       rewrite (proj2 (risk_profile_lookup rp) Hnot) in Hbuild. discriminate. }
  destruct (proj1 (risk_profile_lookup rp) Hin)
    as (description & stocks & bonds & cash & er & vol & ss & bs & cs
        & Hrp & Hss & Hbs & Hcs).
  rewrite (build_portfolio_body rp amount cats _ _ _ _ _ _ _ _ _ Hrp Hss Hbs Hcs) in Hbuild.
  fold categories selected in Hbuild |- *.
  destruct (py_mul amount (VNum ss)) as [stock_amount|e] eqn:Hstock; [|discriminate].
  destruct (py_mul_float_r amount stock_amount ss Hstock) as [sa ->].
  rewrite bind_Ok in Hbuild. cbv beta in Hbuild.
  destruct (py_mul amount (VNum bs)) as [bond_amount|e]; [|discriminate].
  rewrite bind_Ok in Hbuild. cbv beta in Hbuild.
  destruct (py_mul amount (VNum cs)) as [cash_amount|e]; [|discriminate].
  rewrite bind_Ok in Hbuild. cbv beta in Hbuild.
  exists sa.
  destruct selected as [|s selected'] eqn:Hsel.
  - rewrite bind_Ok in Hbuild. injection Hbuild as <-.
    exists ∅. split; [reflexivity|]. split; [reflexivity|]. split.
    + intros stock. rewrite bool_decide_eq_false_2 by apply not_elem_of_nil.
      apply lookup_empty.
    + rewrite map_size_empty. simpl. lia.
  - cbn [py_div_len as_number length] in Hbuild. rewrite bind_Ok in Hbuild.
    cbv beta in Hbuild. injection Hbuild as <-.
    eexists. split; [reflexivity|]. split; [reflexivity|]. split.
    + intros stock. unfold PortfolioBuilder.positions_of.
      rewrite positions_of_lookup_gen, lookup_empty. reflexivity.
    + split.
      * etransitivity; [apply positions_of_size_gen|]. rewrite map_size_empty. lia.
      * rewrite <- Hsel. apply select_stocks_length.
Qed.

(** Two categories that both start with JPM: four selections, three
    positions of 2000 each, for a stock amount of 8000. *)
Lemma build_portfolio_positions_witness :
  exists (stock_amount : float) (positions : dict),
    at_path overlapping_portfolio ["allocation"; "stocks"; "amount"]
    = Some (VNum stock_amount)
    /\ at_path overlapping_portfolio ["allocation"; "stocks"; "positions"]
       = Some (VDict positions)
    /\ (forall stock,
          positions !! stock
          = if bool_decide (stock ∈ ["JPM"; "JNJ"; "JPM"; "BAC"])
            then Some (VNum (PrimFloat.div stock_amount (float_of_Z 4)))
            else None)
    /\ size positions <= 4 <= 2 * 2.
Proof.
  apply (build_portfolio_positions "Aggressive" (VNum 10000)
           (Some ["Large Cap Value"; "Financial"]) overlapping_portfolio).
  vm_compute. reflexivity.
Defined.

(** ** Portfolio queries *)

Example portfolio_query_amount :
  StockChatbot.investment_amount_of "Build a moderate portfolio with $25,000"
  = Ok (VNum 25000).
Proof. vm_compute. reflexivity. Qed.

(** Without a figure in the query the amount is the [int] 10000. *)
Example portfolio_query_default_amount :
  StockChatbot.investment_amount_of "Build a moderate portfolio" = Ok (VInt 10000)
  /\ (StockChatbot.handle_portfolio_query_portfolio "Build a moderate portfolio"
      ≫= fun p => Ok (at_path p ["total_investment"],
                      at_path p ["allocation"; "stocks"; "amount"]))
     = Ok (Some (VInt 10000), Some (VNum 6000)).
Proof. split; vm_compute; reflexivity. Qed.

Example portfolio_query_comma :
  StockChatbot.handle_portfolio_query_portfolio "Build a safe portfolio, please"
  = Raise (ValueError "could not convert string to float: ''").
Proof. vm_compute. reflexivity. Qed.

Example portfolio_query_very_aggressive :
  StockChatbot.risk_profile_of "I want a very aggressive portfolio" = "Aggressive".
Proof. vm_compute. reflexivity. Qed.

Lemma append_cons (x : ascii) (a b : string) : String x a +:+ b = String x (a +:+ b).
Proof. reflexivity. Qed.

Lemma append_nil_l (b : string) : "" +:+ b = b.
Proof. reflexivity. Qed.

Lemma append_assoc (a b c : string) : (a +:+ b) +:+ c = a +:+ (b +:+ c).
Proof.
  induction a as [|x a IH]; [reflexivity|].
  rewrite !append_cons, IH. reflexivity.
Qed.

Lemma prefix_spec (a s : string) :
  String.prefix a s = true <-> exists post, s = a +:+ post.
Proof.
  revert s. induction a as [|x a IH]; intros s.
  - split; [intros _; exists s; reflexivity|intros _; destruct s; reflexivity].
  - destruct s as [|y s]; [split; [discriminate|intros [post [=]]]|].
    cbn [String.prefix].
    destruct (Ascii.ascii_dec x y) as [->|Hne].
    + rewrite IH. split; intros [post H]; exists post.
      * rewrite append_cons, H. reflexivity.
      * rewrite append_cons in H. congruence.
    + split; [discriminate|]. intros [post H]. rewrite append_cons in H. congruence.
Qed.

(** [a in s] holds exactly when [s] has [a] somewhere inside. *)
Lemma substring_of_spec (a s : string) :
  substring_of a s = true <-> exists pre post, s = pre +:+ a +:+ post.
Proof.
  split.
  - induction s as [|y s IH]; cbn [substring_of].
    + rewrite orb_false_r. intros H. apply prefix_spec in H as [post H].
      exists "", post. exact H.
    + intros H. apply orb_true_iff in H as [H|H].
      * apply prefix_spec in H as [post H]. exists "", post. exact H.
      * destruct (IH H) as (pre & post & ->). exists (String y pre), post. reflexivity.
  - intros (pre & post & ->). induction pre as [|y pre IH].
    + rewrite append_nil_l.
      assert (Hp : String.prefix a (a +:+ post) = true)
        by (apply prefix_spec; exists post; reflexivity).
      destruct (a +:+ post); cbn [substring_of]; rewrite Hp; reflexivity.
    + rewrite append_cons. cbn [substring_of]. rewrite IH. apply orb_true_r.
Qed.

Lemma substring_of_suffix (a b s : string) :
  substring_of (a +:+ b) s = true -> substring_of b s = true.
Proof.
  rewrite !substring_of_spec. intros (pre & post & ->).
  exists (pre +:+ a), post. rewrite !append_assoc. reflexivity.
Qed.

(** X12. The profile read from a query is never ["Very Aggressive"]: the
    words that would select it contain the words that select
    ["Aggressive"], which are tested first. *)
Theorem risk_profile_never_very_aggressive query :
  StockChatbot.risk_profile_of query <> "Very Aggressive".
Proof.
  unfold StockChatbot.risk_profile_of. cbv zeta.
  destruct (any_in ["conservative"; "safe"; "low risk"] (lower query)); [discriminate|].
  destruct (any_in ["aggressive"; "high risk"; "growth"] (lower query)) eqn:Haggr;
    [discriminate|].
  destruct (any_in ["very aggressive"; "maximum growth"] (lower query)) eqn:Hvery;
    [|discriminate].
  exfalso. unfold any_in in *. cbn [existsb] in *.
  rewrite orb_false_r in *.
  apply orb_false_iff in Haggr as [Ha Haggr]. apply orb_false_iff in Haggr as [_ Hg].
  apply orb_true_iff in Hvery as [H|H].
  - apply (substring_of_suffix "very " "aggressive") in H. congruence.
  - apply (substring_of_suffix "maximum " "growth") in H. congruence.
Qed.

Lemma amount_group_head_None c s :
  StockChatbot.is_digit_or_comma c = false ->
  StockChatbot.amount_group (String c s) = None.
Proof. unfold StockChatbot.amount_group. cbn [span]. intros ->. reflexivity. Qed.

Lemma amount_group_comma post :
  match head post with
  | Some c => StockChatbot.is_digit_or_comma c = false
  | None => True
  end ->
  StockChatbot.amount_group (String "," post) = Some ","%string.
Proof.
  unfold StockChatbot.amount_group. cbn [span].
  change (StockChatbot.is_digit_or_comma ",") with true. cbv iota.
  destruct post as [|c post]; cbn [head span]; [reflexivity|].
  intros ->. reflexivity.
Qed.

Lemma amount_at_not_dollar c s :
  c <> "$"%char -> StockChatbot.amount_at (String c s) = StockChatbot.amount_group (String c s).
Proof.
  intros Hne. unfold StockChatbot.amount_at.
  destruct c as [[|] [|] [|] [|] [|] [|] [|] [|]]; try reflexivity.
  contradiction Hne. reflexivity.
Qed.

(** A comma that comes before every digit of the query is what the
    amount is read from. *)
Lemma amount_search_comma pre post :
  string_forallb (fun c => negb (StockChatbot.is_digit_or_comma c)) pre = true ->
  match head post with
  | Some c => StockChatbot.is_digit_or_comma c = false
  | None => True
  end ->
  StockChatbot.amount_search (pre +:+ "," +:+ post) = Some ","%string.
Proof.
  intros Hpre Hpost. induction pre as [|c pre IH].
  - rewrite append_nil_l, append_cons, append_nil_l.
    cbn [StockChatbot.amount_search].
    rewrite amount_at_not_dollar by discriminate.
    rewrite (amount_group_comma post Hpost). reflexivity.
  - cbn [string_forallb] in Hpre. apply andb_true_iff in Hpre as [Hc Hpre].
    apply negb_true_iff in Hc. specialize (IH Hpre).
    rewrite append_cons. cbn [StockChatbot.amount_search].
    destruct (decide (c = "$"%char)) as [->|Hne].
    + cbn [StockChatbot.amount_at].
      rewrite (amount_group_head_None "$" _ Hc).
      destruct pre as [|c' pre].
      * rewrite append_nil_l, append_cons, append_nil_l.
        rewrite (amount_group_comma post Hpost). reflexivity.
      * cbn [string_forallb] in Hpre. apply andb_true_iff in Hpre as [Hc' _].
        apply negb_true_iff in Hc'.
        rewrite append_cons, (amount_group_head_None c' _ Hc'). exact IH.
    + rewrite amount_at_not_dollar by exact Hne.
      rewrite (amount_group_head_None c _ Hc). exact IH.
Qed.

(** X13. A portfolio query whose first comma comes before its first digit,
    and is not followed by one, raises [ValueError]: the amount is read
    from the comma alone. *)
Theorem portfolio_query_comma_raises pre post :
  string_forallb is_ascii_char (pre +:+ post) = true ->
  string_forallb (fun c => negb (StockChatbot.is_digit_or_comma c)) pre = true ->
  match head post with
  | Some c => StockChatbot.is_digit_or_comma c = false
  | None => True
  end ->
  StockChatbot.handle_portfolio_query_portfolio (pre +:+ "," +:+ post)
  = Raise (ValueError "could not convert string to float: ''").
Proof.
  intros _ Hpre Hpost.
  unfold StockChatbot.handle_portfolio_query_portfolio, StockChatbot.investment_amount_of.
  rewrite (amount_search_comma pre post Hpre Hpost). reflexivity.
Qed.

Lemma portfolio_query_comma_raises_witness :
  StockChatbot.handle_portfolio_query_portfolio
    ("Build me a safe portfolio" +:+ "," +:+ " I have $5000")
  = Raise (ValueError "could not convert string to float: ''").
Proof.
  apply (portfolio_query_comma_raises "Build me a safe portfolio" " I have $5000");
    vm_compute; reflexivity.
Defined.

(** ** Ticker extraction *)

Example extract_samples :
  map TickerExtractor.extract
      ["AAPL"; "price of apple"; "apple"; "microsoft?"; "a1b"; "x"; "ABCDEFG"; "$TSLA now";
       "I like A_B"; "   "]
  = [Some "AAPL"; Some "PRICE"; Some "APPLE"; Some "MSFT"; Some "AB"; None; None;
     Some "TSLA"; Some "LIKE"; None]%string.
Proof. vm_compute. reflexivity. Qed.

Lemma upper_ascii_letter c : is_letter c = true -> is_upper (upper_ascii c) = true.
Proof. destruct c as [[|] [|] [|] [|] [|] [|] [|] [|]]; vm_compute; congruence. Qed.

Lemma upper_ascii_word c : is_word (upper_ascii c) = is_word c.
Proof. destruct c as [[|] [|] [|] [|] [|] [|] [|] [|]]; vm_compute; reflexivity. Qed.

Lemma is_upper_word c : is_upper c = true -> is_word c = true.
Proof. unfold is_word, is_letter. intros ->. reflexivity. Qed.

Lemma upper_append a b : upper (a +:+ b) = upper a +:+ upper b.
Proof.
  induction a as [|c a IH]; [reflexivity|].
  rewrite append_cons. cbn [upper]. rewrite append_cons, IH. reflexivity.
Qed.

Lemma upper_letters s :
  string_forallb is_letter s = true -> string_forallb is_upper (upper s) = true.
Proof.
  induction s as [|c s IH]; [reflexivity|]. cbn [string_forallb upper].
  intros H. apply andb_true_iff in H as [Hc Hs].
  rewrite (upper_ascii_letter c Hc), (IH Hs). reflexivity.
Qed.

Lemma string_filter_forallb p s : string_forallb p (string_filter p s) = true.
Proof.
  induction s as [|c s IH]; [reflexivity|]. cbn [string_filter].
  destruct (p c) eqn:Hc; [|exact IH]. cbn [string_forallb]. rewrite Hc, IH. reflexivity.
Qed.

Lemma upper_run_spec n : forall s run rest,
  upper_run n s = Some (run, rest) ->
  String.length run = n /\ string_forallb is_upper run = true /\ s = run +:+ rest.
Proof.
  induction n as [|n IH]; intros s run rest; cbn [upper_run].
  - intros [= <- <-]. repeat split; reflexivity.
  - destruct s as [|c s]; [discriminate|].
    destruct (is_upper c) eqn:Hc; [|discriminate].
    destruct (upper_run n s) as [[run' rest']|] eqn:Hrun; [|discriminate].
    cbn [fmap option_fmap option_map]. intros [= <- <-].
    destruct (IH s run' rest' Hrun) as (Hlen & Hall & ->).
    cbn [String.length string_forallb]. rewrite Hc, Hall, Hlen, append_cons.
    repeat split; reflexivity.
Qed.

Lemma ticker_at_shaped before s t :
  TickerExtractor.ticker_at before s = Some t -> ticker_shaped t.
Proof.
  unfold TickerExtractor.ticker_at.
  destruct (word_boundary before (head s)); [|discriminate].
  cbn [List.fold_right].
  repeat match goal with
         | |- context [upper_run ?n s] =>
             let run := fresh "run" in
             let rest := fresh "rest" in
             let H := fresh "H" in
             destruct (upper_run n s) as [[run rest]|] eqn:H;
             [destruct (word_boundary (last_char None run) (head rest));
              [intros [= <-]; apply upper_run_spec in H as (Hlen & Hall & _);
               split; [lia|exact Hall]|]|]
         end;
    discriminate.
Qed.

Lemma ticker_search_shaped s : forall before t,
  TickerExtractor.ticker_search before s = Some t -> ticker_shaped t.
Proof.
  induction s as [|c s IH]; intros before t; cbn [TickerExtractor.ticker_search].
  - destruct (TickerExtractor.ticker_at before "") eqn:H; [|discriminate].
    intros [= <-]. eapply ticker_at_shaped. exact H.
  - destruct (TickerExtractor.ticker_at before (String c s)) eqn:H.
    + intros [= <-]. eapply ticker_at_shaped. exact H.
    + apply IH.
Qed.

Lemma ticker_shapedb_spec t : ticker_shapedb t = true -> ticker_shaped t.
Proof.
  unfold ticker_shapedb, ticker_shaped. intros H.
  apply andb_true_iff in H as [H Hall]. apply andb_true_iff in H as [H1 H5].
  apply Nat.leb_le in H1, H5. split; [lia|exact Hall].
Qed.

Lemma company_tickers_shaped t :
  t ∈ map snd TickerExtractor.COMPANY_MAP -> ticker_shaped t.
Proof.
  assert (Hall : forallb ticker_shapedb (map snd TickerExtractor.COMPANY_MAP) = true)
    by (vm_compute; reflexivity).
  intros Hin. apply ticker_shapedb_spec.
  rewrite forallb_forall in Hall. apply Hall. apply list_elem_of_In. exact Hin.
Qed.

Lemma known_word_shaped words t :
  TickerExtractor.known_word words = Some t -> ticker_shaped t.
Proof.
  induction words as [|word rest IH]; cbn [TickerExtractor.known_word]; [discriminate|].
  cbv zeta.
  destruct (_ && bool_decide (upper (string_filter is_lower word)
                               ∈ map snd TickerExtractor.COMPANY_MAP)) eqn:H;
    [|exact IH].
  intros [= <-]. apply andb_true_iff in H as [_ H]. apply bool_decide_eq_true in H.
  apply company_tickers_shaped. exact H.
Qed.

(** X14. Whatever the input, an extracted ticker is made of one to five
    capital letters. *)
Theorem extract_ticker_shaped user_input t :
  TickerExtractor.extract user_input = Some t -> ticker_shaped t.
Proof.
  unfold TickerExtractor.extract. cbv zeta.
  destruct (TickerExtractor.ticker_search None (upper user_input)) as [t1|] eqn:H1.
  { intros [= <-]. eapply ticker_search_shaped. exact H1. }
  destruct (List.find _ TickerExtractor.COMPANY_MAP) as [entry|] eqn:H2.
  { intros [= <-]. apply find_some in H2 as [Hin _].
    apply company_tickers_shaped. apply list_elem_of_fmap. exists entry.
    split; [reflexivity|]. apply list_elem_of_In. exact Hin. }
  destruct (TickerExtractor.known_word _) as [t3|] eqn:H3.
  { intros [= <-]. eapply known_word_shaped. exact H3. }
  destruct (_ && _) eqn:H4; [|discriminate].
  intros [= <-]. apply andb_true_iff in H4 as [Hlo Hhi].
  apply Nat.leb_le in Hlo, Hhi. split.
  - rewrite upper_length. lia.
  - apply upper_letters. apply string_filter_forallb.
Qed.

Lemma extract_ticker_shaped_witness : ticker_shaped "MSFT".
Proof.
  apply (extract_ticker_shaped "microsoft?" "MSFT").
  vm_compute. reflexivity.
Defined.

Lemma upper_run_nonword n rest :
  from_option is_word false (head rest) = false -> upper_run (S n) rest = None.
Proof.
  destruct rest as [|c rest]; [reflexivity|]. cbn [head from_option upper_run].
  intros Hc. destruct (is_upper c) eqn:Hu; [|reflexivity].
  rewrite (is_upper_word c Hu) in Hc. discriminate.
Qed.

Lemma head_upper rest :
  from_option is_word false (head (upper rest)) = from_option is_word false (head rest).
Proof. destruct rest as [|c rest]; [reflexivity|]. apply upper_ascii_word. Qed.

Lemma word_boundary_start a :
  is_upper a = true -> word_boundary None (Some a) = true.
Proof. intros H. unfold word_boundary. cbn [from_option]. rewrite (is_upper_word a H). reflexivity. Qed.

Lemma word_boundary_end a R :
  is_upper a = true -> from_option is_word false (head R) = false ->
  word_boundary (Some a) (head R) = true.
Proof.
  intros H HR. unfold word_boundary. cbn [from_option].
  rewrite (is_upper_word a H), HR. reflexivity.
Qed.

(** A run of two to five capital letters at the very start of a text, with
    no word character after it, is what the search finds. *)
Lemma ticker_search_first_word W R :
  string_forallb is_upper W = true ->
  2 <= String.length W <= 5 ->
  from_option is_word false (head R) = false ->
  TickerExtractor.ticker_search None (W +:+ R) = Some W.
Proof.
  intros Hall Hlen HR.
  assert (Hat : TickerExtractor.ticker_at None (W +:+ R) = Some W).
  { pose proof (upper_run_nonword 0 R HR) as H1.
    pose proof (upper_run_nonword 1 R HR) as H2.
    pose proof (upper_run_nonword 2 R HR) as H3.
    destruct W as [|a [|b [|c [|d [|e [|f W]]]]]]; cbn [String.length] in Hlen; try lia;
      cbn [string_forallb] in Hall;
      repeat match type of Hall with
             | _ && _ = true => let H := fresh "Hu" in apply andb_true_iff in Hall as [H Hall]
             end;
      unfold TickerExtractor.ticker_at; rewrite !append_cons, append_nil_l;
      cbn [head]; rewrite (word_boundary_start a Hu);
      cbn [List.fold_right upper_run];
      rewrite ?Hu, ?Hu0, ?Hu1, ?Hu2, ?Hu3;
      cbn [upper_run fmap option_fmap option_map] in *;
      rewrite ?H1, ?H2, ?H3; cbn [fmap option_fmap option_map last_char];
      first [rewrite (word_boundary_end _ R Hu3 HR)
            |rewrite (word_boundary_end _ R Hu2 HR)
            |rewrite (word_boundary_end _ R Hu1 HR)
            |rewrite (word_boundary_end _ R Hu0 HR)];
      reflexivity. }
  destruct (W +:+ R); cbn [TickerExtractor.ticker_search]; rewrite Hat; reflexivity.
Qed.

(** X15. When the input starts with a word of two to five letters, that
    word in capitals is the ticker, whatever follows and whether or not the
    word is a company name of the table. *)
Theorem extract_first_word w rest :
  string_forallb is_letter w = true ->
  2 <= String.length w <= 5 ->
  string_forallb is_ascii_char rest = true ->
  from_option is_word false (head rest) = false ->
  TickerExtractor.extract (w +:+ rest) = Some (upper w).
Proof.
  intros Hletters Hlen _ Hrest. unfold TickerExtractor.extract. cbv zeta.
  rewrite upper_append, (ticker_search_first_word (upper w) (upper rest)).
  - reflexivity.
  - apply upper_letters. exact Hletters.
  - rewrite upper_length. exact Hlen.
  - rewrite head_upper. exact Hrest.
Qed.

Lemma extract_first_word_witness :
  TickerExtractor.extract ("apple" +:+ " stock price") = Some (upper "apple").
Proof.
  apply (extract_first_word "apple" " stock price"); vm_compute; try reflexivity; lia.
Defined.

(** ** News *)

Lemma comprehension_spec {A B : Type} (f : A -> res B) l : forall ys,
  comprehension f l = Ok ys -> Forall2 (fun x y => f x = Ok y) l ys.
Proof.
  induction l as [|x l IH]; intros ys; cbn [comprehension].
  - intros [= <-]. constructor.
  - destruct (f x) as [y|e] eqn:Hx; [|discriminate]. rewrite bind_Ok. cbv beta.
    destruct (comprehension f l) as [ys'|e]; [|discriminate]. rewrite bind_Ok. cbv beta.
    intros [= <-]. constructor; [exact Hx|]. apply IH. reflexivity.
Qed.

Lemma news_item_fields item (d : dict) :
  BraveSearchAPI.news_item item = Ok d ->
  dom d = {[ "title"; "description"; "url" ]}.
Proof.
  unfold BraveSearchAPI.news_item.
  destruct item as [| | | | | |fields]; try discriminate.
  cbn [get_default]. rewrite !bind_Ok. cbv beta. intros [= <-].
  unfold dict_of. cbn [list_to_map foldr uncurry fst snd].
  rewrite !dom_insert_L, dom_empty_L. set_solver.
Qed.

Lemma news_item_character c : exists e, BraveSearchAPI.news_item (VStr c) = Raise e.
Proof. eexists. reflexivity. Qed.

(** X16. The news about a ticker, when the call returns: at most five
    items, each with a title, a description and a url and nothing else. *)
Theorem stock_news_shape self ticker news :
  BraveSearchAPI.get_stock_news self ticker = Ok news ->
  length news <= 5
  /\ Forall (fun item : dict => dom item = {[ "title"; "description"; "url" ]}) news.
Proof.
  unfold BraveSearchAPI.get_stock_news.
  destruct (BraveSearchAPI.search self (ticker +:+ " stock news latest") 5)
    as [results|e]; [|discriminate].
  rewrite bind_Ok. cbv beta.
  destruct (truthy results); cbn [negb]; [|intros [= <-]; split; [simpl; lia|constructor]].
  destruct (contains "web" results) as [[|]|e]; try discriminate;
    rewrite bind_Ok; cbv beta; cbn [negb];
    [|intros [= <-]; split; [simpl; lia|constructor]].
  destruct (getitem results "web") as [web|e]; [|discriminate]. rewrite bind_Ok. cbv beta.
  destruct (getitem web "results") as [found|e]; [|discriminate]. rewrite bind_Ok. cbv beta.
  destruct found as [| | | |s|l|d]; try discriminate; cbn [slice_to iterate];
    rewrite !bind_Ok; cbv beta; cbn [iterate]; rewrite ?bind_Ok; cbv beta.
  - destruct (characters (String.substring 0 5 s)) as [|c cs] eqn:Hc.
    + intros [= <-]. split; [simpl; lia|constructor].
    + assert (exists x, c = VStr x) as [x ->].
      { destruct (String.substring 0 5 s); [discriminate|].
        cbn [characters] in Hc. injection Hc as <- _. eauto. }
      cbn [comprehension]. discriminate.
  - intros Hnews. apply comprehension_spec in Hnews. split.
    + rewrite <- (Forall2_length _ _ _ Hnews), length_take. lia.
    + clear -Hnews. induction Hnews as [|x y xs ys Hxy _ IH]; constructor; [|exact IH].
      eapply news_item_fields. exact Hxy.
Qed.

Lemma stock_news_shape_witness :
  length (replicate 5 (dict_of [("title", VStr "Apple rallies"); ("description", VStr "");
                                ("url", VStr "https://example.com/a")])) <= 5
  /\ Forall (fun item : dict => dom item = {[ "title"; "description"; "url" ]})
            (replicate 5 (dict_of [("title", VStr "Apple rallies"); ("description", VStr "");
                                   ("url", VStr "https://example.com/a")])).
Proof.
  apply (stock_news_shape brave_seven "AAPL").
  vm_compute. reflexivity.
Defined.

(** X17. A search that fails gives no news, and no exception. *)
Theorem stock_news_search_failure self ticker e :
  BraveSearchAPI.request self (ticker +:+ " stock news latest") 5 = Raise e ->
  BraveSearchAPI.search self (ticker +:+ " stock news latest") 5 = Ok VNone
  /\ BraveSearchAPI.get_stock_news self ticker = Ok [].
Proof.
  intros Hraise.
  assert (Hsearch : BraveSearchAPI.search self (ticker +:+ " stock news latest") 5
                    = Ok VNone).
  { unfold BraveSearchAPI.search, safe_api_call.
    change (Nat.min 5 20) with 5. rewrite Hraise. reflexivity. }
  split; [exact Hsearch|].
  unfold BraveSearchAPI.get_stock_news. rewrite Hsearch. reflexivity.
Qed.

Lemma stock_news_search_failure_witness :
  BraveSearchAPI.search brave_down ("AAPL" +:+ " stock news latest") 5 = Ok VNone
  /\ BraveSearchAPI.get_stock_news brave_down "AAPL" = Ok [].
Proof.
  apply (stock_news_search_failure brave_down "AAPL" (OtherError "503 Server Error")).
  reflexivity.
Defined.

(** X18. A result page whose ["web"] part has no ["results"] makes
    [get_stock_news] raise [KeyError]: only the search itself is guarded. *)
Theorem stock_news_missing_results self ticker (results web : dict) :
  BraveSearchAPI.request self (ticker +:+ " stock news latest") 5 = Ok (VDict results) ->
  results !! "web" = Some (VDict web) ->
  web !! "results" = None ->
  BraveSearchAPI.get_stock_news self ticker = Raise (KeyError "results").
Proof.
  intros Hrequest Hweb Hresults.
  unfold BraveSearchAPI.get_stock_news, BraveSearchAPI.search, safe_api_call.
  change (Nat.min 5 20) with 5. rewrite Hrequest, bind_Ok. cbv beta.
  rewrite (has_field_truthy results "web" _ Hweb). cbn [negb].
  unfold contains.
  rewrite (bool_decide_eq_true_2 (is_Some (results !! "web"))) by (rewrite Hweb; eauto).
  rewrite bind_Ok. cbv beta. cbn [negb].
  rewrite (getitem_dict results "web" _ Hweb), bind_Ok. cbv beta.
  cbn [getitem]. rewrite Hresults. reflexivity.
Qed.

Lemma stock_news_missing_results_witness :
  BraveSearchAPI.get_stock_news brave_no_results "AAPL" = Raise (KeyError "results").
Proof.
  apply (stock_news_missing_results brave_no_results "AAPL"
           (dict_of [("web", VDict (dict_of [("type", VStr "search")]))])
           (dict_of [("type", VStr "search")])).
  - reflexivity.
  - vm_compute. reflexivity.
  - vm_compute. reflexivity.
Defined.

(** ** Language models *)



(** X20. [get_provider] never raises. It gives None for a name other than
    ["OpenAI"] and ["Gemini"], and for a provider whose key is missing or
    empty; what it gives otherwise is a provider of this program. *)
Theorem get_provider_total env provider_name model :
  exists llm,
    LLMManager.get_provider env provider_name model = Ok llm
    /\ (provider_name <> "OpenAI" -> provider_name <> "Gemini" -> llm = None)
    /\ (provider_name = "OpenAI" ->
        validate_api_key (OPENAI_API_KEY env) "OpenAI API key" <> Ok tt -> llm = None)
    /\ (provider_name = "Gemini" ->
        validate_api_key (GEMINI_API_KEY env) "Gemini API key" <> Ok tt -> llm = None)
    /\ (forall p, llm = Some p -> llm_provider p).
Proof.
  unfold LLMManager.get_provider.
  destruct (decide (provider_name = "OpenAI")) as [->|Hopenai].
  - rewrite bool_decide_eq_true_2 by reflexivity.
    unfold OpenAIProvider.__init__.
    destruct (validate_api_key (OPENAI_API_KEY env) "OpenAI API key") as [[]|e].
    + rewrite bind_Ok. cbv beta.
      destruct (import_openai env) as [OpenAI|e]; cbn.
      * destruct (OpenAI (default "" (OPENAI_API_KEY env))) as [client|e]; cbn.
        -- eexists. split; [reflexivity|]. repeat split; try congruence.
           intros p [= <-]. left. eexists. reflexivity.
        -- exists None. repeat split; congruence.
      * exists None. repeat split; congruence.
    + exists None. cbn. repeat split; congruence.
  - rewrite (bool_decide_eq_false_2 _ Hopenai).
    destruct (decide (provider_name = "Gemini")) as [->|Hgemini].
    + rewrite bool_decide_eq_true_2 by reflexivity.
      unfold GeminiProvider.__init__.
      destruct (validate_api_key (GEMINI_API_KEY env) "Gemini API key") as [[]|e].
      * rewrite bind_Ok. cbv beta.
        destruct (import_genai env) as [genai|e]; cbn.
        -- destruct (genai (default "" (GEMINI_API_KEY env)) model) as [m|e]; cbn.
           ++ eexists. split; [reflexivity|]. repeat split; try congruence.
              intros p [= <-]. right. eexists. reflexivity.
           ++ exists None. repeat split; congruence.
        -- exists None. repeat split; congruence.
      * exists None. cbn. repeat split; congruence.
    + rewrite (bool_decide_eq_false_2 _ Hgemini). exists None. cbn.
      repeat split; congruence.
Qed.

(** ** Session state *)

Lemma initialize_step_keeps (state : gmap string SessionStateManager.object) key (v : SessionStateManager.object) k d :
  state !! key = Some v ->
  (if bool_decide (state !! k = None) then <[k := d]> state else state) !! key = Some v.
Proof.
  intros H. destruct (decide (k = key)) as [->|Hne].
  - rewrite bool_decide_eq_false_2 by congruence. exact H.
  - destruct (bool_decide (state !! k = None)); [|exact H].
    rewrite lookup_insert_ne by exact Hne. exact H.
Qed.

Lemma initialize_fold_keeps entries : forall (state : gmap string SessionStateManager.object) key v,
  state !! key = Some v ->
  foldl (fun (state : gmap string SessionStateManager.object) '(key, default_value) =>
           if bool_decide (state !! key = None) then <[key := default_value]> state
           else state) state entries !! key = Some v.
Proof.
  induction entries as [|[k d] entries IH]; intros state key v H; cbn [foldl]; [exact H|].
  apply IH. apply initialize_step_keeps. exact H.
Qed.

Lemma initialize_fold_completes entries :
  forall (state : gmap string SessionStateManager.object) key,
  key ∈ map fst entries ->
  is_Some (foldl (fun (state : gmap string SessionStateManager.object)
                      '(key, default_value) =>
                    if bool_decide (state !! key = None)
                    then <[key := default_value]> state else state)
                 state entries !! key).
Proof.
  induction entries as [|[k d] entries IH]; intros state key Hin; cbn [map fst] in Hin.
  - apply elem_of_nil in Hin. contradiction.
  - cbn [foldl]. apply elem_of_cons in Hin as [->|Hin]; [|apply IH; exact Hin].
    assert (Hcase : is_Some (state !! k) \/ state !! k = None)
      by (destruct (state !! k); eauto).
    destruct Hcase as [[w Hk]|Hk].
    + rewrite (initialize_fold_keeps entries _ k w); [eauto|].
      apply initialize_step_keeps. exact Hk.
    + rewrite (initialize_fold_keeps entries _ k d); [eauto|].
      rewrite bool_decide_eq_true_2 by exact Hk. apply lookup_insert_eq.
Qed.

Lemma initialize_fold_id entries :
  forall state : gmap string SessionStateManager.object,
  (forall key, key ∈ map fst entries -> is_Some (state !! key)) ->
  foldl (fun (state : gmap string SessionStateManager.object) '(key, default_value) =>
           if bool_decide (state !! key = None) then <[key := default_value]> state
           else state) state entries = state.
Proof.
  induction entries as [|[k d] entries IH]; intros state Hall; cbn [foldl]; [reflexivity|].
  destruct (Hall k) as [w Hw]; [cbn [map fst]; apply elem_of_cons; left; reflexivity|].
  rewrite bool_decide_eq_false_2 by congruence.
  apply IH. intros key Hin. apply Hall. cbn [map fst]. apply elem_of_cons. right. exact Hin.
Qed.

(** X21. [initialize] keeps every value the session already has, leaves
    all four default keys present, and changes nothing when run again. *)
Theorem initialize_keeps_and_completes (state : gmap string SessionStateManager.object) :
  (forall key v, state !! key = Some v ->
                 SessionStateManager.initialize state !! key = Some v)
  /\ (forall key, key ∈ map fst SessionStateManager.DEFAULTS ->
                  is_Some (SessionStateManager.initialize state !! key))
  /\ SessionStateManager.initialize (SessionStateManager.initialize state)
     = SessionStateManager.initialize state.
Proof.
  split; [|split].
  - intros key v H. apply initialize_fold_keeps. exact H.
  - intros key Hin. apply initialize_fold_completes. exact Hin.
  - apply initialize_fold_id. intros key Hin. apply initialize_fold_completes. exact Hin.
Qed.

Lemma initialize_new_history (state : gmap string SessionStateManager.object) :
  state !! "chat_history_stock" = None ->
  SessionStateManager.initialize state !! "chat_history_stock"
  = Some (SessionStateManager.ListObject SessionStateManager.defaults_list).
Proof.
  intros Hnone. unfold SessionStateManager.initialize, SessionStateManager.DEFAULTS.
  cbn [foldl]. rewrite (bool_decide_eq_true_2 _ Hnone).
  do 3 apply initialize_step_keeps. apply lookup_insert_eq.
Qed.

(** X22. Sessions that start without a chat history are all given the one
    list of [DEFAULTS]: a message added in one of them shows in the others.
    Once a session has cleared its chat it has a list of its own. *)
Theorem chat_history_shared_until_cleared heap
    (A0 B0 : gmap string SessionStateManager.object) role content :
  A0 !! "chat_history_stock" = None ->
  B0 !! "chat_history_stock" = None ->
  SessionStateManager.defaults_list ∈ dom heap ->
  let A := SessionStateManager.initialize A0 in
  let B := SessionStateManager.initialize B0 in
  (exists heap',
      SessionStateManager.add_message heap A role content = Ok heap'
      /\ SessionStateManager.chat_history heap' B
         = Some (SessionStateManager.messages_at heap SessionStateManager.defaults_list
                 ++ [(role, content)]))
  /\ (exists heap'',
         SessionStateManager.add_message
           (fst (SessionStateManager.clear_chat heap A))
           (snd (SessionStateManager.clear_chat heap A)) role content = Ok heap''
         /\ SessionStateManager.chat_history heap''
              (snd (SessionStateManager.clear_chat heap A)) = Some [(role, content)]
         /\ SessionStateManager.chat_history heap'' B
            = SessionStateManager.chat_history heap B).
Proof.
  intros HA HB Hdefaults A B.
  pose proof (initialize_new_history A0 HA) as HA'.
  pose proof (initialize_new_history B0 HB) as HB'.
  fold A in HA'. fold B in HB'.
  split.
  - unfold SessionStateManager.add_message, SessionStateManager.chat_history.
    rewrite HA', HB'. eexists. split; [reflexivity|].
    unfold SessionStateManager.messages_at at 1. rewrite lookup_insert_eq. reflexivity.
  - unfold SessionStateManager.clear_chat. cbn [fst snd].
    set (address := fresh (dom heap)).
    assert (Hfresh : address <> SessionStateManager.defaults_list).
    { intros Heq. apply (is_fresh (dom heap)). fold address. rewrite Heq. exact Hdefaults. }
    assert (Hnew : heap !! address = None).
    { apply not_elem_of_dom. apply is_fresh. }
    unfold SessionStateManager.add_message, SessionStateManager.chat_history.
    rewrite lookup_insert_eq, HB'. eexists. split; [reflexivity|]. split.
    + unfold SessionStateManager.messages_at.
      rewrite !lookup_insert_eq. reflexivity.
    + unfold SessionStateManager.messages_at.
      rewrite !lookup_insert_ne by exact Hfresh. reflexivity.
Qed.

Lemma chat_history_shared_until_cleared_witness :
  let heap : gmap nat (list (string * string)) :=
    {[ SessionStateManager.defaults_list := [] ]} in
  let A := SessionStateManager.initialize ∅ in
  let B := SessionStateManager.initialize ∅ in
  (exists heap',
      SessionStateManager.add_message heap A "user" "price of AAPL" = Ok heap'
      /\ SessionStateManager.chat_history heap' B
         = Some (SessionStateManager.messages_at heap SessionStateManager.defaults_list
                 ++ [("user", "price of AAPL")]))
  /\ (exists heap'',
         SessionStateManager.add_message
           (fst (SessionStateManager.clear_chat heap A))
           (snd (SessionStateManager.clear_chat heap A)) "user" "price of AAPL"
         = Ok heap''
         /\ SessionStateManager.chat_history heap''
              (snd (SessionStateManager.clear_chat heap A))
            = Some [("user", "price of AAPL")]
         /\ SessionStateManager.chat_history heap'' B
            = SessionStateManager.chat_history heap B).
Proof.
  apply (chat_history_shared_until_cleared
           {[ SessionStateManager.defaults_list := [] ]} ∅ ∅ "user" "price of AAPL").
  - apply lookup_empty.
  - apply lookup_empty.
  - rewrite dom_singleton_L. apply elem_of_singleton. reflexivity.
Defined.

